(** * neomodel relationship manager: a shallow embedding

    The embedding follows [neomodel/relationship_manager.py]: the class
    registry check of [RelationshipDefinition.__init__], the mutation and
    read operations of [RelationshipManager] and the proxies to the match
    engine.  Python exceptions are values of [exn]; the graph session, the
    property layer and the match engine are collaborators that live in other
    modules and are gathered in the class [Collaborators].  Statements on
    the state of the graph after a query take a session that runs the query
    as the query language defines it; [Cypher] gives that meaning for the
    clauses [reconnect] writes. *)

From Stdlib Require Import ZArith.
From stdpp Require Import gmap strings list.

Set Warnings "-register-all".

Local Open Scope Z_scope.

(** ** Python values and dictionaries *)

(** The values that travel as query parameters. *)
Inductive value : Type :=
| VNone
| VBool (b : bool)
| VInt (z : Z)
| VStr (s : string)
| VList (l : list value).

Definition is_None (v : value) : bool :=
  match v with VNone => true | _ => false end.

(** A Python [dict] with string keys keeps its insertion order, and the
    order reaches the rendered query, so a dictionary is the list of its
    items. *)
Module Dict.

Abbreviation t V := (list (string * V)).

Definition empty {V} : t V := [].

Fixpoint get {V} (d : t V) (k : string) : option V :=
  match d with
  | [] => None
  | (k', v) :: d' => if String.eqb k' k then Some v else get d' k
  end.

(** [d[k] = v]: overwrite in place, or append a new item. *)
Fixpoint set {V} (d : t V) (k : string) (v : V) : t V :=
  match d with
  | [] => [(k, v)]
  | (k', v') :: d' =>
      if String.eqb k' k then (k', v) :: d' else (k', v') :: set d' k v
  end.

Definition keys {V} (d : t V) : list string := map fst d.

Definition items {V} (d : t V) : list (string * V) := d.

(** Truth value of a dictionary: non-empty. *)
Definition truthy {V} (d : t V) : bool :=
  match d with [] => false | _ => true end.

End Dict.

(** ** Classes *)

(** A class object: its name and its direct bases.  The hierarchy is a
    finite tree, as Python's is acyclic. *)
Inductive pyclass : Type :=
| PyClass (name : string) (bases : list pyclass).

Definition __name__ (c : pyclass) : string :=
  match c with PyClass n _ => n end.

Definition __bases__ (c : pyclass) : list pyclass :=
  match c with PyClass _ bs => bs end.

(** [c == d] on class objects. *)
Fixpoint pyclass_eqb (c d : pyclass) : bool :=
  match c, d with
  | PyClass n bs, PyClass m ds =>
      String.eqb n m &&
      (fix all2 (l1 l2 : list pyclass) : bool :=
         match l1, l2 with
         | [], [] => true
         | x :: xs, y :: ys => pyclass_eqb x y && all2 xs ys
         | _, _ => false
         end) bs ds
  end.

(** [issubclass(c, d)]: [d] is [c] or is reachable through the bases. *)
Fixpoint issubclass (c d : pyclass) : bool :=
  pyclass_eqb c d
  || match c with
     | PyClass _ bs => existsb (fun b => issubclass b d) bs
     end.

(** checks if obj is a direct subclass, 1 level *)
Definition is_direct_subclass (obj classinfo : pyclass) : bool :=
  existsb (fun base => pyclass_eqb base classinfo) (__bases__ obj).

(** ** Nodes *)

(** A node instance.  [node_id] is [None] until the node is saved
    ([hasattr(obj, 'id')] is false), [deleted] is set by a delete. *)
Record StructuredNode : Type := Node {
  __class__ : pyclass;
  node_id : option Z;
  deleted : bool
}.

Definition hasattr_id (obj : StructuredNode) : bool :=
  match node_id obj with Some _ => true | None => false end.

Inductive direction_t : Type := OUTGOING | INCOMING | EITHER.

Definition direction_eqb (a b : direction_t) : bool :=
  match a, b with
  | OUTGOING, OUTGOING | INCOMING, INCOMING | EITHER, EITHER => true
  | _, _ => false
  end.

(** ** Exceptions *)

Inductive exn : Type :=
| ValueError (msg : string)
| NotImplementedError (msg : string)
| AttributeError (attr : string)
| IndexError
| NotConnected (action : string) (node1 node2 : StructuredNode)
| RelationshipClassRedefined
    (rel_type : string) (registry : gmap (gset string) pyclass) (model : pyclass)
| OtherError (name : string).

Definition result (A : Type) : Type := exn + A.

(** ** The edge-class registry and relationship definitions *)

Section Definition_.

(** The base class of edge-property classes, from [neomodel.relationship]. *)
Variable StructuredRel : pyclass.

(** The endpoint of a relationship: a class, or the name of one that is
    looked up on first use. *)
Inductive raw_class : Type :=
| ClassRef (c : pyclass)
| ClassName (name : string).

(** The attributes [RelationshipDefinition.__init__] sets.  The entries of
    [self.definition] are the last three fields; its ['node_class'] entry is
    added by [_lookup_node_class] when a manager is built. *)
Record RelationshipDefinition (manager_t : Type) : Type := {
  module_name : string;
  module_file : option string;
  _raw_class : raw_class;
  manager : manager_t;
  def_relation_type : string;
  def_direction : direction_t;
  def_model : option pyclass
}.

(** [RelationshipDefinition.__init__].  The frame walk only computes
    [module_name] and [module_file], which are taken here as found; the
    rest is the registry update on [db._NODE_CLASS_REGISTRY]. *)
Definition RelationshipDefinition_init {manager_t : Type}
    (found_name : string) (found_file : option string)
    (relation_type : string) (cls_name : raw_class) (dir : direction_t)
    (mgr : manager_t) (model : option pyclass)
    (registry : gmap (gset string) pyclass)
  : result (RelationshipDefinition manager_t) * gmap (gset string) pyclass :=
  let self := {| module_name := found_name;
                 module_file := found_file;
                 _raw_class := cls_name;
                 manager := mgr;
                 def_relation_type := relation_type;
                 def_direction := dir;
                 def_model := model |} in
  match model with
  | None => (inr self, registry)
  | Some model =>
      let label_set : gset string := {[ relation_type ]} in
      match registry !! label_set with
      | Some model_from_registry =>
          if negb (issubclass model model_from_registry) then
            let is_parent := issubclass model_from_registry model in
            if is_direct_subclass model StructuredRel && negb is_parent then
              (inl (RelationshipClassRedefined relation_type registry model),
               registry)
            else (inr self, registry)
          else (inr self, <[ label_set := model ]> registry)
      | None =>
          (* except KeyError: the mapping does not exist, create it *)
          (inr self, <[ label_set := model ]> registry)
      end
  end.

(** [_relate]: [isinstance(cls_name, (basestring, object))] holds of every
    object, so only the model check can fail. *)
Definition _relate {manager_t : Type}
    (found_name : string) (found_file : option string)
    (cls_name : raw_class) (dir : direction_t) (rel_type : string)
    (cardinality : manager_t) (model : option pyclass)
    (registry : gmap (gset string) pyclass)
  : result (RelationshipDefinition manager_t) * gmap (gset string) pyclass :=
  match model with
  | Some m =>
      if negb (issubclass m StructuredRel) then
        (inl (ValueError "model must be a StructuredRel"), registry)
      else RelationshipDefinition_init found_name found_file
             rel_type cls_name dir cardinality model registry
  | None =>
      RelationshipDefinition_init found_name found_file
        rel_type cls_name dir cardinality model registry
  end.

Definition RelationshipTo {manager_t : Type} found_name found_file
    cls_name rel_type (cardinality : manager_t) model registry :=
  _relate found_name found_file cls_name OUTGOING rel_type cardinality model registry.

Definition RelationshipFrom {manager_t : Type} found_name found_file
    cls_name rel_type (cardinality : manager_t) model registry :=
  _relate found_name found_file cls_name INCOMING rel_type cardinality model registry.

Definition Relationship {manager_t : Type} found_name found_file
    cls_name rel_type (cardinality : manager_t) model registry :=
  _relate found_name found_file cls_name EITHER rel_type cardinality model registry.

End Definition_.

(** ** The relationship manager *)

(** [self.definition] as a manager sees it, after [_lookup_node_class] has
    stored the endpoint class. *)
Record definition : Type := {
  relation_type : string;
  direction : direction_t;
  model : option pyclass;
  node_class : pyclass
}.

(** An edge-property instance: its class, its property values and the two
    class back-references the manager assigns. *)
Record StructuredRelInstance : Type := {
  rel_class : pyclass;
  __properties__ : Dict.t value;
  _start_node_class : option pyclass;
  _end_node_class : option pyclass
}.

(** [RelationshipManager.__init__] *)
Record RelationshipManager : Type := {
  source : StructuredNode;
  source_class : pyclass;
  name : string;
  definition_of : definition
}.

Definition RelationshipManager_init
    (source : StructuredNode) (key : string) (definition : definition)
  : RelationshipManager :=
  {| source := source;
     source_class := __class__ source;
     name := key;
     definition_of := definition |}.

(** What [connect] returns: [True] without an edge-property class, the
    inflated instance with one. *)
Inductive connected : Type :=
| ConnectedTrue
| ConnectedRel (r : StructuredRelInstance).

(** [type(None)], the class of a missing [node] argument. *)
Definition NoneType : pyclass := PyClass "NoneType" [PyClass "object" []].

(** The arguments a proxy forwards to the match engine. *)
Inductive engine_call (pyargs : Type) : Type :=
| NodeSet_get (kwargs : pyargs)
| NodeSet_get_or_none (kwargs : pyargs)
| NodeSet_filter (args : pyargs)
| NodeSet_order_by (props : pyargs)
| NodeSet_exclude (args : pyargs)
| NodeSet_values (args : pyargs)
| Traversal_match (kwargs : pyargs)
| Traversal_all
| Traversal_iter
| Traversal_len
| Traversal_bool
| Traversal_nonzero
| Traversal_contains (obj : StructuredNode)
| Traversal_getitem (key : Z).

Arguments NodeSet_get {pyargs}.
Arguments NodeSet_get_or_none {pyargs}.
Arguments NodeSet_filter {pyargs}.
Arguments NodeSet_order_by {pyargs}.
Arguments NodeSet_exclude {pyargs}.
Arguments NodeSet_values {pyargs}.
Arguments Traversal_match {pyargs}.
Arguments Traversal_all {pyargs}.
Arguments Traversal_iter {pyargs}.
Arguments Traversal_len {pyargs}.
Arguments Traversal_bool {pyargs}.
Arguments Traversal_nonzero {pyargs}.
Arguments Traversal_contains {pyargs}.
Arguments Traversal_getitem {pyargs}.

(** ** The world *)

(** The graph, the queries this layer has sent to the session, and every
    exception that was raised along the way, by the layer or by a
    collaborator. *)
Record world_of (graph : Type) : Type := World {
  db : graph;
  issued : list (string * option (Dict.t value));
  raised : list exn
}.

Arguments World {graph}.
Arguments db {graph}.
Arguments issued {graph}.
Arguments raised {graph}.

(** ** Collaborators *)

(** What this module imports and calls but does not define. *)
Class Collaborators : Type := {
  (** The state of the graph behind the session, a relationship as the
      driver returns it, a node key, and what the match engine takes and
      gives back. *)
  graph : Type;
  raw_rel : Type;
  UUID : Type;
  pyargs : Type;
  pyobj : Type;

  (** The base class of edge-property classes. *)
  StructuredRel : pyclass;

  (** [str(uuid)], [repr(obj)] and the class attribute [__label__]. *)
  str_uuid : UUID -> string;
  repr : StructuredNode -> string;
  __label__ : pyclass -> string;

  (** [source.cypher(query, params)]: the session runs the query for the
      node and returns the result rows (the meta part is never read), or an
      error. *)
  node_cypher :
    StructuredNode -> string -> option (Dict.t value) -> graph ->
    result (list (list raw_rel)) * graph;

  (** The pattern builders of [neomodel.match], called with [lhs], [rhs],
      [ident], (for the merge form) [relation_properties], and the entries
      of the definition. *)
  _rel_helper : string -> string -> string -> definition -> string;
  _rel_merge_helper :
    string -> string -> string -> option (Dict.t (option string)) ->
    definition -> string;

  _get_node_properties : raw_rel -> Dict.t value;

  (** The property layer of an edge-property class: its declared fields
      with their declared defaults, [deflate], [inflate], and the hooks an
      instance may have.  A hook acts on the graph. *)
  defined_properties : pyclass -> list (string * option value);
  rel_deflate : pyclass -> Dict.t value -> result (Dict.t value);
  rel_inflate : pyclass -> raw_rel -> result StructuredRelInstance;
  pre_save :
    pyclass -> option (StructuredRelInstance -> graph -> result unit * graph);
  post_save :
    pyclass -> option (StructuredRelInstance -> graph -> result unit * graph);

  (** The match engine: a call on [Traversal(source, name, definition)],
      wrapped in a [NodeSet] where the proxy does so, and [all()] on a
      [NodeSet]. *)
  engine :
    engine_call pyargs -> StructuredNode -> string -> definition -> graph ->
    result pyobj * graph;
  nodeset_all : pyobj -> graph -> result pyobj * graph
}.

(** ** Frames, modules and the lookup of the endpoint class *)

From Stdlib Require Import Ascii.

(** [s.find(c)] for a one-character [c]: the first index, or [-1]. *)
Fixpoint find (s : string) (c : Ascii.ascii) : Z :=
  match s with
  | EmptyString => -1
  | String a s' =>
      if Ascii.eqb a c then 0
      else if Z.eqb (find s' c) (-1) then -1 else find s' c + 1
  end.

(** The split of [s] at the last [c], when there is one. *)
Fixpoint rsplit (s : string) (c : Ascii.ascii) : option (string * string) :=
  match s with
  | EmptyString => None
  | String a s' =>
      match rsplit s' c with
      | Some (head, tail) => Some (String a head, tail)
      | None => if Ascii.eqb a c then Some (EmptyString, s') else None
      end
  end.

(** [s.rpartition(c)] for a one-character [c]. *)
Definition rpartition (s : string) (c : Ascii.ascii) : string * string * string :=
  match rsplit s c with
  | Some (head, tail) => (head, String c EmptyString, tail)
  | None => (EmptyString, EmptyString, s)
  end.

(** [sub in s] on strings. *)
Fixpoint contains (sub s : string) : bool :=
  String.prefix sub s
  || match s with
     | EmptyString => false
     | String _ s' => contains sub s'
     end.

(** The globals of a frame, as far as they are read: the entry [__name__],
    which every module namespace has, the entry [__file__] when there is
    one, and the other names the namespace defines. *)
Record frame : Type := {
  f_name : string;
  f_file : option string;
  f_defined : gset string
}.

(** [k in frame.f_globals] *)
Definition in_globals (k : string) (f : frame) : bool :=
  String.eqb k "__name__"
  || (String.eqb k "__file__" && bool_decide (is_Some (f_file f)))
  || bool_decide (k ∈ f_defined f).

(** [cls_name in frame.f_globals]: a class object is never a key of a
    namespace, whose keys are strings. *)
Definition raw_in_globals (cls_name : raw_class) (f : frame) : bool :=
  match cls_name with
  | ClassRef _ => false
  | ClassName n => in_globals n f
  end.

(** The loop over [enumerate_traceback]: the depth of the innermost frame
    whose globals hold [cls_name], and 4 when there is none.  The stack
    starts with the frame of [__init__] itself. *)
Definition frame_number (cls_name : raw_class) (stack : list frame) : nat :=
  match list_find (raw_in_globals cls_name) stack with
  | Some (i, _) => i
  | None => 4%nat
  end.

(** The call [RelationshipDefinition(...)] on a given stack:
    [sys._getframe(frame_number)] fails on a stack that is not deep enough,
    and otherwise gives the module name and file that [__init__] keeps. *)
Definition RelationshipDefinition_call {manager_t : Type}
    (StructuredRel : pyclass) (stack : list frame)
    (relation_type : string) (cls_name : raw_class) (dir : direction_t)
    (mgr : manager_t) (model : option pyclass)
    (registry : gmap (gset string) pyclass)
  : result (RelationshipDefinition manager_t) * gmap (gset string) pyclass :=
  match stack !! frame_number cls_name stack with
  | None => (inl (ValueError "call stack is not deep enough"), registry)
  | Some f =>
      RelationshipDefinition_init StructuredRel (f_name f) (f_file f)
        relation_type cls_name dir mgr model registry
  end.

(** A loaded module: its [__name__] and the classes it defines, by
    attribute name.  Attributes that are not classes are left out. *)
Record pymodule : Type := {
  m_name : string;
  m_classes : gmap string pyclass
}.

(** [ImportError(msg)] *)
Definition ImportError (msg : string) : exn :=
  OtherError ("ImportError: " +:+ msg).

Section Lookup.

(** [import_module(name, package)] of [importlib]: it may load modules into
    [sys.modules], and gives the [__name__] of the module it imported or
    fails. *)
Variable import_module :
  string -> option string -> gmap string pymodule ->
  result string * gmap string pymodule.

(** [getattr(sys.modules[module], name)] *)
Definition getattr_module (sys_modules : gmap string pymodule)
    (module name : string) : result pyclass :=
  match sys_modules !! module with
  | None => inl (OtherError "KeyError")
  | Some m =>
      match m_classes m !! name with
      | Some c => inr c
      | None => inl (AttributeError name)
      end
  end.

(** [RelationshipDefinition._lookup_node_class]: the class that ends up in
    [self.definition['node_class']], with [sys.modules] threaded through. *)
Definition _lookup_node_class {manager_t : Type}
    (self : RelationshipDefinition manager_t)
    (sys_modules : gmap string pymodule)
  : result pyclass * gmap string pymodule :=
  match _raw_class manager_t self with
  | ClassRef c => (inr c, sys_modules)
  | ClassName name =>
      let '(module, name) :=
        if Z.eqb (find name "."%char) (-1) then (module_name manager_t self, name)
        else let '(module, _, name) := rpartition name "."%char in (module, name) in
      match sys_modules !! module with
      | Some _ => (getattr_module sys_modules module name, sys_modules)
      | None =>
          match module_file manager_t self with
          | None =>
              (inl (ImportError ("Couldn't lookup '" +:+ name +:+ "'")),
               sys_modules)
          | Some file =>
              let namespace :=
                if contains "__init__.py" file then module_name manager_t self
                else (rpartition (module_name manager_t self) "."%char).1.1 in
              let '(imported, sys_modules) :=
                match module with
                | EmptyString => import_module namespace None sys_modules
                | _ => import_module module (Some namespace) sys_modules
                end in
              match imported with
              | inl e => (inl e, sys_modules)
              | inr module => (getattr_module sys_modules module name, sys_modules)
              end
          end
      end
  end.

(** [RelationshipDefinition.build_manager]: the endpoint class is looked up
    and the manager class is called with the source, the name and the
    definition. *)
Definition build_manager {Mgr : Type}
    (self : RelationshipDefinition (StructuredNode -> string -> definition -> Mgr))
    (source : StructuredNode) (name : string)
    (sys_modules : gmap string pymodule)
  : result Mgr * gmap string pymodule :=
  match _lookup_node_class self sys_modules with
  | (inl e, sys_modules) => (inl e, sys_modules)
  | (inr c, sys_modules) =>
      (inr (manager _ self source name
              {| relation_type := def_relation_type _ self;
                 direction := def_direction _ self;
                 model := def_model _ self;
                 node_class := c |}),
       sys_modules)
  end.

End Lookup.

(** A relationship of zero or more nodes (the default): the manager class
    adds only its [description]. *)
Definition ZeroOrMore : StructuredNode -> string -> definition -> RelationshipManager :=
  RelationshipManager_init.

(** ** The query language of the session

    The database that runs the queries is not part of this module.  What
    [reconnect] writes uses seven kinds of clause; this is their meaning on
    a property graph, clause by clause and row by row, as the query language
    defines it.  A statement that speaks of the state of the graph after a
    query takes, as a hypothesis, a session that runs its query this way. *)
Module Cypher.

(** An edge: its type, its two ends and its properties.  The graph keeps the
    nodes by identity and the edges under an identity of their own. *)
Record edge : Type := Edge {
  etype : string;
  estart : Z;
  eend : Z;
  eprops : Dict.t value
}.

Record pgraph : Type := Graph {
  pnodes : gset Z;
  pedges : gmap nat edge
}.

(** What a name of the query is bound to, and a row of bindings. *)
Inductive entity : Type :=
| NodeRef (i : Z)
| EdgeRef (i : nat).

Abbreviation row := (Dict.t entity).

Inductive clause : Type :=
| MatchNodes (bindings : list (string * string))
| MatchRel (lhs rhs ident : string) (d : definition)
| MergeRel (lhs rhs ident : string) (d : definition)
| SetProperty (target key source : string)
| With (ident : string)
| Delete (ident : string)
| Return (ident : string).

(** The graph, the rows that reach the next clause, and what [RETURN]
    gave. *)
Record state : Type := State {
  graph_of : pgraph;
  table : list row;
  output : list (list edge)
}.

Definition node_of (r : row) (x : string) : option Z :=
  match Dict.get r x with Some (NodeRef i) => Some i | _ => None end.

Definition edge_of (r : row) (x : string) : option nat :=
  match Dict.get r x with Some (EdgeRef i) => Some i | _ => None end.

Definition param (params : Dict.t value) (p : string) : option Z :=
  match Dict.get params p with Some (VInt i) => Some i | _ => None end.

(** The pattern between [s] (the left name) and [t] (the right name) that
    the definition gives: the type of the edge, and its direction. *)
Definition connects (d : definition) (s t : Z) (e : edge) : bool :=
  String.eqb (etype e) (relation_type d)
  && match direction d with
     | OUTGOING => Z.eqb (estart e) s && Z.eqb (eend e) t
     | INCOMING => Z.eqb (estart e) t && Z.eqb (eend e) s
     | EITHER =>
         (Z.eqb (estart e) s && Z.eqb (eend e) t)
         || (Z.eqb (estart e) t && Z.eqb (eend e) s)
     end.

(** The edges of the graph that fit the pattern, with their identities. *)
Definition matches (d : definition) (s t : Z) (g : pgraph) : list (nat * edge) :=
  map_to_list (filter (fun ie => connects d s t ie.2 = true) (pedges g)).

(** [MATCH (v) WHERE id(v)=$p]: the node is there or the rows are gone. *)
Definition bind_node (params : Dict.t value) (g : pgraph)
    (rows : list row) (b : string * string) : list row :=
  match param params b.2 with
  | Some i =>
      if decide (i ∈ pnodes g)
      then map (fun r => Dict.set r b.1 (NodeRef i)) rows
      else []
  | None => []
  end.

(** [MATCH] of a pattern between two bound names: one row for each edge
    that fits. *)
Definition match_row (d : definition) (lhs rhs ident : string) (g : pgraph)
    (r : row) : list row :=
  match node_of r lhs, node_of r rhs with
  | Some s, Some t =>
      map (fun ie => Dict.set r ident (EdgeRef ie.1)) (matches d s t g)
  | _, _ => []
  end.

(** The edge [MERGE] creates when nothing fits: no properties; the
    direction of the pattern, left to right when it has none. *)
Definition new_edge (d : definition) (s t : Z) : edge :=
  match direction d with
  | INCOMING =>
      {| etype := relation_type d; estart := t; eend := s; eprops := [] |}
  | _ =>
      {| etype := relation_type d; estart := s; eend := t; eprops := [] |}
  end.

(** [MERGE] of a pattern between two bound names, for one row, on the graph
    the rows before it have left: the edges that fit, or a new one. *)
Definition merge_row (d : definition) (lhs rhs ident : string)
    (acc : pgraph * list row) (r : row) : pgraph * list row :=
  match node_of r lhs, node_of r rhs with
  | Some s, Some t =>
      match matches d s t acc.1 with
      | [] =>
          let i := fresh (dom (pedges acc.1)) in
          ({| pnodes := pnodes acc.1;
              pedges := <[ i := new_edge d s t ]> (pedges acc.1) |},
           acc.2 ++ [Dict.set r ident (EdgeRef i)])
      | found =>
          (acc.1,
           acc.2 ++ map (fun ie => Dict.set r ident (EdgeRef ie.1)) found)
      end
  | _, _ => acc
  end.

(** [d.pop(k, None)] *)
Definition drop {V} (d : Dict.t V) (k : string) : Dict.t V :=
  List.filter (fun kv => negb (String.eqb kv.1 k)) d.

(** Setting a property to a missing value removes it. *)
Definition set_prop (key : string) (v : option value) (e : edge) : edge :=
  {| etype := etype e; estart := estart e; eend := eend e;
     eprops := match v with
               | Some v => Dict.set (eprops e) key v
               | None => drop (eprops e) key
               end |}.

(** [SET target.key = source.key], for one row. *)
Definition set_row (target key source : string) (g : pgraph) (r : row) : pgraph :=
  match edge_of r target, edge_of r source with
  | Some a, Some b =>
      match pedges g !! b with
      | Some eb =>
          {| pnodes := pnodes g;
             pedges := alter (set_prop key (Dict.get (eprops eb) key)) a
                         (pedges g) |}
      | None => g
      end
  | _, _ => g
  end.

(** [WITH ident]: the row keeps that name only. *)
Definition project (ident : string) (r : row) : row :=
  match Dict.get r ident with
  | Some x => [(ident, x)]
  | None => []
  end.

Definition delete_row (ident : string) (g : pgraph) (r : row) : pgraph :=
  match edge_of r ident with
  | Some i => {| pnodes := pnodes g; pedges := delete i (pedges g) |}
  | None => g
  end.

Definition return_row (ident : string) (g : pgraph) (r : row) : list edge :=
  match edge_of r ident with
  | Some i =>
      match pedges g !! i with
      | Some e => [e]
      | None => []
      end
  | None => []
  end.

Definition step (params : Dict.t value) (st : state) (c : clause) : state :=
  let g := graph_of st in
  match c with
  | MatchNodes bindings =>
      {| graph_of := g;
         table := fold_left (bind_node params g) bindings (table st);
         output := output st |}
  | MatchRel lhs rhs ident d =>
      {| graph_of := g;
         table := flat_map (match_row d lhs rhs ident g) (table st);
         output := output st |}
  | MergeRel lhs rhs ident d =>
      let merged := fold_left (merge_row d lhs rhs ident) (table st) (g, []) in
      {| graph_of := merged.1; table := merged.2; output := output st |}
  | SetProperty target key source =>
      {| graph_of := fold_left (set_row target key source) (table st) g;
         table := table st;
         output := output st |}
  | With ident =>
      {| graph_of := g;
         table := map (project ident) (table st);
         output := output st |}
  | Delete ident =>
      {| graph_of := fold_left (delete_row ident) (table st) g;
         table := table st;
         output := output st |}
  | Return ident =>
      {| graph_of := g;
         table := map (project ident) (table st);
         output := map (return_row ident g) (table st) |}
  end.

(** A query starts from one empty row. *)
Definition start (g : pgraph) : state :=
  {| graph_of := g; table := [[]]; output := [] |}.

Definition run_from (params : Dict.t value) (query : list clause) (st : state)
  : state :=
  fold_left (step params) query st.

Definition run (params : Dict.t value) (query : list clause) (g : pgraph)
  : state :=
  run_from params query (start g).

(** The states the query goes through, one after each clause. *)
Fixpoint states (params : Dict.t value) (query : list clause) (st : state)
  : list state :=
  match query with
  | [] => []
  | c :: query' => step params st c :: states params query' (step params st c)
  end.

(** The text of a clause, with the two pattern builders of
    [neomodel.match] for the patterns. *)
Definition render_clause
    (rel_helper : string -> string -> string -> definition -> string)
    (rel_merge_helper :
       string -> string -> string -> option (Dict.t (option string)) ->
       definition -> string)
    (c : clause) : string :=
  match c with
  | MatchNodes bindings =>
      "MATCH "
      +:+ String.concat ", " (map (fun b => "(" +:+ b.1 +:+ ")") bindings)
      +:+ " WHERE "
      +:+ String.concat " and "
            (map (fun b => "id(" +:+ b.1 +:+ ")=$" +:+ b.2) bindings)
  | MatchRel lhs rhs ident d => "MATCH " +:+ rel_helper lhs rhs ident d
  | MergeRel lhs rhs ident d => "MERGE" +:+ rel_merge_helper lhs rhs ident None d
  | SetProperty target key source =>
      "SET " +:+ target +:+ "." +:+ key +:+ " = " +:+ source +:+ "." +:+ key
  | With ident => "WITH " +:+ ident
  | Delete ident => "DELETE " +:+ ident
  | Return ident => "RETURN " +:+ ident
  end.

(** The text of a query: its clauses, a space between two. *)
Fixpoint render
    (rel_helper : string -> string -> string -> definition -> string)
    (rel_merge_helper :
       string -> string -> string -> option (Dict.t (option string)) ->
       definition -> string)
    (query : list clause) : string :=
  match query with
  | [] => ""
  | [c] => render_clause rel_helper rel_merge_helper c
  | c :: query' =>
      render_clause rel_helper rel_merge_helper c
      +:+ " " +:+ render rel_helper rel_merge_helper query'
  end.

End Cypher.

(** The two queries of [reconnect], clause by clause: the read of the old
    edge, and the move for the property keys that were read. *)
Definition read_clauses (d : definition) : list Cypher.clause :=
  [Cypher.MatchNodes [("us", "self"); ("old", "old")];
   Cypher.MatchRel "us" "old" "r" d;
   Cypher.Return "r"].

Definition move_clauses (d : definition) (existing_properties : list string)
  : list Cypher.clause :=
  [Cypher.MatchNodes [("us", "self"); ("old", "old"); ("new", "new")];
   Cypher.MatchRel "us" "old" "r" d;
   Cypher.MergeRel "us" "new" "r2" d]
  ++ map (fun p => Cypher.SetProperty "r2" p "r") existing_properties
  ++ [Cypher.With "r"; Cypher.Delete "r"].


(** *** Vocabulary for the move query

    The move query is run for a definition [d], a source [s], an old node
    [o] and a new node [n], on a graph [G]. *)

(** The graph once [MERGE] has run on at least one row: the new edge is
    created when no edge joins the source and the new node. *)
Definition merged_graph (d : definition) (s n : Z) (G : Cypher.pgraph)
  : Cypher.pgraph :=
  match Cypher.matches d s n G with
  | [] =>
      {| Cypher.pnodes := Cypher.pnodes G;
         Cypher.pedges :=
           <[ fresh (dom (Cypher.pedges G)) := Cypher.new_edge d s n ]>
             (Cypher.pedges G) |}
  | _ => G
  end.

(** The row after the two [MATCH] clauses, and after the [MERGE]. *)
Definition matched_row (s o n : Z) (i : nat) : Cypher.row :=
  [("us", Cypher.NodeRef s); ("old", Cypher.NodeRef o);
   ("new", Cypher.NodeRef n); ("r", Cypher.EdgeRef i)].

Definition merged_row (s o n : Z) (i j : nat) : Cypher.row :=
  [("us", Cypher.NodeRef s); ("old", Cypher.NodeRef o);
   ("new", Cypher.NodeRef n); ("r", Cypher.EdgeRef i);
   ("r2", Cypher.EdgeRef j)].

(** The row binds [r] to the edge [i] and [r2] to the edge [j]. *)
Definition moves (r : Cypher.row) (i j : nat) : Prop :=
  Cypher.edge_of r "r" = Some i /\ Cypher.edge_of r "r2" = Some j.

(** A row of the move query: [r] is an old edge of the graph the query
    started on, [r2] an edge of the merged graph between the source and the
    new node. *)
Definition move_row_of (d : definition) (s o n : Z) (G : Cypher.pgraph)
    (r : Cypher.row) (i j : nat) : Prop :=
  moves r i j
  /\ (exists e, Cypher.pedges G !! i = Some e
                /\ Cypher.connects d s o e = true)
  /\ (exists e, Cypher.pedges (merged_graph d s n G) !! j = Some e
                /\ Cypher.connects d s n e = true).

(** What the [SET] clauses keep of the merged graph: every edge is there
    with its type and its ends, and an edge that does not join the source
    and the new node is as it was. *)
Definition kept_of (d : definition) (s n : Z) (G g : Cypher.pgraph) : Prop :=
  Cypher.pnodes g = Cypher.pnodes (merged_graph d s n G)
  /\ forall k,
      match Cypher.pedges (merged_graph d s n G) !! k with
      | Some e =>
          exists e', Cypher.pedges g !! k = Some e'
            /\ Cypher.etype e' = Cypher.etype e
            /\ Cypher.estart e' = Cypher.estart e
            /\ Cypher.eend e' = Cypher.eend e
            /\ (Cypher.connects d s n e = false -> e' = e)
      | None => Cypher.pedges g !! k = None
      end.

(** The edge [j] of [g], if there is one, has the value [v] under the key
    [p]. *)
Definition carried (p : string) (v : value) (j : nat) (g : Cypher.pgraph)
  : Prop :=
  forall e, Cypher.pedges g !! j = Some e ->
    Dict.get (Cypher.eprops e) p = Some v.

(** The rows that reach the [SET] clauses. *)
Definition move_rows_of (d : definition) (s o n : Z) (G : Cypher.pgraph)
  : list Cypher.row :=
  flat_map
    (fun r => map (fun ie => Dict.set r "r2" (Cypher.EdgeRef ie.1))
                (Cypher.matches d s n (merged_graph d s n G)))
    (map (fun ie => matched_row s o n ie.1) (Cypher.matches d s o G)).

(** There is an edge of the relation at the source [s]. *)
Definition at_source (d : definition) (s : Z) (g : Cypher.pgraph) : Prop :=
  exists t k e,
    Cypher.pedges g !! k = Some e /\ Cypher.connects d s t e = true.

(** ** A small instance

    A session that plays back scripted answers, with two node classes and
    one edge-property class.  The statements below are exercised on it. *)
Module Toy.

Definition object : pyclass := PyClass "object" [].
Definition Person : pyclass := PyClass "Person" [object].
Definition Robot : pyclass := PyClass "Robot" [object].
Definition Rel : pyclass := PyClass "StructuredRel" [object].
Definition FriendRel : pyclass := PyClass "FriendRel" [Rel].
Definition BaseRel : pyclass := PyClass "BaseRel" [Rel].
Definition WorksAt : pyclass := PyClass "WorksAt" [BaseRel].
Definition LivesAt : pyclass := PyClass "LivesAt" [BaseRel].
Definition CloseFriendRel : pyclass := PyClass "CloseFriendRel" [FriendRel].

(** The graph is the list of answers the session still has to give; once
    the script is used up every query matches nothing. *)
Definition session : Type := list (result (list (list (Dict.t value)))).

Definition cypher (_ : StructuredNode) (_ : string)
    (_ : option (Dict.t value)) (g : session)
  : result (list (list (Dict.t value))) * session :=
  match g with
  | [] => (inr [], [])
  | answer :: g' => (answer, g')
  end.

Definition arrow (d : definition) (inner : string) : string :=
  match direction d with
  | OUTGOING => "-" +:+ inner +:+ "->"
  | INCOMING => "<-" +:+ inner +:+ "-"
  | EITHER => "-" +:+ inner +:+ "-"
  end.

Definition rel_helper (lhs rhs ident : string) (d : definition) : string :=
  "(" +:+ lhs +:+ ")"
  +:+ arrow d ("[" +:+ ident +:+ ":`" +:+ relation_type d +:+ "`]")
  +:+ "(" +:+ rhs +:+ ")".

Definition render_property (item : string * option string) : string :=
  match item with
  | (k, Some placeholder) => k +:+ ": " +:+ placeholder
  | (k, None) => k +:+ ": None"
  end.

Definition rel_merge_helper (lhs rhs ident : string)
    (rp : option (Dict.t (option string))) (d : definition) : string :=
  let props :=
    match rp with
    | Some (item :: items) =>
        " {" +:+ String.concat ", " (map render_property (item :: items)) +:+ "}"
    | _ => ""
    end in
  "(" +:+ lhs +:+ ")"
  +:+ arrow d ("[" +:+ ident +:+ ":`" +:+ relation_type d +:+ "`" +:+ props +:+ "]")
  +:+ "(" +:+ rhs +:+ ")".

Definition fields (c : pyclass) : list (string * option value) :=
  if pyclass_eqb c FriendRel
  then [("since", Some (VInt 2020)); ("note", None)]
  else [].

Definition inflate (c : pyclass) (raw : Dict.t value)
  : result StructuredRelInstance :=
  inr {| rel_class := c;
         __properties__ := raw;
         _start_node_class := None;
         _end_node_class := None |}.

Definition lookup (c : engine_call unit) (_ : StructuredNode) (_ : string)
    (_ : definition) (g : session) : result Z * session :=
  match c with
  | Traversal_getitem _ => (inl IndexError, g)
  | _ => (inr 0, g)
  end.

Definition toy : Collaborators := {|
  graph := session;
  raw_rel := Dict.t value;
  UUID := string;
  pyargs := unit;
  pyobj := Z;
  StructuredRel := Rel;
  str_uuid := fun u => u;
  repr := fun n => "<" +:+ __name__ (__class__ n) +:+ ">";
  __label__ := __name__;
  node_cypher := cypher;
  _rel_helper := rel_helper;
  _rel_merge_helper := rel_merge_helper;
  _get_node_properties := fun raw => raw;
  defined_properties := fields;
  rel_deflate := fun _ props => inr props;
  rel_inflate := inflate;
  pre_save := fun _ => None;
  post_save := fun _ => None;
  engine := lookup;
  nodeset_all := fun found g => (inr found, g)
|}.

(** The same session, made to read the identity of the node it is called
    on, as it must to bind [$self]: a node without [id] makes it fail with
    [AttributeError] before it answers. *)
Definition strict_cypher (n : StructuredNode) (q : string)
    (params : option (Dict.t value)) (g : session)
  : result (list (list (Dict.t value))) * session :=
  match node_id n with
  | None => (inl (AttributeError "id"), g)
  | Some _ => cypher n q params g
  end.

Definition strict : Collaborators := {|
  graph := session;
  raw_rel := Dict.t value;
  UUID := string;
  pyargs := unit;
  pyobj := Z;
  StructuredRel := Rel;
  str_uuid := fun u => u;
  repr := fun n => "<" +:+ __name__ (__class__ n) +:+ ">";
  __label__ := __name__;
  node_cypher := strict_cypher;
  _rel_helper := rel_helper;
  _rel_merge_helper := rel_merge_helper;
  _get_node_properties := fun raw => raw;
  defined_properties := fields;
  rel_deflate := fun _ props => inr props;
  rel_inflate := inflate;
  pre_save := fun _ => None;
  post_save := fun _ => None;
  engine := lookup;
  nodeset_all := fun found g => (inr found, g)
|}.

Definition alice : StructuredNode :=
  {| __class__ := Person; node_id := Some 1; deleted := false |}.
Definition bob : StructuredNode :=
  {| __class__ := Person; node_id := Some 2; deleted := false |}.
Definition carol : StructuredNode :=
  {| __class__ := Person; node_id := Some 3; deleted := false |}.
Definition unsaved : StructuredNode :=
  {| __class__ := Person; node_id := None; deleted := false |}.

Definition robbie : StructuredNode :=
  {| __class__ := Robot; node_id := Some 7; deleted := false |}.

(** A node that is flagged as deleted and has an identity. *)
Definition erased : StructuredNode :=
  {| __class__ := Person; node_id := Some 4; deleted := true |}.

Definition friend : definition :=
  {| relation_type := "FRIEND"; direction := OUTGOING;
     model := Some FriendRel; node_class := Person |}.
Definition knows : definition :=
  {| relation_type := "KNOWS"; direction := INCOMING;
     model := None; node_class := Person |}.

Definition works_registry : gmap (gset string) pyclass :=
  {[ ({[ "WORKS" ]} : gset string) := WorksAt ]}.
Definition friend_registry : gmap (gset string) pyclass :=
  {[ ({[ "FRIEND" ]} : gset string) := FriendRel ]}.

Definition friends_of_alice : RelationshipManager :=
  RelationshipManager_init alice "friends" friend.
Definition known_by_alice : RelationshipManager :=
  RelationshipManager_init alice "known_by" knows.
Definition known_by_robbie : RelationshipManager :=
  RelationshipManager_init robbie "known_by" knows.
Definition friends_of_unsaved : RelationshipManager :=
  RelationshipManager_init unsaved "friends" friend.
Definition friends_of_erased : RelationshipManager :=
  RelationshipManager_init erased "friends" friend.

(** A world that has seen nothing yet, with the answers the session will
    give. *)
Definition fresh (script : session) : world_of session :=
  {| db := script; issued := []; raised := [] |}.

(** An edge with two properties, as the driver returns it. *)
Definition old_edge : Dict.t value :=
  [("since", VInt 2019); ("note", VStr "met at work")].

End Toy.

(** ** A small database

    A session that runs the two queries of [reconnect] for the relation
    [Toy.friend], on a property graph, clause by clause.  It binds [$self]
    from the identity of the node it is called on, and knows a query by its
    text. *)
Module Engine.

Definition prepared : Dict.t (list Cypher.clause) :=
  map (fun query =>
         (Cypher.render Toy.rel_helper Toy.rel_merge_helper query, query))
      [read_clauses Toy.friend; move_clauses Toy.friend ["since"; "note"]].

Definition cypher (n : StructuredNode) (text : string)
    (params : option (Dict.t value)) (g : Cypher.pgraph)
  : result (list (list Cypher.edge)) * Cypher.pgraph :=
  match node_id n with
  | None => (inl (AttributeError "id"), g)
  | Some i =>
      match Dict.get prepared text with
      | None => (inl (OtherError "CypherSyntaxError"), g)
      | Some query =>
          let params := match params with Some d => d | None => [] end in
          let st := Cypher.run (Dict.set params "self" (VInt i)) query g in
          (inr (Cypher.output st), Cypher.graph_of st)
      end
  end.

Definition lookup (c : engine_call unit) (_ : StructuredNode) (_ : string)
    (_ : definition) (g : Cypher.pgraph) : result Z * Cypher.pgraph :=
  match c with
  | Traversal_getitem _ => (inl IndexError, g)
  | _ => (inr 0, g)
  end.

Definition engine : Collaborators := {|
  graph := Cypher.pgraph;
  raw_rel := Cypher.edge;
  UUID := string;
  pyargs := unit;
  pyobj := Z;
  StructuredRel := Toy.Rel;
  str_uuid := fun u => u;
  repr := fun n => "<" +:+ __name__ (__class__ n) +:+ ">";
  __label__ := __name__;
  node_cypher := cypher;
  _rel_helper := Toy.rel_helper;
  _rel_merge_helper := Toy.rel_merge_helper;
  _get_node_properties := Cypher.eprops;
  defined_properties := Toy.fields;
  rel_deflate := fun _ props => inr props;
  rel_inflate := fun c raw => Toy.inflate c (Cypher.eprops raw);
  pre_save := fun _ => None;
  post_save := fun _ => None;
  engine := lookup;
  nodeset_all := fun found g => (inr found, g)
|}.

(** Alice, bob and carol, and alice's edge to bob with its two
    properties. *)
Definition friendship : Cypher.edge :=
  {| Cypher.etype := "FRIEND"; Cypher.estart := 1; Cypher.eend := 2;
     Cypher.eprops := Toy.old_edge |}.

Definition acquainted : Cypher.pgraph :=
  {| Cypher.pnodes := {[ 1; 2; 3 ]};
     Cypher.pedges := {[ 5%nat := friendship ]} |}.

(** The same three nodes and no edge. *)
Definition strangers : Cypher.pgraph :=
  {| Cypher.pnodes := {[ 1; 2; 3 ]}; Cypher.pedges := ∅ |}.

(** The graph after the move: the edge goes to carol. *)
Definition moved : Cypher.pgraph :=
  {| Cypher.pnodes := {[ 1; 2; 3 ]};
     Cypher.pedges :=
       {[ 6%nat := {| Cypher.etype := "FRIEND"; Cypher.estart := 1;
                      Cypher.eend := 3; Cypher.eprops := Toy.old_edge |} ]} |}.

Definition fresh (g : Cypher.pgraph) : world_of Cypher.pgraph :=
  {| db := g; issued := []; raised := [] |}.

End Engine.

(** ** A small application

    A module [myapp.models] that declares relationships, the stack at the
    moment one of its class bodies calls a constructor, and an importer that
    knows one more module. *)
Module ToyApp.

Definition manager_frame : frame :=
  {| f_name := "neomodel.relationship_manager";
     f_file := Some "neomodel/relationship_manager.py";
     f_defined := {[ "RelationshipManager"; "RelationshipDefinition";
                     "ZeroOrMore"; "StructuredRel" ]} |}.

Definition models_frame : frame :=
  {| f_name := "myapp.models";
     f_file := Some "myapp/models.py";
     f_defined := {[ "Person"; "StructuredNode"; "RelationshipTo" ]} |}.

Definition main_frame : frame :=
  {| f_name := "__main__"; f_file := None; f_defined := {[ "myapp" ]} |}.

(** [__init__], [_relate], [RelationshipTo], the class body, the module,
    and the script that imports it. *)
Definition stack : list frame :=
  [manager_frame; manager_frame; manager_frame; models_frame; models_frame;
   main_frame].

Definition models : pymodule :=
  {| m_name := "myapp.models";
     m_classes := {[ "Person" := Toy.Person ]} |}.

Definition robots : pymodule :=
  {| m_name := "myapp.robots";
     m_classes := {[ "Robot" := Toy.Robot ]} |}.

Definition loaded : gmap string pymodule :=
  {[ "myapp.models" := models ]}.

(** An importer that finds [.robots] in the package [myapp] and nothing
    else. *)
Definition importer (name : string) (package : option string)
    (sys_modules : gmap string pymodule)
  : result string * gmap string pymodule :=
  match package with
  | Some "myapp" =>
      if String.eqb name ".robots"
      then (inr "myapp.robots", <[ "myapp.robots" := robots ]> sys_modules)
      else (inl (ImportError ("No module named '" +:+ name +:+ "'")), sys_modules)
  | _ => (inl (ImportError ("No module named '" +:+ name +:+ "'")), sys_modules)
  end.

(** A definition as [RelationshipTo] leaves it in [myapp.models]. *)
Definition declared (cls_name : raw_class)
  : RelationshipDefinition
      (StructuredNode -> string -> definition -> RelationshipManager) :=
  {| module_name := "myapp.models";
     module_file := Some "myapp/models.py";
     _raw_class := cls_name;
     manager := ZeroOrMore;
     def_relation_type := "FRIEND";
     def_direction := OUTGOING;
     def_model := None |}.

(** The same, from a namespace without [__file__]. *)
Definition declared_without_file (cls_name : raw_class)
  : RelationshipDefinition
      (StructuredNode -> string -> definition -> RelationshipManager) :=
  {| module_name := "myapp.models";
     module_file := None;
     _raw_class := cls_name;
     manager := ZeroOrMore;
     def_relation_type := "FRIEND";
     def_direction := OUTGOING;
     def_model := None |}.

End ToyApp.

Section Manager.

Context `{Collaborators}.

(** *** State and effects *)

Abbreviation world := (world_of graph).

Definition M (A : Type) : Type := world -> result A * world.

Definition ret {A} (a : A) : M A := fun w => (inr a, w).

Definition bind {A B} (m : M A) (f : A -> M B) : M B :=
  fun w =>
    match m w with
    | (inr a, w') => f a w'
    | (inl e, w') => (inl e, w')
    end.

Definition raise {A} (e : exn) : M A :=
  fun w => (inl e, {| db := db w; issued := issued w;
                      raised := raised w ++ [e] |}).

Definition note (r : list exn) {A} (x : result A) : list exn :=
  match x with inl e => r ++ [e] | inr _ => r end.

(** A call into a collaborator that may touch the graph. *)
Definition call {A} (f : graph -> result A * graph) : M A :=
  fun w =>
    let '(x, g) := f (db w) in
    (x, {| db := g; issued := issued w; raised := note (raised w) x |}).

(** A call into a collaborator that only computes. *)
Definition lift {A} (x : result A) : M A :=
  call (fun g => (x, g)).

(** [self.source.cypher(q, params)] *)
Definition cypher (self : RelationshipManager)
    (q : string) (params : option (Dict.t value))
  : M (list (list raw_rel)) :=
  fun w =>
    let '(x, g) := node_cypher (source self) q params (db w) in
    (x, {| db := g; issued := issued w ++ [(q, params)];
           raised := note (raised w) x |}).

(** [l[i]] *)
Definition getitem {A} (l : list A) (i : nat) : M A :=
  match l !! i with
  | Some x => ret x
  | None => raise IndexError
  end.

(** [obj.id] *)
Definition get_id (obj : StructuredNode) : M Z :=
  match node_id obj with
  | Some i => ret i
  | None => raise (AttributeError "id")
  end.


Notation "x <- m ;; k" := (bind m (fun x => k))
  (at level 100, m at next level, right associativity, only parsing).
Notation "m ;;; k" := (bind m (fun _ => k))
  (at level 100, right associativity, only parsing).

(** *** Checks *)

(** Modelled from the spec: [source._pre_action_check(action)] of the node
    layer, which is not part of this module.  The source has to be
    persisted (it has an identity) and not deleted; the check itself sends
    nothing to the session. *)
Definition _pre_action_check (self : StructuredNode) (action : string) : result unit :=
  if deleted self then
    inl (ValueError (__name__ (__class__ self) +:+ "." +:+ action
                     +:+ "() attempted on deleted node"))
  else if negb (hasattr_id self) then
    inl (ValueError (__name__ (__class__ self) +:+ "." +:+ action
                     +:+ "() attempted on unsaved node"))
  else inr tt.

(** check source node is saved and not deleted *)
Definition check_source {A} (fn_name : string)
    (fn : RelationshipManager -> M A) (self : RelationshipManager) : M A :=
  lift (_pre_action_check (source self) (name self +:+ "." +:+ fn_name)) ;;;
  fn self.

(** check for valid node i.e correct class and is saved *)
Definition _check_node (self : RelationshipManager) (obj : StructuredNode) : M unit :=
  if negb (issubclass (__class__ obj) (node_class (definition_of self))) then
    raise (ValueError ("Expected node of class "
                       +:+ __name__ (node_class (definition_of self))))
  else if negb (hasattr_id obj) then
    raise (ValueError ("Can't perform operation on unsaved node " +:+ repr obj))
  else ret tt.

Definition _set_start_end_cls (self : RelationshipManager)
    (rel_instance : StructuredRelInstance) (obj : option StructuredNode)
  : StructuredRelInstance :=
  let obj_class :=
    match obj with Some o => __class__ o | None => NoneType end in
  if direction_eqb (direction (definition_of self)) INCOMING then
    {| rel_class := rel_class rel_instance;
       __properties__ := __properties__ rel_instance;
       _start_node_class := Some obj_class;
       _end_node_class := Some (source_class self) |}
  else
    {| rel_class := rel_class rel_instance;
       __properties__ := __properties__ rel_instance;
       _start_node_class := Some (source_class self);
       _end_node_class := Some obj_class |}.

(** *** Building an edge-property instance and its parameters *)

(** Modelled from the spec: the constructor of [rel_model] in the property
    layer, called with the properties as keywords; that layer is not part of
    this module.  Every declared field takes the supplied value, or its
    declared default when it is omitted, or [None] when there is neither. *)
Definition rel_new (rel_model : pyclass) (properties : Dict.t value)
  : StructuredRelInstance :=
  {| rel_class := rel_model;
     __properties__ :=
       map (fun '(field, default) =>
              (field,
               match Dict.get properties field with
               | Some v => v
               | None => match default with Some d => d | None => VNone end
               end))
           (defined_properties rel_model);
     _start_node_class := None;
     _end_node_class := None |}.

(** One turn of the loop over the deflated items. *)
Definition bind_property
    (acc : Dict.t (option string) * Dict.t value) (item : string * value)
  : Dict.t (option string) * Dict.t value :=
  let '(rp, params) := acc in
  let '(p, v) := item in
  (Dict.set rp p (if negb (is_None v) then Some ("$" +:+ p) else None),
   Dict.set params p v).

(** build params and place holders to pass to rel_helper *)
Definition build_params (deflated : Dict.t value) (params : Dict.t value)
  : Dict.t (option string) * Dict.t value :=
  fold_left bind_property (Dict.items deflated) (Dict.empty, params).

Definition truthy_model (m : option pyclass) : bool :=
  match m with Some _ => true | None => false end.

Definition truthy_properties (properties : option (Dict.t value)) : bool :=
  match properties with Some d => Dict.truthy d | None => false end.

Definition run_hook
    (hook : option (StructuredRelInstance -> graph -> result unit * graph))
    (inst : StructuredRelInstance) : M unit :=
  match hook with
  | Some h => call (h inst)
  | None => ret tt
  end.

(** *** Mutations *)

(** Function to support both connect() and bulk_connect() functions. *)
Definition connect_helper (self : RelationshipManager) (query : string)
    (properties : option (Dict.t value)) (node : option StructuredNode)
    (nodes : option (list string)) : M connected :=
  if negb (truthy_model (model (definition_of self)))
     && truthy_properties properties then
    raise (NotImplementedError
             ("Relationship properties without using a relationship model "
              +:+ "is no longer supported."))
  else
    let params : Dict.t value := Dict.empty in
    let rel_model := model (definition_of self) in
    built <-
      match rel_model with
      | Some rel_model =>
          (* need to generate defaults etc to create fake instance *)
          let tmp :=
            match properties with
            | Some props =>
                if Dict.truthy props then rel_new rel_model props
                else rel_new rel_model Dict.empty
            | None => rel_new rel_model Dict.empty
            end in
          deflated <- lift (rel_deflate rel_model (__properties__ tmp)) ;;
          let '(rp, params) := build_params deflated params in
          run_hook (pre_save (rel_class tmp)) tmp ;;;
          ret (Some rp, params)
      | None => ret (None, params)
      end ;;
    let '(rp, params) := built in
    let new_rel := _rel_merge_helper "us" "them" "r" rp (definition_of self) in
    let q := query +:+ new_rel in
    params <-
      match node with
      | Some node =>
          them <- get_id node ;;
          ret (Dict.set params "them" (VInt them))
      | None =>
          ret (Dict.set (Dict.set params "them" (VStr "uuid")) "uuids"
                 (match nodes with
                  | Some l => VList (map VStr l)
                  | None => VNone
                  end))
      end ;;
    match rel_model with
    | None =>
        cypher self q (Some params) ;;;
        ret ConnectedTrue
    | Some rel_model =>
        rows <- cypher self (q +:+ " RETURN r") (Some params) ;;
        row <- getitem rows 0 ;;
        rel_ <- getitem row 0 ;;
        inflated <- lift (rel_inflate rel_model rel_) ;;
        let rel_instance := _set_start_end_cls self inflated node in
        run_hook (post_save (rel_class rel_instance)) rel_instance ;;;
        ret (ConnectedRel rel_instance)
    end.

(** Connect a node *)
Definition connect (node : StructuredNode) (properties : option (Dict.t value))
  : RelationshipManager -> M connected :=
  check_source "connect" (fun self =>
    _check_node self node ;;;
    let source_label := __name__ (__class__ (source self)) in
    let dest_label := __name__ (__class__ node) in
    let q := "MATCH (them:" +:+ dest_label +:+ "), (us:" +:+ source_label
             +:+ ") WHERE id(them)=$them and id(us)=$self "
             +:+ "MERGE" in
    connect_helper self q properties (Some node) None).

(** Disconnect list of nodes from the source node.  The [print] of the
    query to standard output is left out. *)
Definition bulk_disconnect (nodes : list UUID)
  : RelationshipManager -> M unit :=
  fun self =>
    match nodes with
    | [] => ret tt
    | _ =>
        let nodes := map str_uuid nodes in
        let rel := _rel_helper "a" "b" "r" (definition_of self) in
        let q := "MATCH (a), (b) WHERE id(a)=$self and b.uuid in $them "
                 +:+ "MATCH " +:+ rel +:+ " DELETE r" in
        cypher self q (Some (Dict.set Dict.empty "them" (VList (map VStr nodes)))) ;;;
        ret tt
    end.

(** Connect a list of nodes to the source node. *)
Definition bulk_connect (nodes : list UUID) (label : string)
    (properties : option (Dict.t value))
  : RelationshipManager -> M (option connected) :=
  check_source "bulk_connect" (fun self =>
    match nodes with
    | [] => ret None
    | _ =>
        let nodes := map str_uuid nodes in
        let source_label := __name__ (__class__ (source self)) in
        let q := "UNWIND $uuids as uuid MATCH (them:" +:+ label
                 +:+ "), (us:" +:+ source_label
                 +:+ ") WHERE them.uuid=uuid "
                 +:+ "and id(us)=$self MERGE" in
        r <- connect_helper self q properties None (Some nodes) ;;
        ret (Some r)
    end).

(** Disconnect a node *)
Definition disconnect (node : StructuredNode) : RelationshipManager -> M unit :=
  check_source "disconnect" (fun self =>
    let rel := _rel_helper "a" "b" "r" (definition_of self) in
    let q := "MATCH (a), (b) WHERE id(a)=$self and id(b)=$them "
             +:+ "MATCH " +:+ rel +:+ " DELETE r" in
    them <- get_id node ;;
    cypher self q (Some (Dict.set Dict.empty "them" (VInt them))) ;;;
    ret tt).

(** Disconnect all nodes *)
Definition disconnect_all : RelationshipManager -> M unit :=
  check_source "disconnect_all" (fun self =>
    let rhs := "b:" +:+ __label__ (node_class (definition_of self)) in
    let rel := _rel_helper "a" rhs "r" (definition_of self) in
    let q := "MATCH (a) WHERE id(a)=$self MATCH " +:+ rel +:+ " DELETE r" in
    cypher self q None ;;;
    ret tt).

(** Disconnect all existing nodes and connect the supplied node *)
Definition replace (node : StructuredNode) (properties : option (Dict.t value))
  : RelationshipManager -> M unit :=
  check_source "replace" (fun self =>
    disconnect_all self ;;;
    connect node properties self ;;;
    ret tt).

(** *** Reads *)

(** [self.definition.get('model') or StructuredRel] *)
Definition model_or_StructuredRel (self : RelationshipManager) : pyclass :=
  match model (definition_of self) with
  | Some m => m
  | None => StructuredRel
  end.

(** Retrieve the relationship object for this first relationship between
    self and node. *)
Definition relationship (node : StructuredNode)
  : RelationshipManager -> M (option StructuredRelInstance) :=
  check_source "relationship" (fun self =>
    _check_node self node ;;;
    let my_rel := _rel_helper "us" "them" "r" (definition_of self) in
    let q := "MATCH " +:+ my_rel
             +:+ " WHERE id(them)=$them and id(us)=$self RETURN r LIMIT 1" in
    them <- get_id node ;;
    rels <- cypher self q (Some (Dict.set Dict.empty "them" (VInt them))) ;;
    match rels with
    | [] => ret None
    | _ =>
        let rel_model := model_or_StructuredRel self in
        row <- getitem rels 0 ;;
        rel_ <- getitem row 0 ;;
        inflated <- lift (rel_inflate rel_model rel_) ;;
        ret (Some (_set_start_end_cls self inflated (Some node)))
    end).

(** The list comprehension of [all_relationships]. *)
Fixpoint inflate_all (self : RelationshipManager) (rel_model : pyclass)
    (node : StructuredNode) (rels : list (list raw_rel))
  : M (list StructuredRelInstance) :=
  match rels with
  | [] => ret []
  | rel :: rels' =>
      rel_ <- getitem rel 0 ;;
      inflated <- lift (rel_inflate rel_model rel_) ;;
      rest <- inflate_all self rel_model node rels' ;;
      ret (_set_start_end_cls self inflated (Some node) :: rest)
  end.

(** Retrieve all relationship objects between self and node. *)
Definition all_relationships (node : StructuredNode)
  : RelationshipManager -> M (list StructuredRelInstance) :=
  check_source "all_relationships" (fun self =>
    _check_node self node ;;;
    let my_rel := _rel_helper "us" "them" "r" (definition_of self) in
    let q := "MATCH " +:+ my_rel
             +:+ " WHERE id(them)=$them and id(us)=$self RETURN r " in
    them <- get_id node ;;
    rels <- cypher self q (Some (Dict.set Dict.empty "them" (VInt them))) ;;
    match rels with
    | [] => ret []
    | _ =>
        let rel_model := model_or_StructuredRel self in
        inflate_all self rel_model node rels
    end).

(** *** Reconnect *)

(** copy over properties if we have *)
Definition copy_properties (q : string) (existing_properties : list string)
  : string :=
  fold_left (fun q p => q +:+ " SET r2." +:+ p +:+ " = r." +:+ p)
            existing_properties q.

Definition reconnect_read_query (old_rel : string) : string :=
  "MATCH (us), (old) WHERE id(us)=$self and id(old)=$old "
  +:+ "MATCH " +:+ old_rel +:+ " RETURN r".

(** Disconnect old_node and connect new_node copying over any properties
    on the original relationship. *)
Definition reconnect (old_node new_node : StructuredNode)
  : RelationshipManager -> M unit :=
  check_source "reconnect" (fun self =>
    _check_node self old_node ;;;
    _check_node self new_node ;;;
    old_id <- get_id old_node ;;
    new_id <- get_id new_node ;;
    if Z.eqb old_id new_id then ret tt
    else
      let old_rel := _rel_helper "us" "old" "r" (definition_of self) in
      (* get list of properties on the existing rel *)
      result <- cypher self (reconnect_read_query old_rel)
                  (Some (Dict.set Dict.empty "old" (VInt old_id))) ;;
      existing_properties <-
        match result with
        | [] => raise (NotConnected "reconnect" (source self) old_node)
        | _ =>
            row <- getitem result 0 ;;
            rel_ <- getitem row 0 ;;
            let node_properties := _get_node_properties rel_ in
            ret (Dict.keys node_properties)
        end ;;
      (* remove old relationship and create new one *)
      let new_rel :=
        _rel_merge_helper "us" "new" "r2" None (definition_of self) in
      let q := "MATCH (us), (old), (new) "
               +:+ "WHERE id(us)=$self and id(old)=$old and id(new)=$new "
               +:+ "MATCH " +:+ old_rel in
      let q := q +:+ " MERGE" +:+ new_rel in
      let q := copy_properties q existing_properties in
      let q := q +:+ " WITH r DELETE r" in
      cypher self q
        (Some (Dict.set (Dict.set Dict.empty "old" (VInt old_id))
                 "new" (VInt new_id))) ;;;
      ret tt).

(** *** Proxies to the match engine *)

(** What [_new_traversal] hands to the engine is the triple
    [(source, name, definition)]; a proxy passes it on with its call. *)
Definition _new_traversal
  : RelationshipManager -> M (StructuredNode * string * definition) :=
  check_source "_new_traversal" (fun self =>
    ret (source self, name self, definition_of self)).

Definition proxy (c : engine_call pyargs) (self : RelationshipManager)
  : M pyobj :=
  t <- _new_traversal self ;;
  let '(src, key, d) := t in
  call (engine c src key d).

Definition get (kwargs : pyargs) := proxy (NodeSet_get kwargs).
Definition get_or_none (kwargs : pyargs) := proxy (NodeSet_get_or_none kwargs).
Definition filter (args : pyargs) := proxy (NodeSet_filter args).
Definition order_by (props : pyargs) := proxy (NodeSet_order_by props).
Definition exclude (args : pyargs) := proxy (NodeSet_exclude args).
Definition values (args : pyargs) := proxy (NodeSet_values args).
Definition is_connected (node : StructuredNode) := proxy (Traversal_contains node).
Definition match_ (kwargs : pyargs) := proxy (Traversal_match kwargs).
Definition all := proxy Traversal_all.
Definition __iter__ := proxy Traversal_iter.
Definition __len__ := proxy Traversal_len.
Definition __bool__ := proxy Traversal_bool.
Definition __nonzero__ := proxy Traversal_nonzero.
Definition __contains__ (obj : StructuredNode) := proxy (Traversal_contains obj).
Definition __getitem__ (key : Z) := proxy (Traversal_getitem key).

(** [search] is deprecated; the warning it emits is left out. *)
Definition search (kwargs : pyargs) (self : RelationshipManager) : M pyobj :=
  found <- filter kwargs self ;;
  call (nodeset_all found).

(** Get a single related node or none: [self[0]], with [IndexError]
    caught and dropped. *)
Definition single (self : RelationshipManager) : M (option pyobj) :=
  fun w =>
    match __getitem__ 0 self w with
    | (inr x, w') => (inr (Some x), w')
    | (inl IndexError, w') => (inr None, w')
    | (inl e, w') => (inl e, w')
    end.

(** *** Vocabulary of the statements *)

(** The world after [e] was raised in [w]. *)
Definition failed (w : world) (e : exn) : world :=
  {| db := db w; issued := issued w; raised := raised w ++ [e] |}.

(** The source passes [_pre_action_check]. *)
Definition persisted (n : StructuredNode) : bool :=
  negb (deleted n) && hasattr_id n.

(** The node passes [_check_node]. *)
Definition valid_node (self : RelationshipManager) (obj : StructuredNode) : bool :=
  issubclass (__class__ obj) (node_class (definition_of self)) && hasattr_id obj.

(** The errors the specification files under its validation category: the
    [ValueError] of the source and node checks and the [NotImplementedError]
    for properties without an edge-property class. *)
Definition validation_error (e : exn) : bool :=
  match e with
  | ValueError _ | NotImplementedError _ => true
  | _ => false
  end.

(** Every exception raised while [m] runs reaches the caller: a normal
    return raised nothing, an exceptional one raised just what it returns. *)
Definition propagates {A} (m : M A) : Prop :=
  forall w,
    match m w with
    | (inr _, w') => raised w' = raised w
    | (inl e, w') => raised w' = raised w ++ [e]
    end.

(** The two class back-references of [r] are the ones direction [d]
    prescribes between a source of class [source_cls] and a target of class
    [target_cls]. *)
Definition oriented (d : direction_t) (source_cls target_cls : pyclass)
    (r : StructuredRelInstance) : Prop :=
  match d with
  | INCOMING =>
      _start_node_class r = Some target_cls
      /\ _end_node_class r = Some source_cls
  | OUTGOING | EITHER =>
      _start_node_class r = Some source_cls
      /\ _end_node_class r = Some target_cls
  end.

(** The computation sends no query. *)
Definition silent {A} (m : M A) : Prop :=
  forall w, issued (m w).2 = issued w.

(** The [SET] clause that copies one property. *)
Definition set_clause (p : string) : string :=
  " SET r2." +:+ p +:+ " = r." +:+ p.

(** The [SET] clauses for a list of property keys, in order. *)
Definition set_clauses (ps : list string) : string :=
  foldr (fun p rest => set_clause p +:+ rest) "" ps.

(** The placeholder of a deflated value. *)
Definition placeholder (p : string) (v : value) : option string :=
  if is_None v then None else Some ("$" +:+ p).

(** The text of a query, with the pattern builders this module calls. *)
Definition query_text (query : list Cypher.clause) : string :=
  Cypher.render _rel_helper _rel_merge_helper query.

(** The keys [reconnect] reads: those of the first edge the read returns. *)
Definition existing_keys (d : definition) (s o : Z) (g : Cypher.pgraph)
  : list string :=
  match Cypher.matches d s o g with
  | ie :: _ => Dict.keys (Cypher.eprops ie.2)
  | [] => []
  end.

(** The session runs [query] on the graph [g]: handed the text of [query]
    for [node], it binds [$self] to the identity of [node], answers with
    the edges the query returns, and leaves the graph the query leaves.
    [view] reads the state of the database as a property graph. *)
Definition executes (view : graph -> Cypher.pgraph) (node : StructuredNode)
    (query : list Cypher.clause) (params : Dict.t value) (g : graph) : Prop :=
  match node_id node with
  | None => False
  | Some self_id =>
      let st :=
        Cypher.run (Dict.set params "self" (VInt self_id)) query (view g) in
      exists rows g',
        node_cypher node (query_text query) (Some params) g = (inr rows, g')
        /\ view g' = Cypher.graph_of st
        /\ map (map _get_node_properties) rows
           = map (map Cypher.eprops) (Cypher.output st)
  end.

(** *** Running the primitives *)

Lemma world_eta (w : world) :
  {| db := db w; issued := issued w; raised := raised w |} = w.
Proof. by destruct w. Qed.

Lemma lift_ok {A} (a : A) (w : world) : lift (inr a) w = (inr a, w).
Proof. unfold lift, call; simpl. by rewrite world_eta. Qed.

Lemma lift_err {A} (e : exn) (w : world) :
  lift (A := A) (inl e) w = (inl e, failed w e).
Proof. reflexivity. Qed.

Lemma raise_failed {A} (e : exn) (w : world) :
  raise (A := A) e w = (inl e, failed w e).
Proof. reflexivity. Qed.

Lemma bind_ok {A B} (m : M A) (f : A -> M B) (w w' : world) (a : A) :
  m w = (inr a, w') -> bind m f w = f a w'.
Proof. unfold bind. by intros ->. Qed.

Lemma bind_err {A B} (m : M A) (f : A -> M B) (w w' : world) (e : exn) :
  m w = (inl e, w') -> bind m f w = (inl e, w').
Proof. unfold bind. by intros ->. Qed.

Lemma persisted_check (n : StructuredNode) (action : string) :
  persisted n = true -> _pre_action_check n action = inr tt.
Proof.
  unfold persisted, _pre_action_check.
  destruct (deleted n); simpl; [discriminate|].
  by intros ->.
Qed.

Lemma not_persisted_check (n : StructuredNode) (action : string) :
  persisted n = false ->
  exists msg, _pre_action_check n action = inl (ValueError msg).
Proof.
  unfold persisted, _pre_action_check.
  destruct (deleted n); simpl; [eauto|].
  intros ->. simpl. eauto.
Qed.

Lemma check_source_ok {A} (fn_name : string)
    (fn : RelationshipManager -> M A) (self : RelationshipManager) (w : world) :
  persisted (source self) = true ->
  check_source fn_name fn self w = fn self w.
Proof.
  intros Hp. unfold check_source.
  rewrite (persisted_check _ _ Hp).
  by rewrite (bind_ok _ _ _ _ _ (lift_ok tt w)).
Qed.

Lemma check_source_fail {A} (fn_name : string)
    (fn : RelationshipManager -> M A) (self : RelationshipManager) (w : world) :
  persisted (source self) = false ->
  exists msg,
    check_source fn_name fn self w
    = (inl (ValueError msg), failed w (ValueError msg)).
Proof.
  intros Hp. unfold check_source.
  destruct (not_persisted_check _ (name self +:+ "." +:+ fn_name) Hp) as [msg ->].
  exists msg. reflexivity.
Qed.

Lemma check_node_ok (self : RelationshipManager) (obj : StructuredNode) (w : world) :
  valid_node self obj = true -> _check_node self obj w = (inr tt, w).
Proof.
  unfold valid_node, _check_node. intros [-> ->]%andb_true_iff. reflexivity.
Qed.

Lemma check_node_fail (self : RelationshipManager) (obj : StructuredNode) (w : world) :
  valid_node self obj = false ->
  exists msg,
    _check_node self obj w = (inl (ValueError msg), failed w (ValueError msg)).
Proof.
  unfold valid_node, _check_node.
  destruct (issubclass _ _); simpl; [|eauto].
  intros ->. simpl. eauto.
Qed.

Lemma cypher_run (self : RelationshipManager) (q : string)
    (params : option (Dict.t value)) (w : world) :
  cypher self q params w
  = ((node_cypher (source self) q params (db w)).1,
     {| db := (node_cypher (source self) q params (db w)).2;
        issued := issued w ++ [(q, params)];
        raised := note (raised w) (node_cypher (source self) q params (db w)).1 |}).
Proof. unfold cypher. by destruct (node_cypher _ _ _ _). Qed.

Lemma get_id_ok (obj : StructuredNode) (i : Z) (w : world) :
  node_id obj = Some i -> get_id obj w = (inr i, w).
Proof. unfold get_id. by intros ->. Qed.

Lemma valid_node_id (self : RelationshipManager) (obj : StructuredNode) :
  valid_node self obj = true -> exists i, node_id obj = Some i.
Proof.
  unfold valid_node, hasattr_id. intros [_ Hid]%andb_true_iff.
  destruct (node_id obj); [eauto|discriminate].
Qed.

(** *** The source check *)

(** The six operations under [check_source] stop at the check when the
    source is unsaved or deleted: the world only records the exception. *)
Lemma checked_operations_fail_fast (self : RelationshipManager) (w : world) :
  persisted (source self) = false ->
  (forall node properties, exists msg,
      connect node properties self w
      = (inl (ValueError msg), failed w (ValueError msg)))
  /\ (forall nodes label properties, exists msg,
      bulk_connect nodes label properties self w
      = (inl (ValueError msg), failed w (ValueError msg)))
  /\ (forall node, exists msg,
      disconnect node self w
      = (inl (ValueError msg), failed w (ValueError msg)))
  /\ (exists msg,
      disconnect_all self w
      = (inl (ValueError msg), failed w (ValueError msg)))
  /\ (forall node properties, exists msg,
      replace node properties self w
      = (inl (ValueError msg), failed w (ValueError msg)))
  /\ (forall old_node new_node, exists msg,
      reconnect old_node new_node self w
      = (inl (ValueError msg), failed w (ValueError msg))).
Proof.
  intros Hp. repeat split; intros; by apply check_source_fail.
Qed.

(** [bulk_disconnect] carries no source check: with a key to disconnect it
    goes to the session whatever the state of the source. *)
Lemma bulk_disconnect_issues (u : UUID) (us : list UUID)
    (self : RelationshipManager) (w : world) :
  issued (bulk_disconnect (u :: us) self w).2
  = issued w
    ++ [("MATCH (a), (b) WHERE id(a)=$self and b.uuid in $them MATCH "
         +:+ _rel_helper "a" "b" "r" (definition_of self) +:+ " DELETE r",
         Some [("them", VList (map VStr (map str_uuid (u :: us))))])].
Proof.
  unfold bulk_disconnect, bind, cypher.
  destruct (node_cypher _ _ _ _) as [[e|rows] g]; reflexivity.
Qed.


(** *** Empty bulk operations and reconnecting a node to itself *)

(** C7: [bulk_disconnect] with an empty key list returns at once and leaves
    the world as it was; [bulk_connect] with an empty key list sends no query
    and leaves the graph alone, returning [None] once the source check has
    passed. *)
Theorem bulk_empty_is_noop (self : RelationshipManager) (label : string)
    (properties : option (Dict.t value)) (w : world) :
  bulk_disconnect [] self w = (inr tt, w)
  /\ issued (bulk_connect [] label properties self w).2 = issued w
  /\ db (bulk_connect [] label properties self w).2 = db w
  /\ (if persisted (source self)
      then bulk_connect [] label properties self w = (inr None, w)
      else exists msg,
          bulk_connect [] label properties self w
          = (inl (ValueError msg), failed w (ValueError msg))).
Proof.
  split; [reflexivity|].
  destruct (persisted (source self)) eqn:Hp.
  - unfold bulk_connect. rewrite (check_source_ok _ _ _ _ Hp). done.
  - destruct (proj1 (proj2 (checked_operations_fail_fast self w Hp))
                [] label properties) as [msg ->].
    simpl. eauto.
Qed.

(** C6: when [old_node] and [new_node] have the same identity, [reconnect]
    sends no query and leaves the graph as it was; it returns normally when
    the source and both nodes pass their checks, and with the [ValueError] of
    the failing check otherwise. *)
Theorem reconnect_same_identity (old_node new_node : StructuredNode)
    (self : RelationshipManager) (w : world) :
  node_id old_node = node_id new_node ->
  issued (reconnect old_node new_node self w).2 = issued w
  /\ db (reconnect old_node new_node self w).2 = db w
  /\ (if persisted (source self) && valid_node self old_node
         && valid_node self new_node
      then reconnect old_node new_node self w = (inr tt, w)
      else exists msg,
          reconnect old_node new_node self w
          = (inl (ValueError msg), failed w (ValueError msg))).
Proof.
  intros Hid.
  destruct (persisted (source self)) eqn:Hp; simpl.
  2:{ destruct (proj2 (proj2 (proj2 (proj2 (proj2
        (checked_operations_fail_fast self w Hp))))) old_node new_node)
        as [msg ->]. simpl. eauto. }
  unfold reconnect. rewrite (check_source_ok _ _ _ _ Hp).
  destruct (valid_node self old_node) eqn:Hold; simpl.
  2:{ destruct (check_node_fail self old_node w Hold) as [msg Hmsg].
      rewrite (bind_err _ _ _ _ _ Hmsg). simpl. eauto. }
  rewrite (bind_ok _ _ _ _ _ (check_node_ok self old_node w Hold)).
  destruct (valid_node self new_node) eqn:Hnew; simpl.
  2:{ destruct (check_node_fail self new_node w Hnew) as [msg Hmsg].
      rewrite (bind_err _ _ _ _ _ Hmsg). simpl. eauto. }
  rewrite (bind_ok _ _ _ _ _ (check_node_ok self new_node w Hnew)).
  destruct (valid_node_id self old_node Hold) as [i Hi].
  rewrite (bind_ok _ _ _ _ _ (get_id_ok old_node i w Hi)).
  rewrite Hid in Hi.
  rewrite (bind_ok _ _ _ _ _ (get_id_ok new_node i w Hi)).
  rewrite Z.eqb_refl. done.
Qed.

(** *** Reconnect *)

Lemma app_assoc_string (s1 s2 s3 : string) :
  (s1 +:+ s2) +:+ s3 = s1 +:+ s2 +:+ s3.
Proof.
  induction s1 as [|a s1 IH]; [reflexivity|].
  change ((String a s1 +:+ s2) +:+ s3) with (String a ((s1 +:+ s2) +:+ s3)).
  change (String a s1 +:+ s2 +:+ s3) with (String a (s1 +:+ s2 +:+ s3)).
  by rewrite IH.
Qed.

Lemma copy_properties_clauses (q : string) (ps : list string) :
  copy_properties q ps = q +:+ set_clauses ps.
Proof.
  revert q. induction ps as [|p ps IH]; intros q.
  - simpl. induction q as [|a q IHq]; [reflexivity|].
    change (String a q +:+ "") with (String a (q +:+ "")). by rewrite <- IHq.
  - change (copy_properties q (p :: ps))
      with (copy_properties (q +:+ set_clause p) ps).
    rewrite IH. simpl. apply app_assoc_string.
Qed.

Lemma set_clauses_has_clause (ps : list string) (p : string) :
  In p ps ->
  exists before after, set_clauses ps = before +:+ set_clause p +:+ after.
Proof.
  induction ps as [|p0 ps IH]; intros Hin; [destruct Hin|].
  destruct Hin as [->|Hin].
  - exists "", (set_clauses ps). reflexivity.
  - destruct (IH Hin) as (before & after & Hsplit).
    exists (set_clause p0 +:+ before), after.
    simpl. rewrite Hsplit. by rewrite app_assoc_string.
Qed.

Ltac pass_reconnect_checks Hp Hold Hnew Hoid Hnid Hne :=
  unfold reconnect;
  rewrite (check_source_ok _ _ _ _ Hp);
  rewrite (bind_ok _ _ _ _ _ (check_node_ok _ _ _ Hold));
  rewrite (bind_ok _ _ _ _ _ (check_node_ok _ _ _ Hnew));
  rewrite (bind_ok _ _ _ _ _ (get_id_ok _ _ _ Hoid));
  rewrite (bind_ok _ _ _ _ _ (get_id_ok _ _ _ Hnid));
  rewrite (proj2 (Z.eqb_neq _ _) Hne).

(** With the source and both nodes valid, distinct identities and an edge
    found by the read, [reconnect] sends exactly one more query.  That query
    matches the old edge, merges the new edge, sets on the new edge every
    property key read from the old edge, by name and in order, and only
    then deletes the old edge: the [SET] clause of each key stands after the
    [MERGE] and before the [DELETE].  The call returns what the session
    returns for that query. *)
Lemma reconnect_sends_move_query (old_node new_node : StructuredNode)
    (self : RelationshipManager) (w : world) (old_id new_id : Z)
    (rel_ : raw_rel) (row : list raw_rel) (rows : list (list raw_rel))
    (g1 : graph) :
  persisted (source self) = true ->
  valid_node self old_node = true ->
  valid_node self new_node = true ->
  node_id old_node = Some old_id ->
  node_id new_node = Some new_id ->
  old_id <> new_id ->
  let old_rel := _rel_helper "us" "old" "r" (definition_of self) in
  let read := (reconnect_read_query old_rel, Some [("old", VInt old_id)]) in
  node_cypher (source self) read.1 read.2 (db w)
  = (inr ((rel_ :: row) :: rows), g1) ->
  let q :=
    ("MATCH (us), (old), (new) "
     +:+ "WHERE id(us)=$self and id(old)=$old and id(new)=$new "
     +:+ "MATCH " +:+ old_rel)
    +:+ " MERGE" +:+ _rel_merge_helper "us" "new" "r2" None (definition_of self)
    +:+ set_clauses (Dict.keys (_get_node_properties rel_))
    +:+ " WITH r DELETE r" in
  let params := Some [("old", VInt old_id); ("new", VInt new_id)] in
  let answer := node_cypher (source self) q params g1 in
  reconnect old_node new_node self w
  = (match answer.1 with inl e => inl e | inr _ => inr tt end,
     {| db := answer.2;
        issued := issued w ++ [read; (q, params)];
        raised := note (raised w) answer.1 |})
  /\ forall p,
      In p (Dict.keys (_get_node_properties rel_)) ->
      exists before after,
        q = (("MATCH (us), (old), (new) "
              +:+ "WHERE id(us)=$self and id(old)=$old and id(new)=$new "
              +:+ "MATCH " +:+ old_rel)
             +:+ " MERGE"
             +:+ _rel_merge_helper "us" "new" "r2" None (definition_of self)
             +:+ before)
            +:+ set_clause p
            +:+ after +:+ " WITH r DELETE r".
Proof.
  intros Hp Hold Hnew Hoid Hnid Hne old_rel read Hread q params answer.
  split.
  2:{ intros p Hin.
      destruct (set_clauses_has_clause _ _ Hin) as (before & after & Hsplit).
      exists before, after. unfold q. rewrite Hsplit.
      by rewrite !app_assoc_string. }
  pass_reconnect_checks Hp Hold Hnew Hoid Hnid Hne.
  simpl in Hread. fold old_rel.
  change (Dict.set Dict.empty "old" (VInt old_id)) with [("old", VInt old_id)].
  pose proof (cypher_run self (reconnect_read_query old_rel)
                (Some [("old", VInt old_id)]) w) as Hrun.
  rewrite Hread in Hrun. simpl in Hrun.
  rewrite (bind_ok _ _ _ _ _ Hrun).
  rewrite (bind_ok _ _ _ _ (Dict.keys (_get_node_properties rel_)) eq_refl).
  assert (Hq : copy_properties
                 (("MATCH (us), (old), (new) "
                   +:+ "WHERE id(us)=$self and id(old)=$old and id(new)=$new "
                   +:+ "MATCH " +:+ old_rel)
                  +:+ " MERGE"
                  +:+ _rel_merge_helper "us" "new" "r2" None (definition_of self))
                 (Dict.keys (_get_node_properties rel_))
               +:+ " WITH r DELETE r" = q).
  { rewrite copy_properties_clauses. unfold q.
    by rewrite !app_assoc_string. }
  rewrite Hq.
  change (Dict.set [("old", VInt old_id)] "new" (VInt new_id))
    with [("old", VInt old_id); ("new", VInt new_id)].
  fold params.
  unfold bind. rewrite cypher_run. cbn [db issued raised]. fold answer.
  rewrite <- app_assoc.
  destruct answer as [[e|res] g2]; reflexivity.
Qed.

(** With the source and both nodes valid and distinct identities, when the
    read returns no row, [reconnect] fails with [NotConnected] naming the
    source and [old_node]; the read is the only query it has sent, and the
    graph is as the session left it after the read. *)
Lemma reconnect_read_finds_nothing (old_node new_node : StructuredNode)
    (self : RelationshipManager) (w : world) (old_id new_id : Z) (g1 : graph) :
  persisted (source self) = true ->
  valid_node self old_node = true ->
  valid_node self new_node = true ->
  node_id old_node = Some old_id ->
  node_id new_node = Some new_id ->
  old_id <> new_id ->
  let old_rel := _rel_helper "us" "old" "r" (definition_of self) in
  let read := (reconnect_read_query old_rel, Some [("old", VInt old_id)]) in
  node_cypher (source self) read.1 read.2 (db w) = (inr [], g1) ->
  reconnect old_node new_node self w
  = (inl (NotConnected "reconnect" (source self) old_node),
     {| db := g1;
        issued := issued w ++ [read];
        raised := raised w ++ [NotConnected "reconnect" (source self) old_node] |}).
Proof.
  intros Hp Hold Hnew Hoid Hnid Hne old_rel read Hread.
  pass_reconnect_checks Hp Hold Hnew Hoid Hnid Hne.
  simpl in Hread. fold old_rel.
  change (Dict.set Dict.empty "old" (VInt old_id)) with [("old", VInt old_id)].
  pose proof (cypher_run self (reconnect_read_query old_rel)
                (Some [("old", VInt old_id)]) w) as Hrun.
  rewrite Hread in Hrun. simpl in Hrun.
  rewrite (bind_ok _ _ _ _ _ Hrun).
  reflexivity.
Qed.

(** *** Properties without an edge-property class *)

Lemma connect_helper_without_model (self : RelationshipManager) (query : string)
    (properties : Dict.t value) (node : option StructuredNode)
    (nodes : option (list string)) (w : world) :
  model (definition_of self) = None ->
  Dict.truthy properties = true ->
  exists msg,
    connect_helper self query (Some properties) node nodes w
    = (inl (NotImplementedError msg), failed w (NotImplementedError msg)).
Proof.
  intros Hm Ht. unfold connect_helper. rewrite Hm. simpl. rewrite Ht.
  eexists. reflexivity.
Qed.

(** C3, as amended: without a bound edge-property class and with non-empty
    properties, [connect], and [bulk_connect] on a non-empty key list, fail
    before any query is sent and leave the graph as it was.  The error is in
    the validation category: [NotImplementedError] once the checks that come
    first have passed, the [ValueError] of the failing check otherwise. *)
Theorem properties_without_model_fail (self : RelationshipManager)
    (properties : Dict.t value) :
  model (definition_of self) = None ->
  Dict.truthy properties = true ->
  (forall node w, exists e,
      connect node (Some properties) self w = (inl e, failed w e)
      /\ validation_error e = true
      /\ (if persisted (source self) && valid_node self node
          then exists msg, e = NotImplementedError msg
          else exists msg, e = ValueError msg))
  /\ (forall u us label w, exists e,
      bulk_connect (u :: us) label (Some properties) self w
      = (inl e, failed w e)
      /\ validation_error e = true
      /\ (if persisted (source self)
          then exists msg, e = NotImplementedError msg
          else exists msg, e = ValueError msg)).
Proof.
  intros Hm Ht. split.
  - intros node w. destruct (persisted (source self)) eqn:Hp; simpl.
    2:{ destruct (proj1 (checked_operations_fail_fast self w Hp)
                    node (Some properties)) as [msg ->]. eauto. }
    unfold connect. rewrite (check_source_ok _ _ _ _ Hp).
    destruct (valid_node self node) eqn:Hv.
    2:{ destruct (check_node_fail self node w Hv) as [msg Hmsg].
        rewrite (bind_err _ _ _ _ _ Hmsg). eauto. }
    rewrite (bind_ok _ _ _ _ _ (check_node_ok self node w Hv)).
    edestruct connect_helper_without_model as [msg ->]; eauto.
  - intros u us label w. destruct (persisted (source self)) eqn:Hp.
    2:{ destruct (proj1 (proj2 (checked_operations_fail_fast self w Hp))
                    (u :: us) label (Some properties)) as [msg ->]. eauto. }
    unfold bulk_connect. rewrite (check_source_ok _ _ _ _ Hp).
    edestruct connect_helper_without_model as [msg Hmsg]; eauto.
    rewrite (bind_err _ _ _ _ _ Hmsg). eauto.
Qed.

(** *** Class back-references *)

Lemma bind_inr {A B} (m : M A) (f : A -> M B) (w w' : world) (b : B) :
  bind m f w = (inr b, w') ->
  exists a w1, m w = (inr a, w1) /\ f a w1 = (inr b, w').
Proof.
  unfold bind. destruct (m w) as [[e|a] w1]; [discriminate|]. eauto.
Qed.

Ltac bind_inv H a w1 Ha :=
  apply bind_inr in H as (a & w1 & Ha & H).

Lemma set_start_end_oriented (self : RelationshipManager)
    (inst : StructuredRelInstance) (obj : StructuredNode) :
  oriented (direction (definition_of self)) (source_class self) (__class__ obj)
    (_set_start_end_cls self inst (Some obj)).
Proof.
  unfold oriented, _set_start_end_cls.
  destruct (direction (definition_of self)); simpl; auto.
Qed.

Lemma check_source_inr {A} (fn_name : string)
    (fn : RelationshipManager -> M A) (self : RelationshipManager)
    (w w' : world) (a : A) :
  check_source fn_name fn self w = (inr a, w') -> fn self w = (inr a, w').
Proof.
  destruct (persisted (source self)) eqn:Hp.
  - by rewrite (check_source_ok _ _ _ _ Hp).
  - destruct (check_source_fail fn_name fn self w Hp) as [msg ->]. discriminate.
Qed.

Lemma check_node_inr (self : RelationshipManager) (obj : StructuredNode)
    (w w' : world) (u : unit) :
  _check_node self obj w = (inr u, w') -> w' = w.
Proof.
  destruct (valid_node self obj) eqn:Hv.
  - rewrite (check_node_ok _ _ _ Hv). by intros [= _ ->].
  - destruct (check_node_fail self obj w Hv) as [msg ->]. discriminate.
Qed.

Lemma connect_helper_returns (self : RelationshipManager) (query : string)
    (properties : option (Dict.t value)) (node : option StructuredNode)
    (nodes : option (list string)) (w w' : world) (r : StructuredRelInstance) :
  connect_helper self query properties node nodes w = (inr (ConnectedRel r), w') ->
  exists inflated, r = _set_start_end_cls self inflated node.
Proof.
  unfold connect_helper. intros Hrun.
  destruct (negb _ && _); [discriminate|].
  bind_inv Hrun built w1 Hbuilt. destruct built as [rp params].
  bind_inv Hrun params' w2 Hparams.
  destruct (model (definition_of self)) as [rel_model|].
  - bind_inv Hrun rows w3 Hrows.
    bind_inv Hrun row w4 Hrow.
    bind_inv Hrun rel_ w5 Hrel.
    bind_inv Hrun inflated w6 Hinfl.
    bind_inv Hrun u w7 Hhook.
    injection Hrun as Hr _. eauto.
  - bind_inv Hrun rows w3 Hrows. discriminate.
Qed.


Lemma inflate_all_oriented (self : RelationshipManager) (rel_model : pyclass)
    (node : StructuredNode) (rels : list (list raw_rel)) (w w' : world)
    (rs : list StructuredRelInstance) :
  inflate_all self rel_model node rels w = (inr rs, w') ->
  Forall (oriented (direction (definition_of self)) (source_class self)
            (__class__ node)) rs.
Proof.
  revert w w' rs. induction rels as [|rel rels IH]; intros w w' rs Hrun.
  - injection Hrun as <- _. constructor.
  - simpl in Hrun.
    bind_inv Hrun rel_ w1 Hrel.
    bind_inv Hrun inflated w2 Hinfl.
    bind_inv Hrun rest w3 Hrest.
    injection Hrun as <- _. constructor.
    + apply set_start_end_oriented.
    + by eapply IH.
Qed.

(** C10: on a manager built for source [src], [_set_start_end_cls] gives
    every instance, whatever it carried, the target's class as start and the
    source's class as end when the direction is [INCOMING], and the source's
    class as start and the target's class as end for [OUTGOING] and [EITHER];
    every instance returned by [connect], [relationship] and
    [all_relationships] carries these two classes. *)
Theorem start_end_classes_follow_direction (src node : StructuredNode)
    (key : string) (d : definition) :
  let self := RelationshipManager_init src key d in
  (forall inst,
      oriented (direction d) (__class__ src) (__class__ node)
        (_set_start_end_cls self inst (Some node)))
  /\ (forall properties w w' r,
      connect node properties self w = (inr (ConnectedRel r), w') ->
      oriented (direction d) (__class__ src) (__class__ node) r)
  /\ (forall w w' r,
      relationship node self w = (inr (Some r), w') ->
      oriented (direction d) (__class__ src) (__class__ node) r)
  /\ (forall w w' rs,
      all_relationships node self w = (inr rs, w') ->
      Forall (oriented (direction d) (__class__ src) (__class__ node)) rs).
Proof.
  intros self.
  assert (Hset : forall inst,
             oriented (direction d) (__class__ src) (__class__ node)
               (_set_start_end_cls self inst (Some node)))
    by (intros inst; apply (set_start_end_oriented self)).
  split; [exact Hset|]. split; [|split].
  - intros properties w w' r Hrun.
    apply check_source_inr in Hrun.
    bind_inv Hrun u w1 Hcheck.
    apply connect_helper_returns in Hrun as [inflated ->]. apply Hset.
  - intros w w' r Hrun.
    apply check_source_inr in Hrun.
    bind_inv Hrun u w1 Hcheck.
    bind_inv Hrun them w2 Hid.
    bind_inv Hrun rels w3 Hrels.
    destruct rels as [|rel rels]; [discriminate|].
    bind_inv Hrun row w4 Hrow.
    bind_inv Hrun rel_ w5 Hrel.
    bind_inv Hrun inflated w6 Hinfl.
    injection Hrun as <- _. apply Hset.
  - intros w w' rs Hrun.
    apply check_source_inr in Hrun.
    bind_inv Hrun u w1 Hcheck.
    bind_inv Hrun them w2 Hid.
    bind_inv Hrun rels w3 Hrels.
    destruct rels as [|rel rels].
    + injection Hrun as <- _. constructor.
    + by apply (inflate_all_oriented self) in Hrun.
Qed.

(** *** Propagation of failures *)

Lemma propagates_ret {A} (a : A) : propagates (ret a).
Proof. by intros w. Qed.

Lemma propagates_raise {A} (e : exn) : propagates (raise (A := A) e).
Proof. by intros w. Qed.

Lemma propagates_bind {A B} (m : M A) (f : A -> M B) :
  propagates m -> (forall a, propagates (f a)) -> propagates (bind m f).
Proof.
  intros Hm Hf w. unfold bind. specialize (Hm w).
  destruct (m w) as [[e|a] w1]; [exact Hm|].
  specialize (Hf a w1). destruct (f a w1) as [[e|b] w2]; congruence.
Qed.

Lemma propagates_call {A} (f : graph -> result A * graph) : propagates (call f).
Proof. intros w. unfold call. by destruct (f (db w)) as [[e|a] g]. Qed.

Lemma propagates_lift {A} (x : result A) : propagates (lift x).
Proof. apply propagates_call. Qed.

Lemma propagates_cypher (self : RelationshipManager) (q : string)
    (params : option (Dict.t value)) :
  propagates (cypher self q params).
Proof.
  intros w. rewrite cypher_run.
  by destruct (node_cypher _ _ _ _) as [[e|rows] g].
Qed.

Lemma propagates_getitem {A} (l : list A) (i : nat) : propagates (getitem l i).
Proof. unfold getitem. destruct (l !! i); [apply propagates_ret|apply propagates_raise]. Qed.

Lemma propagates_get_id (obj : StructuredNode) : propagates (get_id obj).
Proof. unfold get_id. destruct (node_id obj); [apply propagates_ret|apply propagates_raise]. Qed.

Lemma propagates_run_hook
    (hook : option (StructuredRelInstance -> graph -> result unit * graph))
    (inst : StructuredRelInstance) :
  propagates (run_hook hook inst).
Proof. destruct hook; [apply propagates_call|apply propagates_ret]. Qed.

Lemma propagates_check_node (self : RelationshipManager) (obj : StructuredNode) :
  propagates (_check_node self obj).
Proof.
  unfold _check_node.
  repeat (destruct (negb _)); first [apply propagates_raise|apply propagates_ret].
Qed.

Lemma propagates_check_source {A} (fn_name : string)
    (fn : RelationshipManager -> M A) (self : RelationshipManager) :
  propagates (fn self) -> propagates (check_source fn_name fn self).
Proof.
  intros Hfn. apply propagates_bind; [apply propagates_lift|by intros _].
Qed.

(** One step of a propagation proof: the primitives, a bind, or a case of
    the code. *)
Ltac propagate_step :=
  match goal with
  | |- propagates (ret _) => apply propagates_ret
  | |- propagates (raise _) => apply propagates_raise
  | |- propagates (lift _) => apply propagates_lift
  | |- propagates (call _) => apply propagates_call
  | |- propagates (cypher _ _ _) => apply propagates_cypher
  | |- propagates (getitem _ _) => apply propagates_getitem
  | |- propagates (get_id _) => apply propagates_get_id
  | |- propagates (run_hook _ _) => apply propagates_run_hook
  | |- propagates (_check_node _ _) => apply propagates_check_node
  | |- propagates (check_source _ _ _) => apply propagates_check_source
  | |- propagates (bind _ _) => apply propagates_bind; [|intros ?]
  | |- propagates (match ?x with _ => _ end) => destruct x
  | |- propagates (let '(_, _) := ?x in _) => destruct x
  end.

Ltac propagate := repeat propagate_step.

Lemma propagates_connect_helper (self : RelationshipManager) (query : string)
    (properties : option (Dict.t value)) (node : option StructuredNode)
    (nodes : option (list string)) :
  propagates (connect_helper self query properties node nodes).
Proof. unfold connect_helper. propagate. Qed.

Lemma propagates_inflate_all (self : RelationshipManager) (rel_model : pyclass)
    (node : StructuredNode) (rels : list (list raw_rel)) :
  propagates (inflate_all self rel_model node rels).
Proof.
  induction rels as [|rel rels IH]; simpl; [apply propagates_ret|].
  propagate. exact IH.
Qed.

Lemma propagates_proxy (c : engine_call pyargs) (self : RelationshipManager) :
  propagates (proxy c self).
Proof. unfold proxy, _new_traversal. propagate. Qed.

(** C8: in every operation of the manager an exception raised by the
    layer or by a collaborator is the outcome of the call.  The exceptions
    are [single], which turns the [IndexError] of [self[0]] into [None] and
    lets every other error through, and [relationship] and
    [all_relationships], which answer [None] and the empty list when the
    query finds no edge. *)
Theorem no_failure_swallowed (self : RelationshipManager) :
  (forall node properties, propagates (connect node properties self))
  /\ (forall nodes label properties,
         propagates (bulk_connect nodes label properties self))
  /\ (forall nodes, propagates (bulk_disconnect nodes self))
  /\ (forall node, propagates (disconnect node self))
  /\ propagates (disconnect_all self)
  /\ (forall node properties, propagates (replace node properties self))
  /\ (forall old_node new_node, propagates (reconnect old_node new_node self))
  /\ (forall node, propagates (relationship node self))
  /\ (forall node, propagates (all_relationships node self))
  /\ (forall c, propagates (proxy c self))
  /\ (forall kwargs, propagates (search kwargs self))
  /\ (forall w,
         match single self w with
         | (inr (Some _), w') => raised w' = raised w
         | (inr None, w') => raised w' = raised w ++ [IndexError]
         | (inl e, w') => raised w' = raised w ++ [e] /\ e <> IndexError
         end)
  /\ (forall w w',
         __getitem__ 0 self w = (inl IndexError, w') ->
         single self w = (inr None, w'))
  /\ (forall node them w g1,
         persisted (source self) = true ->
         valid_node self node = true ->
         node_id node = Some them ->
         node_cypher (source self)
           ("MATCH " +:+ _rel_helper "us" "them" "r" (definition_of self)
            +:+ " WHERE id(them)=$them and id(us)=$self RETURN r LIMIT 1")
           (Some [("them", VInt them)]) (db w) = (inr [], g1) ->
         (relationship node self w).1 = inr None)
  /\ (forall node them w g1,
         persisted (source self) = true ->
         valid_node self node = true ->
         node_id node = Some them ->
         node_cypher (source self)
           ("MATCH " +:+ _rel_helper "us" "them" "r" (definition_of self)
            +:+ " WHERE id(them)=$them and id(us)=$self RETURN r ")
           (Some [("them", VInt them)]) (db w) = (inr [], g1) ->
         (all_relationships node self w).1 = inr []).
Proof.
  repeat match goal with |- _ /\ _ => split end.
  - intros. unfold connect. propagate. apply propagates_connect_helper.
  - intros. unfold bulk_connect. propagate. apply propagates_connect_helper.
  - intros. unfold bulk_disconnect. propagate.
  - intros. unfold disconnect. propagate.
  - unfold disconnect_all. propagate.
  - intros. unfold replace, disconnect_all, connect. propagate.
    apply propagates_connect_helper.
  - intros. unfold reconnect. propagate.
  - intros. unfold relationship. propagate.
  - intros. unfold all_relationships. propagate. apply propagates_inflate_all.
  - intros. apply propagates_proxy.
  - intros. unfold search, filter. propagate. apply propagates_proxy.
  - intros w. unfold single.
    pose proof (propagates_proxy (Traversal_getitem 0) self w) as Hp.
    unfold __getitem__.
    destruct (proxy (Traversal_getitem 0) self w) as [[e|x] w']; [|exact Hp].
    destruct e; first [exact Hp | by split].
  - intros w w' Hget. unfold single. by rewrite Hget.
  - intros node them w g1 Hp Hv Hid Hq.
    unfold relationship. rewrite (check_source_ok _ _ _ _ Hp).
    rewrite (bind_ok _ _ _ _ _ (check_node_ok _ _ _ Hv)).
    rewrite (bind_ok _ _ _ _ _ (get_id_ok _ _ _ Hid)).
    unfold bind. rewrite cypher_run.
    change (Dict.set Dict.empty "them" (VInt them)) with [("them", VInt them)].
    by rewrite Hq.
  - intros node them w g1 Hp Hv Hid Hq.
    unfold all_relationships. rewrite (check_source_ok _ _ _ _ Hp).
    rewrite (bind_ok _ _ _ _ _ (check_node_ok _ _ _ Hv)).
    rewrite (bind_ok _ _ _ _ _ (get_id_ok _ _ _ Hid)).
    unfold bind. rewrite cypher_run.
    change (Dict.set Dict.empty "them" (VInt them)) with [("them", VInt them)].
    by rewrite Hq.
Qed.

(** *** Parameters of an edge-property instance *)

Lemma get_set_same {V} (d : Dict.t V) (k : string) (v : V) :
  Dict.get (Dict.set d k v) k = Some v.
Proof.
  induction d as [|[k' v'] d IH]; simpl.
  - by rewrite String.eqb_refl.
  - destruct (String.eqb k' k) eqn:Hk; simpl; rewrite Hk; [done|exact IH].
Qed.

Lemma get_set_other {V} (d : Dict.t V) (k k' : string) (v : V) :
  k <> k' -> Dict.get (Dict.set d k v) k' = Dict.get d k'.
Proof.
  intros Hne. induction d as [|[k0 v0] d IH]; simpl.
  - by rewrite (proj2 (String.eqb_neq k k') Hne).
  - destruct (String.eqb k0 k) eqn:Hk; simpl.
    + apply String.eqb_eq in Hk as ->.
      by rewrite (proj2 (String.eqb_neq k k') Hne).
    + destruct (String.eqb k0 k'); [done|exact IH].
Qed.

Lemma fold_bind_property (items : list (string * value))
    (rp0 : Dict.t (option string)) (params0 : Dict.t value) :
  NoDup (map fst items) ->
  (forall p v, In (p, v) items ->
     Dict.get (fold_left bind_property items (rp0, params0)).1 p
     = Some (placeholder p v)
     /\ Dict.get (fold_left bind_property items (rp0, params0)).2 p = Some v)
  /\ (forall p, ~ In p (map fst items) ->
     Dict.get (fold_left bind_property items (rp0, params0)).1 p = Dict.get rp0 p
     /\ Dict.get (fold_left bind_property items (rp0, params0)).2 p
        = Dict.get params0 p).
Proof.
  revert rp0 params0.
  induction items as [|[p0 v0] items IH]; intros rp0 params0 Hnd.
  - split; [intros p v []|done].
  - apply NoDup_cons in Hnd as [Hfresh Hnd].
    cbn [fold_left bind_property].
    destruct (IH (Dict.set rp0 p0 (if negb (is_None v0) then Some ("$" +:+ p0) else None))
                 (Dict.set params0 p0 v0) Hnd) as [Hin Hout].
    split.
    + intros p v [[= <- <-]|Hpv]; [|by apply Hin].
      destruct (Hout p0) as [-> ->].
      { by intros ?%list_elem_of_In. }
      rewrite !get_set_same. unfold placeholder. by destruct (is_None v0).
    + intros p Hp. simpl in Hp.
      destruct (Hout p) as [-> ->]; [tauto|].
      rewrite !get_set_other by tauto. done.
Qed.

Lemma silent_bind {A B} (m : M A) (f : A -> M B) :
  silent m -> (forall a, silent (f a)) -> silent (bind m f).
Proof.
  intros Hm Hf w. unfold bind. specialize (Hm w).
  destruct (m w) as [[e|a] w1]; [exact Hm|].
  rewrite (Hf a w1). exact Hm.
Qed.

Lemma silent_call {A} (f : graph -> result A * graph) : silent (call f).
Proof. intros w. unfold call. by destruct (f (db w)). Qed.

Lemma silent_getitem {A} (l : list A) (i : nat) : silent (getitem l i).
Proof. intros w. unfold getitem. by destruct (l !! i). Qed.

Lemma silent_run_hook
    (hook : option (StructuredRelInstance -> graph -> result unit * graph))
    (inst : StructuredRelInstance) :
  silent (run_hook hook inst).
Proof. destruct hook; [apply silent_call|done]. Qed.

Lemma issued_after_cypher {A} (self : RelationshipManager) (q : string)
    (params : option (Dict.t value)) (k : list (list raw_rel) -> M A) (w : world) :
  (forall rows, silent (k rows)) ->
  issued (bind (cypher self q params) k w).2 = issued w ++ [(q, params)].
Proof.
  intros Hk. unfold bind. rewrite cypher_run.
  destruct (node_cypher _ _ _ _) as [[e|rows] g]; simpl; [done|].
  by rewrite Hk.
Qed.

Lemma rel_new_defaults (rel_model : pyclass) (properties : Dict.t value)
    (field : string) (default : option value) :
  In (field, default) (defined_properties rel_model) ->
  In (field,
      match Dict.get properties field with
      | Some v => v
      | None => match default with Some d => d | None => VNone end
      end)
     (__properties__ (rel_new rel_model properties)).
Proof.
  intros Hin. unfold rel_new. cbn [__properties__].
  apply in_map_iff. exists (field, default). by split.
Qed.

(** C9: [connect] with a bound edge-property class builds the instance
    from the supplied properties, every declared field that is omitted taking
    its declared default, and deflates it.  The query it sends then carries a
    parameter for every deflated property: the pattern gets the placeholder
    [$p] for a value that is not [None] and an explicit [None] for one that
    is, and the parameter map gets the value itself, [None] included, under
    the property's name (the key [them] holds the identity of the target). *)
Theorem connect_binds_every_property (node : StructuredNode)
    (properties : option (Dict.t value)) (self : RelationshipManager)
    (w : world) (rel_model : pyclass) (deflated : Dict.t value) (them : Z) :
  persisted (source self) = true ->
  valid_node self node = true ->
  node_id node = Some them ->
  model (definition_of self) = Some rel_model ->
  let tmp := rel_new rel_model (default Dict.empty properties) in
  rel_deflate rel_model (__properties__ tmp) = inr deflated ->
  NoDup (Dict.keys deflated) ->
  (forall hook, pre_save rel_model = Some hook -> (hook tmp (db w)).1 = inr tt) ->
  (forall field dflt,
      In (field, dflt) (defined_properties rel_model) ->
      In (field,
          match Dict.get (default Dict.empty properties) field with
          | Some v => v
          | None => match dflt with Some d => d | None => VNone end
          end)
         (__properties__ tmp))
  /\ exists rp params,
      issued (connect node properties self w).2
      = issued w
        ++ [((("MATCH (them:" +:+ __name__ (__class__ node) +:+ "), (us:"
               +:+ __name__ (__class__ (source self))
               +:+ ") WHERE id(them)=$them and id(us)=$self " +:+ "MERGE")
              +:+ _rel_merge_helper "us" "them" "r" (Some rp) (definition_of self))
             +:+ " RETURN r",
             Some params)]
      /\ Dict.get params "them" = Some (VInt them)
      /\ forall p v,
          In (p, v) deflated ->
          Dict.get rp p = Some (placeholder p v)
          /\ exists v', Dict.get params p = Some v' /\ (p <> "them" -> v' = v).
Proof.
  intros Hp Hv Hid Hm tmp Hdefl Hnd Hhook.
  split; [intros field dflt; apply rel_new_defaults|].
  destruct (fold_bind_property deflated Dict.empty Dict.empty Hnd) as [Hin _].
  exists (build_params deflated Dict.empty).1,
         (Dict.set (build_params deflated Dict.empty).2 "them" (VInt them)).
  split; [|split].
  - unfold connect. rewrite (check_source_ok _ _ _ _ Hp).
    rewrite (bind_ok _ _ _ _ _ (check_node_ok _ _ _ Hv)).
    unfold connect_helper. rewrite Hm. cbn [truthy_model negb andb].
    assert (Htmp : match properties with
                   | Some props =>
                       if Dict.truthy props then rel_new rel_model props
                       else rel_new rel_model Dict.empty
                   | None => rel_new rel_model Dict.empty
                   end = tmp).
    { unfold tmp. destruct properties as [[|item props]|]; reflexivity. }
    rewrite Htmp, Hdefl.
    assert (Hrun : exists w1, issued w1 = issued w
                   /\ run_hook (pre_save (rel_class tmp)) tmp w = (inr tt, w1)).
    { unfold run_hook. change (rel_class tmp) with rel_model.
      destruct (pre_save rel_model) as [hook|] eqn:Hh.
      - specialize (Hhook hook eq_refl). unfold call.
        destruct (hook tmp (db w)) as [[e|[]] g]; [discriminate|].
        eexists. split; [|reflexivity]. done.
      - exists w. done. }
    destruct Hrun as (w1 & Hw1 & Hrun).
    rewrite (bind_ok _ _ w w1 (Some (build_params deflated Dict.empty).1,
                               (build_params deflated Dict.empty).2)).
    2:{ rewrite (bind_ok _ _ _ _ _ (lift_ok deflated w)).
        destruct (build_params deflated Dict.empty) as [rp params].
        by rewrite (bind_ok _ _ _ _ _ Hrun). }
    cbv beta iota.
    rewrite (bind_ok _ _ w1 w1
               (Dict.set (build_params deflated Dict.empty).2 "them" (VInt them))).
    2:{ by rewrite (bind_ok _ _ _ _ _ (get_id_ok _ _ _ Hid)). }
    rewrite issued_after_cypher; [by rewrite Hw1|].
    intros rows. repeat (apply silent_bind; [|intros ?]);
      first [apply silent_getitem | apply silent_call
            | apply silent_run_hook | done].
  - apply get_set_same.
  - intros p v Hpv. destruct (Hin p v Hpv) as [Hrp Hparams].
    split; [exact Hrp|].
    destruct (String.eqb_spec "them" p) as [<-|Hne].
    + exists (VInt them). split; [apply get_set_same|done].
    + exists v. split; [|done].
      rewrite get_set_other by done. exact Hparams.
Qed.

(** *** Further properties of the operations *)

Lemma bind_cypher_run {A} (self : RelationshipManager) (q : string)
    (params : option (Dict.t value)) (k : list (list raw_rel) -> M A)
    (w : world) :
  bind (cypher self q params) k w
  = match (node_cypher (source self) q params (db w)).1 with
    | inl e =>
        (inl e,
         {| db := (node_cypher (source self) q params (db w)).2;
            issued := issued w ++ [(q, params)];
            raised := raised w ++ [e] |})
    | inr rows =>
        k rows
          {| db := (node_cypher (source self) q params (db w)).2;
             issued := issued w ++ [(q, params)];
             raised := raised w |}
    end.
Proof.
  unfold bind. rewrite cypher_run.
  by destruct (node_cypher _ _ _ _) as [[e|rows] g].
Qed.

(** X8: [disconnect] does not check the node it is given.  For a node
    without an identity it stops with [AttributeError] before anything is
    sent; for a node with one, of whatever class, it sends its one delete
    query with that identity and returns what the session returns. *)
Theorem disconnect_skips_node_check (node : StructuredNode)
    (self : RelationshipManager) (w : world) :
  persisted (source self) = true ->
  match node_id node with
  | None =>
      disconnect node self w
      = (inl (AttributeError "id"), failed w (AttributeError "id"))
  | Some them =>
      let q := "MATCH (a), (b) WHERE id(a)=$self and id(b)=$them "
               +:+ "MATCH " +:+ _rel_helper "a" "b" "r" (definition_of self)
               +:+ " DELETE r" in
      let params := Some [("them", VInt them)] in
      let answer := node_cypher (source self) q params (db w) in
      disconnect node self w
      = (match answer.1 with inl e => inl e | inr _ => inr tt end,
         {| db := answer.2;
            issued := issued w ++ [(q, params)];
            raised := note (raised w) answer.1 |})
  end.
Proof.
  intros Hp. unfold disconnect. rewrite (check_source_ok _ _ _ _ Hp).
  destruct (node_id node) as [them|] eqn:Hid.
  - rewrite (bind_ok _ _ _ _ _ (get_id_ok _ _ _ Hid)).
    rewrite bind_cypher_run.
    change (Dict.set Dict.empty "them" (VInt them)) with [("them", VInt them)].
    by destruct (node_cypher _ _ _ _) as [[e|rows] g].
  - unfold get_id. rewrite Hid. reflexivity.
Qed.

Lemma disconnect_all_run (self : RelationshipManager) (w : world) :
  persisted (source self) = true ->
  let q := "MATCH (a) WHERE id(a)=$self MATCH "
           +:+ _rel_helper "a" ("b:" +:+ __label__ (node_class (definition_of self)))
                 "r" (definition_of self)
           +:+ " DELETE r" in
  let answer := node_cypher (source self) q None (db w) in
  disconnect_all self w
  = (match answer.1 with inl e => inl e | inr _ => inr tt end,
     {| db := answer.2;
        issued := issued w ++ [(q, None)];
        raised := note (raised w) answer.1 |}).
Proof.
  intros Hp q answer. unfold disconnect_all.
  rewrite (check_source_ok _ _ _ _ Hp), bind_cypher_run.
  fold q answer. by destruct answer as [[e|rows] g].
Qed.

(** X9: when the session refuses the delete of [replace], the error is the
    outcome and the connect is never attempted: the delete is the only query
    sent. *)
Theorem replace_stops_when_delete_fails (node : StructuredNode)
    (properties : option (Dict.t value)) (self : RelationshipManager)
    (w : world) (e : exn) (g1 : graph) :
  persisted (source self) = true ->
  let q := "MATCH (a) WHERE id(a)=$self MATCH "
           +:+ _rel_helper "a" ("b:" +:+ __label__ (node_class (definition_of self)))
                 "r" (definition_of self)
           +:+ " DELETE r" in
  node_cypher (source self) q None (db w) = (inl e, g1) ->
  replace node properties self w
  = (inl e,
     {| db := g1; issued := issued w ++ [(q, None)]; raised := raised w ++ [e] |}).
Proof.
  intros Hp q Hanswer. unfold replace. rewrite (check_source_ok _ _ _ _ Hp).
  pose proof (disconnect_all_run self w Hp) as Hrun. simpl in Hrun.
  fold q in Hrun. rewrite Hanswer in Hrun. simpl in Hrun.
  by rewrite (bind_err _ _ _ _ _ Hrun).
Qed.

(** X10: [replace] deletes before it looks at its arguments.  With a node
    that fails the node check, or with properties for a relationship that has
    no edge-property class, the delete of all edges has already been sent and
    answered when the call fails with its validation error. *)
Theorem replace_deletes_before_validating (node : StructuredNode)
    (properties : option (Dict.t value)) (self : RelationshipManager)
    (w : world) (rows : list (list raw_rel)) (g1 : graph) :
  persisted (source self) = true ->
  let q := "MATCH (a) WHERE id(a)=$self MATCH "
           +:+ _rel_helper "a" ("b:" +:+ __label__ (node_class (definition_of self)))
                 "r" (definition_of self)
           +:+ " DELETE r" in
  node_cypher (source self) q None (db w) = (inr rows, g1) ->
  valid_node self node = false
  \/ (model (definition_of self) = None /\ truthy_properties properties = true) ->
  exists e,
    replace node properties self w
    = (inl e,
       {| db := g1; issued := issued w ++ [(q, None)]; raised := raised w ++ [e] |})
    /\ validation_error e = true.
Proof.
  intros Hp q Hanswer Hbad. unfold replace. rewrite (check_source_ok _ _ _ _ Hp).
  pose proof (disconnect_all_run self w Hp) as Hrun. simpl in Hrun.
  fold q in Hrun. rewrite Hanswer in Hrun. simpl in Hrun.
  rewrite (bind_ok _ _ _ _ _ Hrun).
  set (w1 := {| db := g1; issued := issued w ++ [(q, None)]; raised := raised w |}).
  assert (Hconnect : exists e,
             connect node properties self w1 = (inl e, failed w1 e)
             /\ validation_error e = true).
  { unfold connect. rewrite (check_source_ok _ _ _ _ Hp).
    destruct (valid_node self node) eqn:Hv.
    - destruct Hbad as [|[Hm Ht]]; [discriminate|].
      rewrite (bind_ok _ _ _ _ _ (check_node_ok _ _ _ Hv)).
      destruct properties as [props|]; [|discriminate].
      edestruct connect_helper_without_model as [msg ->]; eauto.
    - destruct (check_node_fail self node w1 Hv) as [msg Hmsg].
      rewrite (bind_err _ _ _ _ _ Hmsg). eauto. }
  destruct Hconnect as (e & Hrunc & He).
  exists e. split; [|exact He].
  by rewrite (bind_err _ _ _ _ _ Hrunc).
Qed.

(** X11: every read accessor goes through the source check.  On a source
    that is unsaved or deleted each proxy, [search] and [single] stop with the
    [ValueError] of the check, the engine is not called, and [single] raises
    rather than answering [None]. *)
Theorem proxies_check_the_source (self : RelationshipManager) (w : world) :
  persisted (source self) = false ->
  (forall c, exists msg,
      proxy c self w = (inl (ValueError msg), failed w (ValueError msg)))
  /\ (forall kwargs, exists msg,
      search kwargs self w = (inl (ValueError msg), failed w (ValueError msg)))
  /\ (exists msg,
      single self w = (inl (ValueError msg), failed w (ValueError msg))).
Proof.
  intros Hp.
  assert (Hproxy : forall c, exists msg,
             proxy c self w = (inl (ValueError msg), failed w (ValueError msg))).
  { intros c. unfold proxy, _new_traversal.
    destruct (check_source_fail "_new_traversal"
                (fun self => ret (source self, name self, definition_of self))
                self w Hp) as [msg Hmsg].
    exists msg. by rewrite (bind_err _ _ _ _ _ Hmsg). }
  split; [exact Hproxy|]. split.
  - intros kwargs. destruct (Hproxy (NodeSet_filter kwargs)) as [msg Hmsg].
    exists msg. unfold search, filter. by rewrite (bind_err _ _ _ _ _ Hmsg).
  - destruct (Hproxy (Traversal_getitem 0)) as [msg Hmsg].
    exists msg. unfold single, __getitem__. by rewrite Hmsg.
Qed.

(** X12: the operations that take a node check it before they send
    anything.  With a node that fails the node check, [connect],
    [relationship], [all_relationships] and [reconnect] (for either of its two
    nodes) stop with the [ValueError] of that check and the world only records
    the exception. *)
Theorem node_check_comes_first (node : StructuredNode)
    (self : RelationshipManager) (w : world) :
  persisted (source self) = true ->
  valid_node self node = false ->
  exists msg,
    (forall properties,
        connect node properties self w
        = (inl (ValueError msg), failed w (ValueError msg)))
    /\ relationship node self w
       = (inl (ValueError msg), failed w (ValueError msg))
    /\ all_relationships node self w
       = (inl (ValueError msg), failed w (ValueError msg))
    /\ (forall other,
        reconnect node other self w
        = (inl (ValueError msg), failed w (ValueError msg)))
    /\ (forall other,
        valid_node self other = true ->
        reconnect other node self w
        = (inl (ValueError msg), failed w (ValueError msg))).
Proof.
  intros Hp Hv. destruct (check_node_fail self node w Hv) as [msg Hmsg].
  exists msg. repeat match goal with |- _ /\ _ => split end.
  - intros properties. unfold connect.
    by rewrite (check_source_ok _ _ _ _ Hp), (bind_err _ _ _ _ _ Hmsg).
  - unfold relationship.
    by rewrite (check_source_ok _ _ _ _ Hp), (bind_err _ _ _ _ _ Hmsg).
  - unfold all_relationships.
    by rewrite (check_source_ok _ _ _ _ Hp), (bind_err _ _ _ _ _ Hmsg).
  - intros other. unfold reconnect.
    by rewrite (check_source_ok _ _ _ _ Hp), (bind_err _ _ _ _ _ Hmsg).
  - intros other Hother. unfold reconnect.
    rewrite (check_source_ok _ _ _ _ Hp).
    rewrite (bind_ok _ _ _ _ _ (check_node_ok _ _ _ Hother)).
    by rewrite (bind_err _ _ _ _ _ Hmsg).
Qed.

(** X13: an instance returned by [bulk_connect] has no target class.  The
    helper is called without a node, so the side of the edge that [connect]
    fills with the target's class is filled with [NoneType]; the other side is
    the source's class. *)
Theorem bulk_connect_has_no_target_class (nodes : list UUID) (label : string)
    (properties : option (Dict.t value)) (self : RelationshipManager)
    (w w' : world) (r : StructuredRelInstance) :
  bulk_connect nodes label properties self w = (inr (Some (ConnectedRel r)), w') ->
  oriented (direction (definition_of self)) (source_class self) NoneType r.
Proof.
  intros Hrun. apply check_source_inr in Hrun.
  destruct nodes as [|u us]; [discriminate|].
  bind_inv Hrun c w1 Hhelper. injection Hrun as -> _.
  apply connect_helper_returns in Hhelper as [inflated ->].
  unfold oriented, _set_start_end_cls.
  destruct (direction (definition_of self)); simpl; auto.
Qed.

(** X14: [reconnect] never writes without having read.  Whatever it is
    given, it sends nothing, or only its read, or its read followed by one
    more query; and that second query is sent only after the session has
    answered the read with at least one row. *)
Theorem reconnect_reads_before_writing (old_node new_node : StructuredNode)
    (self : RelationshipManager) (w : world) :
  let sent := issued (reconnect old_node new_node self w).2 in
  let old_rel := _rel_helper "us" "old" "r" (definition_of self) in
  sent = issued w
  \/ exists old_id,
      node_id old_node = Some old_id
      /\ let read := (reconnect_read_query old_rel, Some [("old", VInt old_id)]) in
         sent = issued w ++ [read]
         \/ exists row rows g1 write,
             node_cypher (source self) read.1 read.2 (db w)
             = (inr (row :: rows), g1)
             /\ sent = issued w ++ [read; write].
Proof.
  intros sent old_rel. subst sent.
  destruct (persisted (source self)) eqn:Hp.
  2:{ left.
      by destruct (proj2 (proj2 (proj2 (proj2 (proj2
            (checked_operations_fail_fast self w Hp))))) old_node new_node)
        as [msg ->]. }
  unfold reconnect. rewrite (check_source_ok _ _ _ _ Hp).
  destruct (valid_node self old_node) eqn:Hold.
  2:{ left. destruct (check_node_fail self old_node w Hold) as [msg Hmsg].
      by rewrite (bind_err _ _ _ _ _ Hmsg). }
  rewrite (bind_ok _ _ _ _ _ (check_node_ok _ _ _ Hold)).
  destruct (valid_node self new_node) eqn:Hnew.
  2:{ left. destruct (check_node_fail self new_node w Hnew) as [msg Hmsg].
      by rewrite (bind_err _ _ _ _ _ Hmsg). }
  rewrite (bind_ok _ _ _ _ _ (check_node_ok _ _ _ Hnew)).
  destruct (valid_node_id _ _ Hold) as [old_id Hoid].
  destruct (valid_node_id _ _ Hnew) as [new_id Hnid].
  rewrite (bind_ok _ _ _ _ _ (get_id_ok _ _ _ Hoid)).
  rewrite (bind_ok _ _ _ _ _ (get_id_ok _ _ _ Hnid)).
  destruct (Z.eqb old_id new_id); [by left|].
  right. exists old_id. split; [exact Hoid|]. simpl.
  rewrite bind_cypher_run.
  change (Dict.set Dict.empty "old" (VInt old_id)) with [("old", VInt old_id)].
  fold old_rel.
  destruct (node_cypher (source self) (reconnect_read_query old_rel)
              (Some [("old", VInt old_id)]) (db w)) as [[e|rows] g1] eqn:Hread;
    simpl; [by left|].
  destruct rows as [|row rows]; [by left|].
  destruct row as [|rel_ row]; [by left|].
  right. exists (rel_ :: row), rows, g1.
  exists (copy_properties
            (("MATCH (us), (old), (new) "
              +:+ "WHERE id(us)=$self and id(old)=$old and id(new)=$new "
              +:+ "MATCH " +:+ old_rel)
             +:+ " MERGE"
             +:+ _rel_merge_helper "us" "new" "r2" None (definition_of self))
            (Dict.keys (_get_node_properties rel_))
          +:+ " WITH r DELETE r",
          Some [("old", VInt old_id); ("new", VInt new_id)]).
  split; [reflexivity|].
  match goal with
  | |- issued (bind ?m ?k ?w0).2 = _ =>
      rewrite (bind_ok m k w0 w0 (Dict.keys (_get_node_properties rel_)) eq_refl)
  end.
  rewrite bind_cypher_run. cbn [db issued raised].
  match goal with
  | |- context [node_cypher ?src ?q ?ps g1] =>
      destruct (node_cypher src q ps g1) as [[e|res] g2]
  end; cbn [fst snd issued ret]; by rewrite <- app_assoc.
Qed.

(** X15: [relationship] reads the first cell of the first row and nothing
    else.  When the session answers with at least one row, the instance is
    that cell inflated by the edge-property class, or by [StructuredRel] when
    none is bound, with its two class references set; the other rows do not
    matter. *)
Theorem relationship_takes_first_row (node : StructuredNode)
    (self : RelationshipManager) (w : world) (them : Z) (rel_ : raw_rel)
    (row : list raw_rel) (rows : list (list raw_rel)) (g1 : graph)
    (inflated : StructuredRelInstance) :
  persisted (source self) = true ->
  valid_node self node = true ->
  node_id node = Some them ->
  let q := "MATCH " +:+ _rel_helper "us" "them" "r" (definition_of self)
           +:+ " WHERE id(them)=$them and id(us)=$self RETURN r LIMIT 1" in
  let params := Some [("them", VInt them)] in
  node_cypher (source self) q params (db w) = (inr ((rel_ :: row) :: rows), g1) ->
  rel_inflate (model_or_StructuredRel self) rel_ = inr inflated ->
  relationship node self w
  = (inr (Some (_set_start_end_cls self inflated (Some node))),
     {| db := g1; issued := issued w ++ [(q, params)]; raised := raised w |}).
Proof.
  intros Hp Hv Hid q params Hanswer Hinfl. unfold relationship.
  rewrite (check_source_ok _ _ _ _ Hp).
  rewrite (bind_ok _ _ _ _ _ (check_node_ok _ _ _ Hv)).
  rewrite (bind_ok _ _ _ _ _ (get_id_ok _ _ _ Hid)).
  rewrite bind_cypher_run.
  change (Dict.set Dict.empty "them" (VInt them)) with [("them", VInt them)].
  fold q params. rewrite Hanswer. cbn [fst snd].
  set (w1 := {| db := g1; issued := issued w ++ [(q, params)];
                raised := raised w |}).
  rewrite (bind_ok _ _ w1 w1 (rel_ :: row) eq_refl).
  rewrite (bind_ok _ _ w1 w1 rel_ eq_refl).
  rewrite Hinfl. by rewrite (bind_ok _ _ _ _ _ (lift_ok inflated w1)).
Qed.

Lemma inflate_all_rows (self : RelationshipManager) (rel_model : pyclass)
    (node : StructuredNode) (rels : list (list raw_rel))
    (instances : list StructuredRelInstance) (w : world) :
  Forall2 (fun rel inflated =>
             exists rel_, rel !! 0%nat = Some rel_
                          /\ rel_inflate rel_model rel_ = inr inflated)
          rels instances ->
  inflate_all self rel_model node rels w
  = (inr (map (fun inflated => _set_start_end_cls self inflated (Some node))
              instances), w).
Proof.
  intros Hall. induction Hall as [|rel inflated rels instances Hrel _ IH].
  - reflexivity.
  - destruct Hrel as (rel_ & Hcell & Hinfl).
    cbn [inflate_all].
    rewrite (bind_ok _ _ w w rel_).
    2:{ unfold getitem. by rewrite Hcell. }
    rewrite Hinfl, (bind_ok _ _ _ _ _ (lift_ok inflated w)).
    by rewrite (bind_ok _ _ _ _ _ IH).
Qed.

(** X16: [all_relationships] gives one instance for every row of the answer,
    in the order of the rows: the first cell of each row, inflated, with its
    two class references set. *)
Theorem all_relationships_maps_rows (node : StructuredNode)
    (self : RelationshipManager) (w : world) (them : Z)
    (rows : list (list raw_rel)) (instances : list StructuredRelInstance)
    (g1 : graph) :
  persisted (source self) = true ->
  valid_node self node = true ->
  node_id node = Some them ->
  let q := "MATCH " +:+ _rel_helper "us" "them" "r" (definition_of self)
           +:+ " WHERE id(them)=$them and id(us)=$self RETURN r " in
  let params := Some [("them", VInt them)] in
  node_cypher (source self) q params (db w) = (inr rows, g1) ->
  Forall2 (fun rel inflated =>
             exists rel_, rel !! 0%nat = Some rel_
                          /\ rel_inflate (model_or_StructuredRel self) rel_
                             = inr inflated)
          rows instances ->
  all_relationships node self w
  = (inr (map (fun inflated => _set_start_end_cls self inflated (Some node))
              instances),
     {| db := g1; issued := issued w ++ [(q, params)]; raised := raised w |}).
Proof.
  intros Hp Hv Hid q params Hanswer Hall. unfold all_relationships.
  rewrite (check_source_ok _ _ _ _ Hp).
  rewrite (bind_ok _ _ _ _ _ (check_node_ok _ _ _ Hv)).
  rewrite (bind_ok _ _ _ _ _ (get_id_ok _ _ _ Hid)).
  rewrite bind_cypher_run.
  change (Dict.set Dict.empty "them" (VInt them)) with [("them", VInt them)].
  fold q params. rewrite Hanswer. cbn [fst snd].
  destruct rows as [|rel rels].
  - by inversion Hall.
  - by apply inflate_all_rows.
Qed.

(** X17: without an edge-property class and without properties, [connect]
    sends one query, the merge with no property placeholders and the
    target's identity as its only parameter, does not read the edge back, and
    returns [True] when the session accepts the query and the session's error
    otherwise. *)
Theorem connect_without_model (node : StructuredNode)
    (properties : option (Dict.t value)) (self : RelationshipManager)
    (w : world) (them : Z) :
  persisted (source self) = true ->
  valid_node self node = true ->
  node_id node = Some them ->
  model (definition_of self) = None ->
  truthy_properties properties = false ->
  let q := ("MATCH (them:" +:+ __name__ (__class__ node) +:+ "), (us:"
            +:+ __name__ (__class__ (source self))
            +:+ ") WHERE id(them)=$them and id(us)=$self " +:+ "MERGE")
           +:+ _rel_merge_helper "us" "them" "r" None (definition_of self) in
  let params := Some [("them", VInt them)] in
  let answer := node_cypher (source self) q params (db w) in
  connect node properties self w
  = (match answer.1 with inl e => inl e | inr _ => inr ConnectedTrue end,
     {| db := answer.2;
        issued := issued w ++ [(q, params)];
        raised := note (raised w) answer.1 |}).
Proof.
  intros Hp Hv Hid Hm Hprops q params answer. unfold connect.
  rewrite (check_source_ok _ _ _ _ Hp).
  rewrite (bind_ok _ _ _ _ _ (check_node_ok _ _ _ Hv)).
  unfold connect_helper. rewrite Hm, Hprops. cbn [truthy_model negb andb].
  unfold bind at 1. unfold ret at 1. cbv beta iota.
  rewrite (bind_ok _ _ w w [("them", VInt them)]).
  2:{ by rewrite (bind_ok _ _ _ _ _ (get_id_ok _ _ _ Hid)). }
  rewrite bind_cypher_run. fold q params answer.
  by destruct answer as [[e|rows] g].
Qed.

(** X18: without an edge-property class and without properties,
    [bulk_connect] with at least one key sends one query for all of them: the
    keys travel as the list parameter [uuids], converted by [str] and in the
    order given, the label in the pattern is the one the caller passed, and
    the call returns [True] when the session accepts the query. *)
Theorem bulk_connect_without_model (u : UUID) (us : list UUID) (label : string)
    (properties : option (Dict.t value)) (self : RelationshipManager)
    (w : world) :
  persisted (source self) = true ->
  model (definition_of self) = None ->
  truthy_properties properties = false ->
  let q := ("UNWIND $uuids as uuid MATCH (them:" +:+ label +:+ "), (us:"
            +:+ __name__ (__class__ (source self))
            +:+ ") WHERE them.uuid=uuid " +:+ "and id(us)=$self MERGE")
           +:+ _rel_merge_helper "us" "them" "r" None (definition_of self) in
  let params :=
    Some [("them", VStr "uuid");
          ("uuids", VList (map VStr (map str_uuid (u :: us))))] in
  let answer := node_cypher (source self) q params (db w) in
  bulk_connect (u :: us) label properties self w
  = (match answer.1 with inl e => inl e | inr _ => inr (Some ConnectedTrue) end,
     {| db := answer.2;
        issued := issued w ++ [(q, params)];
        raised := note (raised w) answer.1 |}).
Proof.
  intros Hp Hm Hprops q params answer. unfold bulk_connect.
  rewrite (check_source_ok _ _ _ _ Hp).
  unfold connect_helper. rewrite Hm, Hprops. cbn [truthy_model negb andb].
  change (bind (ret (None, Dict.empty)) ?f) with (f (None, Dict.empty)).
  cbv beta iota.
  change (bind (ret ?a) ?f) with (f a). cbv beta.
  change (Dict.set (Dict.set Dict.empty "them" (VStr "uuid")) "uuids"
            (VList (map VStr (map str_uuid (u :: us)))))
    with [("them", VStr "uuid");
          ("uuids", VList (map VStr (map str_uuid (u :: us))))].
  fold q params. unfold bind. rewrite cypher_run. fold answer.
  by destruct answer as [[e|rows] g].
Qed.

(** X19: with an edge-property class [connect] reads the merged edge back,
    and it needs a row to read.  When the query is accepted but matches
    nothing, so that the answer has no row, the call ends in [IndexError]
    after the query has been sent. *)
Theorem connect_needs_a_row (node : StructuredNode)
    (properties : option (Dict.t value)) (self : RelationshipManager)
    (w w0 : world) (rel_model : pyclass) (deflated : Dict.t value)
    (them : Z) (g1 : graph) :
  persisted (source self) = true ->
  valid_node self node = true ->
  node_id node = Some them ->
  model (definition_of self) = Some rel_model ->
  let tmp := rel_new rel_model (default Dict.empty properties) in
  rel_deflate rel_model (__properties__ tmp) = inr deflated ->
  run_hook (pre_save rel_model) tmp w = (inr tt, w0) ->
  let built := build_params deflated Dict.empty in
  let q := (("MATCH (them:" +:+ __name__ (__class__ node) +:+ "), (us:"
             +:+ __name__ (__class__ (source self))
             +:+ ") WHERE id(them)=$them and id(us)=$self " +:+ "MERGE")
            +:+ _rel_merge_helper "us" "them" "r" (Some built.1)
                  (definition_of self))
           +:+ " RETURN r" in
  let params := Some (Dict.set built.2 "them" (VInt them)) in
  node_cypher (source self) q params (db w0) = (inr [], g1) ->
  connect node properties self w
  = (inl IndexError,
     {| db := g1;
        issued := issued w0 ++ [(q, params)];
        raised := raised w0 ++ [IndexError] |}).
Proof.
  intros Hp Hv Hid Hm tmp Hdefl Hhook built q params Hanswer.
  unfold connect. rewrite (check_source_ok _ _ _ _ Hp).
  rewrite (bind_ok _ _ _ _ _ (check_node_ok _ _ _ Hv)).
  unfold connect_helper. rewrite Hm. cbn [truthy_model negb andb].
  assert (Htmp : match properties with
                 | Some props =>
                     if Dict.truthy props then rel_new rel_model props
                     else rel_new rel_model Dict.empty
                 | None => rel_new rel_model Dict.empty
                 end = tmp).
  { unfold tmp. destruct properties as [[|item props]|]; reflexivity. }
  rewrite Htmp, Hdefl.
  rewrite (bind_ok _ _ w w0 (Some built.1, built.2)).
  2:{ rewrite (bind_ok _ _ _ _ _ (lift_ok deflated w)). fold built.
      destruct built as [rp ps].
      change (rel_class tmp) with rel_model.
      by rewrite (bind_ok _ _ _ _ _ Hhook). }
  cbv beta iota.
  rewrite (bind_ok _ _ w0 w0 (Dict.set built.2 "them" (VInt them))).
  2:{ by rewrite (bind_ok _ _ _ _ _ (get_id_ok _ _ _ Hid)). }
  rewrite bind_cypher_run. fold q params. rewrite Hanswer. reflexivity.
Qed.

End Manager.

(** ** Facts on the query language *)

Section CypherFacts.

Import Cypher.

Lemma get_drop_other {V} (d : Dict.t V) (k k' : string) :
  k <> k' -> Dict.get (drop d k) k' = Dict.get d k'.
Proof.
  intros Hne. induction d as [|[k0 v0] d IH]; [reflexivity|].
  unfold drop. simpl. destruct (String.eqb k0 k) eqn:Hk; simpl.
  - apply String.eqb_eq in Hk as ->.
    rewrite (proj2 (String.eqb_neq k k') Hne). exact IH.
  - destruct (String.eqb k0 k'); [reflexivity|exact IH].
Qed.

Lemma get_in_keys {V} (d : Dict.t V) (k : string) (v : V) :
  Dict.get d k = Some v -> In k (Dict.keys d).
Proof.
  induction d as [|[k0 v0] d IH]; [discriminate|].
  simpl. destruct (String.eqb k0 k) eqn:Hk.
  - apply String.eqb_eq in Hk. by left.
  - intros Hget. right. by apply IH.
Qed.

(** Whether an edge fits a pattern depends on its type and its ends. *)
Lemma connects_shape (d : definition) (a b : Z) (e e' : edge) :
  etype e' = etype e -> estart e' = estart e -> eend e' = eend e ->
  connects d a b e' = connects d a b e.
Proof. unfold connects. by intros -> -> ->. Qed.

(** No edge joins the source with two different nodes. *)
Lemma connects_apart (d : definition) (s o n : Z) (e : edge) :
  o <> n -> connects d s o e = true -> connects d s n e = false.
Proof.
  intros Hne. unfold connects.
  destruct (String.eqb (etype e) (relation_type d)); [|done]. simpl.
  destruct (direction d);
    destruct (Z.eqb_spec (estart e) s), (Z.eqb_spec (eend e) o),
             (Z.eqb_spec (estart e) o), (Z.eqb_spec (eend e) s),
             (Z.eqb_spec (eend e) n), (Z.eqb_spec (estart e) n);
    simpl; try done; intros _; exfalso; apply Hne; congruence.
Qed.

Lemma connects_new_edge (d : definition) (s t : Z) :
  connects d s t (new_edge d s t) = true.
Proof.
  unfold connects, new_edge.
  destruct (direction d); simpl;
    rewrite String.eqb_refl, !Z.eqb_refl; reflexivity.
Qed.

Lemma matches_elem (d : definition) (s t : Z) (g : pgraph) (i : nat) (e : edge) :
  In (i, e) (matches d s t g)
  <-> pedges g !! i = Some e /\ connects d s t e = true.
Proof.
  unfold matches. rewrite <- list_elem_of_In, elem_of_map_to_list.
  rewrite map_lookup_filter_Some. reflexivity.
Qed.

Lemma matches_none (d : definition) (s t : Z) (g : pgraph) :
  matches d s t g = []
  <-> forall i e, pedges g !! i = Some e -> connects d s t e = false.
Proof.
  split.
  - intros Hnone i e Hi. destruct (connects d s t e) eqn:Hc; [|done].
    assert (Hin : In (i, e) (matches d s t g)) by by apply matches_elem.
    rewrite Hnone in Hin. destruct Hin.
  - intros Hall. destruct (matches d s t g) as [|[i e] l] eqn:Hm; [done|].
    assert (Hin : In (i, e) (matches d s t g)) by (rewrite Hm; by left).
    apply matches_elem in Hin as [Hi Hc]. by rewrite (Hall i e Hi) in Hc.
Qed.

Lemma matches_after_create (d : definition) (s t : Z) (g : pgraph) :
  matches d s t g = [] ->
  matches d s t
    {| pnodes := pnodes g;
       pedges := <[ fresh (dom (pedges g)) := new_edge d s t ]> (pedges g) |}
  = [(fresh (dom (pedges g)), new_edge d s t)].
Proof.
  intros Hnone. unfold matches in *. simpl.
  apply map_to_list_empty_iff in Hnone.
  rewrite map_filter_insert_True by apply connects_new_edge.
  rewrite Hnone. rewrite insert_empty. apply map_to_list_singleton.
Qed.

(** *** The read query *)

Lemma read_keeps_graph (params : Dict.t value) (d : definition) (g : pgraph) :
  graph_of (run params (read_clauses d) g) = g.
Proof. reflexivity. Qed.

Lemma flat_map_nil {A B} (f : A -> list B) (l : list A) :
  (forall a, In a l -> f a = []) -> flat_map f l = [].
Proof.
  induction l as [|a l IH]; intros Hf; [reflexivity|].
  simpl. rewrite (Hf a) by by left. apply IH. intros a' Ha. apply Hf. by right.
Qed.

Lemma bind_node_rows (params : Dict.t value) (g : pgraph) (rows : list row)
    (v p : string) (i : Z) :
  param params p = Some i -> i ∈ pnodes g ->
  bind_node params g rows (v, p)
  = map (fun r => Dict.set r v (NodeRef i)) rows.
Proof.
  intros Hp Hin. unfold bind_node. simpl. rewrite Hp.
  by rewrite decide_True.
Qed.


Lemma read_output_found (d : definition) (s o : Z) (g : pgraph) :
  s ∈ pnodes g -> o ∈ pnodes g ->
  output (run [("old", VInt o); ("self", VInt s)] (read_clauses d) g)
  = map (fun ie => [ie.2]) (matches d s o g).
Proof.
  intros Hs Ho. unfold run, run_from, read_clauses, start.
  cbn [fold_left]. unfold step at 3. cbn [graph_of table output fold_left].
  rewrite (bind_node_rows [("old", VInt o); ("self", VInt s)] g _
             "us" "self" s eq_refl Hs).
  rewrite (bind_node_rows [("old", VInt o); ("self", VInt s)] g _
             "old" "old" o eq_refl Ho).
  change (map _ (map _ [[]])) with [[("us", NodeRef s); ("old", NodeRef o)]].
  unfold step. cbn [graph_of table output flat_map].
  rewrite app_nil_r.
  change (match_row d "us" "old" "r" g [("us", NodeRef s); ("old", NodeRef o)])
    with (map (fun ie : nat * edge =>
                 [("us", NodeRef s); ("old", NodeRef o); ("r", EdgeRef ie.1)])
              (matches d s o g)).
  rewrite map_map. apply map_ext_in. intros [i e] Hin.
  apply matches_elem in Hin as [Hi _].
  unfold return_row. simpl. by rewrite Hi.
Qed.

Lemma bind_node_missing (params : Dict.t value) (g : pgraph) (rows : list row)
    (v p : string) (i : Z) :
  param params p = Some i -> i ∉ pnodes g ->
  bind_node params g rows (v, p) = [].
Proof.
  intros Hp Hin. unfold bind_node. simpl. rewrite Hp.
  by rewrite decide_False.
Qed.

Lemma bind_node_nil (params : Dict.t value) (g : pgraph) (b : string * string) :
  bind_node params g [] b = [].
Proof.
  unfold bind_node. destruct (param params b.2); [|done].
  by destruct (decide _).
Qed.

Lemma read_output_none (d : definition) (s o : Z) (g : pgraph) :
  matches d s o g = [] ->
  output (run [("old", VInt o); ("self", VInt s)] (read_clauses d) g) = [].
Proof.
  intros Hnone.
  destruct (decide (s ∈ pnodes g)) as [Hs|Hs];
    [destruct (decide (o ∈ pnodes g)) as [Ho|Ho]|].
  - rewrite read_output_found by done. by rewrite Hnone.
  - unfold run, run_from, read_clauses, start.
    cbn [fold_left]. unfold step at 3. cbn [graph_of table output fold_left].
    rewrite (bind_node_missing [("old", VInt o); ("self", VInt s)] g _
               "old" "old" o eq_refl Ho).
    reflexivity.
  - unfold run, run_from, read_clauses, start.
    cbn [fold_left]. unfold step at 3. cbn [graph_of table output fold_left].
    rewrite (bind_node_missing [("old", VInt o); ("self", VInt s)] g _
               "us" "self" s eq_refl Hs).
    rewrite bind_node_nil. reflexivity.
Qed.

(** *** Deleting *)

Lemma delete_fold_nodes (x : string) (rows : list row) (g : pgraph) :
  pnodes (fold_left (delete_row x) rows g) = pnodes g.
Proof.
  revert g. induction rows as [|r rows IH]; intros g; [reflexivity|].
  cbn [fold_left]. rewrite IH. unfold delete_row.
  by destruct (edge_of r x).
Qed.

Lemma delete_fold_sub (x : string) (rows : list row) (g : pgraph)
    (k : nat) (e : edge) :
  pedges (fold_left (delete_row x) rows g) !! k = Some e ->
  pedges g !! k = Some e.
Proof.
  revert g. induction rows as [|r rows IH]; intros g; [done|].
  cbn [fold_left]. intros Hk. apply IH in Hk.
  unfold delete_row in Hk. destruct (edge_of r x) as [i|]; [|exact Hk].
  simpl in Hk. by apply lookup_delete_Some in Hk as [_ Hk].
Qed.

Lemma delete_fold_gone (x : string) (rows : list row) (g : pgraph) (k : nat) :
  (exists r, In r rows /\ edge_of r x = Some k) ->
  pedges (fold_left (delete_row x) rows g) !! k = None.
Proof.
  revert g. induction rows as [|r rows IH]; intros g [r0 [Hin Hr0]].
  - destruct Hin.
  - cbn [fold_left]. destruct Hin as [<-|Hin].
    + destruct (pedges (fold_left (delete_row x) rows (delete_row x g r)) !! k)
        as [e|] eqn:Hk; [|reflexivity].
      apply delete_fold_sub in Hk. unfold delete_row in Hk.
      rewrite Hr0 in Hk. simpl in Hk. by rewrite lookup_delete_eq in Hk.
    + apply IH. by exists r0.
Qed.

Lemma delete_fold_stays (x : string) (rows : list row) (g : pgraph) (k : nat) :
  (forall r, In r rows -> edge_of r x <> Some k) ->
  pedges (fold_left (delete_row x) rows g) !! k = pedges g !! k.
Proof.
  revert g. induction rows as [|r rows IH]; intros g Hrows; [reflexivity|].
  cbn [fold_left]. rewrite IH by (intros r' Hr'; apply Hrows; by right).
  unfold delete_row. pose proof (Hrows r (or_introl eq_refl)) as Hr.
  destruct (edge_of r x) as [i|]; [|reflexivity].
  simpl. apply lookup_delete_ne. congruence.
Qed.

Lemma edge_of_project (x : string) (r : row) :
  edge_of (project x r) x = edge_of r x.
Proof.
  unfold project, edge_of. destruct (Dict.get r x) as [[i|i]|]; simpl;
    try rewrite String.eqb_refl; reflexivity.
Qed.

Lemma states_app (params : Dict.t value) (q1 q2 : list clause) (st : state) :
  states params (q1 ++ q2) st
  = states params q1 st ++ states params q2 (run_from params q1 st).
Proof.
  revert st. induction q1 as [|c q1 IH]; intros st; [reflexivity|].
  cbn [app states run_from fold_left]. by rewrite IH.
Qed.

(** *** The move query *)

Section Move.

Variable d : definition.
Variables s o n : Z.
Variable G : pgraph.

Hypothesis Hs : s ∈ pnodes G.
Hypothesis Ho : o ∈ pnodes G.
Hypothesis Hn : n ∈ pnodes G.
Hypothesis Hne : o <> n.
Hypothesis Hold : matches d s o G <> [].

Local Abbreviation P :=
  ([("old", VInt o); ("new", VInt n); ("self", VInt s)] : Dict.t value).

Local Abbreviation merged := (merged_graph d s n G).
Local Abbreviation row4 := (matched_row s o n).
Local Abbreviation row5 := (merged_row s o n).
Local Abbreviation move_row := (move_row_of d s o n G).
Local Abbreviation kept := (kept_of d s n G).
Local Abbreviation move_rows := (move_rows_of d s o n G).

Lemma matched_state :
  step P
    (step P (start G)
       (MatchNodes [("us", "self"); ("old", "old"); ("new", "new")]))
    (MatchRel "us" "old" "r" d)
  = {| graph_of := G;
       table := map (fun ie => row4 ie.1) (matches d s o G);
       output := [] |}.
Proof.
  unfold start. unfold step at 2.
  cbn [graph_of table output fold_left].
  rewrite (bind_node_rows P G _ "us" "self" s eq_refl Hs).
  rewrite (bind_node_rows P G _ "old" "old" o eq_refl Ho).
  rewrite (bind_node_rows P G _ "new" "new" n eq_refl Hn).
  change (map _ (map _ (map _ [[]])))
    with [[("us", NodeRef s); ("old", NodeRef o); ("new", NodeRef n)]].
  unfold step. cbn [graph_of table output flat_map].
  rewrite app_nil_r. reflexivity.
Qed.

Lemma merge_found (g : pgraph) (rows acc : list row) :
  matches d s n g <> [] ->
  (forall r, In r rows ->
     node_of r "us" = Some s /\ node_of r "new" = Some n) ->
  fold_left (merge_row d "us" "new" "r2") rows (g, acc)
  = (g, acc ++ flat_map
                 (fun r => map (fun ie => Dict.set r "r2" (EdgeRef ie.1))
                             (matches d s n g)) rows).
Proof.
  intros Hfound. revert acc.
  induction rows as [|r rows IH]; intros acc Hrows; simpl.
  - by rewrite app_nil_r.
  - destruct (Hrows r (or_introl eq_refl)) as [Hus Hnew].
    unfold merge_row at 2. rewrite Hus, Hnew. simpl.
    destruct (matches d s n g) as [|ie found] eqn:Hm; [done|].
    rewrite IH by (intros r' Hr'; apply Hrows; by right).
    by rewrite <- app_assoc.
Qed.

Lemma merged_found : matches d s n merged <> [].
Proof.
  unfold merged_graph. destruct (matches d s n G) as [|ie l] eqn:Hm.
  - by rewrite matches_after_create.
  - by rewrite Hm.
Qed.

Lemma merge_rows (r : row) (rows : list row) :
  (forall r', In r' (r :: rows) ->
     node_of r' "us" = Some s /\ node_of r' "new" = Some n) ->
  fold_left (merge_row d "us" "new" "r2") (r :: rows) (G, [])
  = (merged,
     flat_map (fun r => map (fun ie => Dict.set r "r2" (EdgeRef ie.1))
                          (matches d s n merged)) (r :: rows)).
Proof.
  intros Hrows. destruct (matches d s n G) as [|ie l] eqn:Hm.
  - destruct (Hrows r (or_introl eq_refl)) as [Hus Hnew].
    cbn [fold_left]. unfold merge_row at 2. rewrite Hus, Hnew. cbn [fst snd].
    rewrite Hm. cbn [app].
    assert (Hmerged :
      {| pnodes := pnodes G;
         pedges := <[ fresh (dom (pedges G)) := new_edge d s n ]> (pedges G) |}
      = merged) by (unfold merged_graph; by rewrite Hm).
    rewrite Hmerged.
    rewrite merge_found;
      [|apply merged_found|intros r' Hr'; apply Hrows; by right].
    cbn [flat_map]. f_equal.
    assert (Hone : matches d s n merged
                   = [(fresh (dom (pedges G)), new_edge d s n)]).
    { rewrite <- Hmerged. by apply matches_after_create. }
    rewrite Hone. reflexivity.
  - assert (Hmerged : merged = G) by (unfold merged_graph; by rewrite Hm).
    rewrite Hmerged. rewrite merge_found; [done| |exact Hrows].
    by rewrite Hm.
Qed.


Lemma before_merge (i : nat) (e : edge) :
  pedges G !! i = Some e -> pedges merged !! i = Some e.
Proof.
  intros Hi. unfold merged_graph. destruct (matches d s n G); [|exact Hi].
  simpl. rewrite lookup_insert_ne; [exact Hi|].
  intros Heq. apply (is_fresh (dom (pedges G))).
  rewrite Heq. apply elem_of_dom. by eexists.
Qed.

Lemma kept_merged : kept merged.
Proof.
  split; [reflexivity|]. intros k.
  destruct (pedges merged !! k) as [e|]; [|reflexivity]. by exists e.
Qed.

Lemma kept_old (g : pgraph) (i : nat) (e : edge) :
  kept g -> pedges G !! i = Some e -> connects d s o e = true ->
  pedges g !! i = Some e.
Proof.
  intros [_ Hk] Hi Hc. specialize (Hk i).
  rewrite (before_merge i e Hi) in Hk.
  destruct Hk as (e' & He' & _ & _ & _ & Hsame).
  rewrite He'. f_equal. apply Hsame. by apply (connects_apart d s o n).
Qed.

Lemma set_row_kept (g : pgraph) (r : row) (key : string) (i j : nat) :
  kept g -> move_row r i j -> kept (set_row "r2" key "r" g r).
Proof.
  intros Hkept ([Hr Hr2] & (ei & Hi & Hci) & (ej & Hj & Hcj)).
  unfold set_row. rewrite Hr, Hr2.
  rewrite (kept_old g i ei Hkept Hi Hci).
  destruct Hkept as [Hnodes Hk]. split; [exact Hnodes|].
  intros k. specialize (Hk k). cbn [pedges].
  destruct (decide (k = j)) as [->|Hkj].
  - rewrite lookup_alter_eq. rewrite Hj in Hk |- *.
    destruct Hk as (e' & He' & Ht & Hst & Hen & _).
    rewrite He'. eexists. split; [reflexivity|].
    repeat split; [exact Ht|exact Hst|exact Hen|].
    intros Hfalse. by rewrite Hcj in Hfalse.
  - rewrite lookup_alter_ne by done. exact Hk.
Qed.

Lemma set_fold_kept (key : string) (rows : list row) (g : pgraph) :
  kept g -> (forall r, In r rows -> exists i j, move_row r i j) ->
  kept (fold_left (set_row "r2" key "r") rows g).
Proof.
  revert g. induction rows as [|r rows IH]; intros g Hkept Hrows; [done|].
  cbn [fold_left]. apply IH.
  - destruct (Hrows r (or_introl eq_refl)) as (i & j & Hr).
    by apply (set_row_kept g r key i j).
  - intros r' Hr'. apply Hrows. by right.
Qed.

(** The run of the [SET] clauses keeps the rows and the edges. *)
Lemma set_phase_kept (params : Dict.t value) (keys : list string) (st : state) :
  kept (graph_of st) ->
  (forall r, In r (table st) -> exists i j, move_row r i j) ->
  let st' :=
    run_from params (map (fun q => SetProperty "r2" q "r") keys) st in
  kept (graph_of st')
  /\ table st' = table st
  /\ output st' = output st
  /\ Forall (fun st => kept (graph_of st))
       (states params (map (fun q => SetProperty "r2" q "r") keys) st).
Proof.
  revert st. induction keys as [|q keys IH]; intros st Hkept Hrows.
  - cbn. split; [exact Hkept|]. split; [reflexivity|]. split; [reflexivity|].
    constructor.
  - cbn [map run_from fold_left states].
    set (st1 := step params st (SetProperty "r2" q "r")).
    assert (Hk1 : kept (graph_of st1)) by by apply set_fold_kept.
    assert (Ht1 : table st1 = table st) by reflexivity.
    assert (Hr1 : forall r, In r (table st1) -> exists i j, move_row r i j)
      by by rewrite Ht1.
    destruct (IH st1 Hk1 Hr1) as (Hk & Ht & Hout & Hs').
    split; [exact Hk|]. split; [exact Ht|]. split; [exact Hout|].
    constructor; [exact Hk1|exact Hs'].
Qed.

Section Carry.

Variable p : string.
Variable v : value.

(** Every old edge has the value [v] under the key [p]. *)
Hypothesis Hagree :
  forall i e, pedges G !! i = Some e -> connects d s o e = true ->
    Dict.get (eprops e) p = Some v.

Lemma set_row_carried (g : pgraph) (r : row) (key : string) (i j k : nat) :
  kept g -> move_row r i j -> carried p v k g ->
  carried p v k (set_row "r2" key "r" g r).
Proof.
  intros Hkept ([Hr Hr2] & (ei & Hi & Hci) & _) Hcar.
  unfold set_row. rewrite Hr, Hr2.
  rewrite (kept_old g i ei Hkept Hi Hci).
  intros e. cbn [pedges].
  destruct (decide (k = j)) as [->|Hkj].
  - rewrite lookup_alter_eq.
    destruct (pedges g !! j) as [e0|] eqn:He0; [|discriminate].
    intros [= <-]. cbn [set_prop eprops].
    destruct (decide (key = p)) as [->|Hkey].
    + rewrite (Hagree i ei Hi Hci). apply get_set_same.
    + destruct (Dict.get (eprops ei) key).
      * rewrite get_set_other by done. by apply Hcar.
      * rewrite get_drop_other by done. by apply Hcar.
  - rewrite lookup_alter_ne by done. apply Hcar.
Qed.

Lemma set_row_carries (g : pgraph) (r : row) (i j : nat) :
  kept g -> move_row r i j -> carried p v j (set_row "r2" p "r" g r).
Proof.
  intros Hkept ([Hr Hr2] & (ei & Hi & Hci) & _).
  unfold set_row. rewrite Hr, Hr2.
  rewrite (kept_old g i ei Hkept Hi Hci).
  intros e. cbn [pedges]. rewrite lookup_alter_eq.
  destruct (pedges g !! j) as [e0|]; [|discriminate].
  intros [= <-]. cbn [set_prop eprops].
  rewrite (Hagree i ei Hi Hci). apply get_set_same.
Qed.

Lemma set_fold_carried (key : string) (rows : list row) (g : pgraph) (k : nat) :
  kept g -> (forall r, In r rows -> exists i j, move_row r i j) ->
  carried p v k g -> carried p v k (fold_left (set_row "r2" key "r") rows g).
Proof.
  revert g. induction rows as [|r rows IH]; intros g Hkept Hrows Hcar; [done|].
  cbn [fold_left].
  destruct (Hrows r (or_introl eq_refl)) as (i & j & Hr).
  apply IH.
  - by apply (set_row_kept g r key i j).
  - intros r' Hr'. apply Hrows. by right.
  - by apply (set_row_carried g r key i j k).
Qed.

Lemma set_fold_carries (rows : list row) (g : pgraph) (j : nat) :
  kept g -> (forall r, In r rows -> exists i j, move_row r i j) ->
  (exists r i, In r rows /\ move_row r i j) ->
  carried p v j (fold_left (set_row "r2" p "r") rows g).
Proof.
  revert g. induction rows as [|r rows IH]; intros g Hkept Hrows Hex.
  - destruct Hex as (r & i & [] & _).
  - cbn [fold_left].
    destruct (Hrows r (or_introl eq_refl)) as (i0 & j0 & Hr0).
    assert (Hkept' : kept (set_row "r2" p "r" g r))
      by by apply (set_row_kept g r p i0 j0).
    assert (Hrows' : forall r', In r' rows -> exists i j, move_row r' i j)
      by (intros r' Hr'; apply Hrows; by right).
    destruct Hex as (r1 & i & [<-|Hin] & Hr1).
    + apply set_fold_carried; [done|done|].
      by apply (set_row_carries g r i j).
    + apply IH; [done|done|]. by exists r1, i.
Qed.

(** The run of the [SET] clauses on a property of the old edges. *)
Lemma set_phase_carried (params : Dict.t value) (keys : list string) (st : state) :
  kept (graph_of st) ->
  (forall r, In r (table st) -> exists i j, move_row r i j) ->
  let st' :=
    run_from params (map (fun q => SetProperty "r2" q "r") keys) st in
  (forall k, carried p v k (graph_of st) -> carried p v k (graph_of st'))
  /\ (In p keys ->
      forall j, (exists r i, In r (table st) /\ move_row r i j) ->
        carried p v j (graph_of st')).
Proof.
  revert st. induction keys as [|q keys IH]; intros st Hkept Hrows.
  - cbn. split; [done|intros []].
  - cbn [map run_from fold_left].
    set (st1 := step params st (SetProperty "r2" q "r")).
    assert (Hk1 : kept (graph_of st1)) by by apply set_fold_kept.
    assert (Ht1 : table st1 = table st) by reflexivity.
    assert (Hr1 : forall r, In r (table st1) -> exists i j, move_row r i j)
      by by rewrite Ht1.
    destruct (IH st1 Hk1 Hr1) as (Hc & Hp).
    split.
    + intros k Hcar. apply Hc. by apply set_fold_carried.
    + intros [Heq|Hin] j Hex.
      * apply Hc. unfold st1. rewrite Heq. by apply set_fold_carries.
      * apply Hp; [exact Hin|]. by rewrite Ht1.
Qed.

End Carry.


Lemma merged_old (k : nat) (e : edge) :
  pedges merged !! k = Some e -> connects d s o e = true ->
  pedges G !! k = Some e.
Proof.
  unfold merged_graph. destruct (matches d s n G); [|done].
  simpl. intros Hk Hc.
  destruct (decide (k = fresh (dom (pedges G)))) as [->|Hfresh].
  - rewrite lookup_insert_eq in Hk. injection Hk as <-.
    apply (connects_apart d s o n) in Hc; [|exact Hne].
    by rewrite connects_new_edge in Hc.
  - by rewrite lookup_insert_ne in Hk.
Qed.

Lemma at_source_start : at_source d s G.
Proof.
  destruct (matches d s o G) as [|[i e] l] eqn:Hm; [done|].
  assert (Hin : In (i, e) (matches d s o G)) by (rewrite Hm; by left).
  apply matches_elem in Hin as [Hi Hc]. by exists o, i, e.
Qed.

Lemma at_source_kept (g : pgraph) : kept g -> at_source d s g.
Proof.
  intros [_ Hk]. destruct at_source_start as (t & k & e & Hi & Hc).
  specialize (Hk k). rewrite (before_merge k e Hi) in Hk.
  destruct Hk as (e' & He' & Ht & Hst & Hen & _).
  exists t, k, e'. split; [exact He'|].
  by rewrite (connects_shape d s t e e' Ht Hst Hen).
Qed.


Lemma merged_state :
  step P
    (step P
       (step P (start G)
          (MatchNodes [("us", "self"); ("old", "old"); ("new", "new")]))
       (MatchRel "us" "old" "r" d))
    (MergeRel "us" "new" "r2" d)
  = {| graph_of := merged; table := move_rows; output := [] |}.
Proof.
  rewrite matched_state. unfold step. cbn [graph_of table output].
  unfold move_rows_of.
  destruct (matches d s o G) as [|ie l] eqn:Hm; [done|].
  cbn [map]. rewrite merge_rows; [reflexivity|].
  intros r' Hr'. change (In r' (map (fun ie => row4 ie.1) (ie :: l))) in Hr'.
  apply in_map_iff in Hr' as (ie' & <- & _). by split.
Qed.

Lemma move_rows_elem (r : row) :
  In r move_rows
  <-> exists i ei j ej,
        r = row5 i j
        /\ pedges G !! i = Some ei /\ connects d s o ei = true
        /\ pedges merged !! j = Some ej /\ connects d s n ej = true.
Proof.
  unfold move_rows_of. rewrite in_flat_map. split.
  - intros (r4 & Hr4 & Hr).
    apply in_map_iff in Hr4 as ([i ei] & <- & Hi).
    apply in_map_iff in Hr as ([j ej] & <- & Hj).
    apply matches_elem in Hi as [Hi Hci].
    apply matches_elem in Hj as [Hj Hcj].
    by exists i, ei, j, ej.
  - intros (i & ei & j & ej & -> & Hi & Hci & Hj & Hcj).
    exists (row4 i). split.
    + apply in_map_iff. exists (i, ei). split; [reflexivity|].
      by apply matches_elem.
    + apply in_map_iff. exists (j, ej). split; [reflexivity|].
      by apply matches_elem.
Qed.

Lemma move_rows_ok (r : row) :
  In r move_rows -> exists i j, move_row r i j.
Proof.
  intros (i & ei & j & ej & -> & Hi & Hci & Hj & Hcj)%move_rows_elem.
  exists i, j. split; [by split|]. split; by eexists.
Qed.

Lemma move_rows_cover (i j : nat) (ei ej : edge) :
  pedges G !! i = Some ei -> connects d s o ei = true ->
  pedges merged !! j = Some ej -> connects d s n ej = true ->
  In (row5 i j) move_rows /\ move_row (row5 i j) i j.
Proof.
  intros Hi Hci Hj Hcj. split.
  - apply move_rows_elem. by exists i, ei, j, ej.
  - split; [by split|]. split; by eexists.
Qed.

Lemma some_old : exists i e, pedges G !! i = Some e /\ connects d s o e = true.
Proof.
  destruct (matches d s o G) as [|[i e] l] eqn:Hm; [done|].
  assert (Hin : In (i, e) (matches d s o G)) by (rewrite Hm; by left).
  apply matches_elem in Hin. by exists i, e.
Qed.

Lemma some_new :
  exists j e, pedges merged !! j = Some e /\ connects d s n e = true.
Proof.
  pose proof merged_found as Hfound.
  destruct (matches d s n merged) as [|[j e] l] eqn:Hm; [done|].
  assert (Hin : In (j, e) (matches d s n merged)) by (rewrite Hm; by left).
  apply matches_elem in Hin. by exists j, e.
Qed.

Lemma merged_nodes : pnodes merged = pnodes G.
Proof. unfold merged_graph. by destruct (matches d s n G). Qed.

(** What the move query does to the graph.  The nodes are as they were; no
    edge joins the source and the old node any more; an edge joins the
    source and the new node, and every such edge has, under each key of the
    query, the value the old edges had under it; the edges that join the
    source with neither node are as they were; and after each clause of the
    query there is an edge of the relation at the source. *)
Theorem move_outcome (keys : list string) :
  let final :=
    graph_of
      (run [("old", VInt o); ("new", VInt n); ("self", VInt s)]
         (move_clauses d keys) G) in
  pnodes final = pnodes G
  /\ (forall k e, pedges final !! k = Some e -> connects d s o e = false)
  /\ (exists k e, pedges final !! k = Some e /\ connects d s n e = true)
  /\ (forall p v,
        In p keys ->
        (forall i e, pedges G !! i = Some e -> connects d s o e = true ->
           Dict.get (eprops e) p = Some v) ->
        forall k e, pedges final !! k = Some e -> connects d s n e = true ->
          Dict.get (eprops e) p = Some v)
  /\ (forall k e,
        pedges G !! k = Some e ->
        connects d s o e = false -> connects d s n e = false ->
        pedges final !! k = Some e)
  /\ Forall (fun st => at_source d s (graph_of st))
       (states [("old", VInt o); ("new", VInt n); ("self", VInt s)]
          (move_clauses d keys) (start G)).
Proof.
  unfold run, move_clauses.
  set (sets := map (fun p => SetProperty "r2" p "r") keys).
  set (st3 := {| graph_of := merged; table := move_rows; output := [] |}).
  assert (Hk3 : kept (graph_of st3)) by apply kept_merged.
  assert (Hr3 : forall r, In r (table st3) -> exists i j, move_row r i j)
    by exact move_rows_ok.
  destruct (set_phase_kept P keys st3 Hk3 Hr3) as (Hk4 & Ht4 & _ & Hs4).
  fold sets in Hk4, Ht4, Hs4.
  set (st4 := run_from P sets st3) in *.
  assert (Hrun : run_from P
                   ([MatchNodes [("us", "self"); ("old", "old"); ("new", "new")];
                     MatchRel "us" "old" "r" d; MergeRel "us" "new" "r2" d]
                    ++ sets ++ [With "r"; Delete "r"]) (start G)
                 = step P (step P st4 (With "r")) (Delete "r")).
  { unfold run_from. rewrite fold_left_app. cbn [fold_left].
    rewrite merged_state. fold st3. rewrite fold_left_app. reflexivity. }
  rewrite Hrun.
  set (final := graph_of (step P (step P st4 (With "r")) (Delete "r"))).
  assert (Hfinal : final
                   = fold_left (delete_row "r") (map (project "r") move_rows)
                       (graph_of st4)).
  { unfold final, step. cbn [graph_of table]. by rewrite Ht4. }
  (* the rows that are deleted *)
  assert (Hgone : forall i ei,
            pedges G !! i = Some ei -> connects d s o ei = true ->
            pedges final !! i = None).
  { intros i ei Hi Hci. rewrite Hfinal. apply delete_fold_gone.
    destruct some_new as (j & ej & Hj & Hcj).
    destruct (move_rows_cover i j ei ej Hi Hci Hj Hcj) as [Hin [[Hr _] _]].
    exists (project "r" (row5 i j)). split.
    - apply in_map_iff. by exists (row5 i j).
    - by rewrite edge_of_project. }
  assert (Hstays : forall k,
            (forall e, pedges G !! k = Some e -> connects d s o e = false) ->
            pedges final !! k = pedges (graph_of st4) !! k).
  { intros k Hk. rewrite Hfinal. apply delete_fold_stays.
    intros r (r5 & <- & Hr5)%in_map_iff. rewrite edge_of_project.
    apply move_rows_elem in Hr5 as (i & ei & j & ej & -> & Hi & Hci & _).
    simpl. intros [= ->]. by rewrite (Hk ei Hi) in Hci. }
  assert (Hsub : forall k e,
            pedges final !! k = Some e -> pedges (graph_of st4) !! k = Some e).
  { intros k e. rewrite Hfinal. apply delete_fold_sub. }
  assert (Hnew : exists k e, pedges final !! k = Some e /\ connects d s n e = true).
  { destruct some_new as (j & ej & Hj & Hcj).
    destruct Hk4 as [_ Hk4]. specialize (Hk4 j). rewrite Hj in Hk4.
    destruct Hk4 as (e' & He' & Ht & Hst & Hen & _).
    exists j, e'. split.
    - rewrite Hstays; [exact He'|].
      intros e Hi. destruct (connects d s o e) eqn:Hc; [|done].
      rewrite (before_merge j e Hi) in Hj. injection Hj as ->.
      apply (connects_apart d s o n) in Hc; [|exact Hne]. congruence.
    - by rewrite (connects_shape d s n ej e' Ht Hst Hen). }
  split; [|split; [|split; [|split; [|split]]]].
  - rewrite Hfinal, delete_fold_nodes. destruct Hk4 as [-> _].
    apply merged_nodes.
  - intros k e Hk. destruct (connects d s o e) eqn:Hc; [|done].
    pose proof (Hsub k e Hk) as Hk'.
    destruct Hk4 as [_ Hk4]. specialize (Hk4 k).
    destruct (pedges merged !! k) as [e0|] eqn:Hm.
    + destruct Hk4 as (e' & He' & Ht & Hst & Hen & _).
      rewrite Hk' in He'. injection He' as <-.
      rewrite (connects_shape d s o e0 e Ht Hst Hen) in Hc.
      rewrite (Hgone k e0 (merged_old k e0 Hm Hc) Hc) in Hk. discriminate.
    + rewrite Hk' in Hk4. discriminate.
  - exact Hnew.
  - intros p v Hin Hagree k e Hk Hc.
    pose proof (Hsub k e Hk) as Hk'.
    destruct (set_phase_carried p v Hagree P keys st3 Hk3 Hr3) as [_ Hcar].
    fold sets in Hcar. fold st4 in Hcar.
    apply (Hcar Hin k); [|exact Hk'].
    destruct Hk4 as [_ Hk4]. specialize (Hk4 k).
    destruct (pedges merged !! k) as [e0|] eqn:Hm.
    + destruct Hk4 as (e' & He' & Ht & Hst & Hen & _).
      rewrite Hk' in He'. injection He' as <-.
      rewrite (connects_shape d s n e0 e Ht Hst Hen) in Hc.
      destruct some_old as (i & ei & Hi & Hci).
      destruct (move_rows_cover i k ei e0 Hi Hci Hm Hc) as [Hrow Hmove].
      by exists (row5 i k), i.
    + rewrite Hk' in Hk4. discriminate.
  - intros k e Hi Hco Hcn.
    rewrite Hstays by (intros e1 Hi1; congruence).
    destruct Hk4 as [_ Hk4]. specialize (Hk4 k).
    rewrite (before_merge k e Hi) in Hk4.
    destruct Hk4 as (e' & He' & _ & _ & _ & Hsame).
    by rewrite He', (Hsame Hcn).
  - change ([MatchNodes [("us", "self"); ("old", "old"); ("new", "new")];
             MatchRel "us" "old" "r" d; MergeRel "us" "new" "r2" d]
            ++ sets ++ [With "r"; Delete "r"])
      with ([MatchNodes [("us", "self"); ("old", "old"); ("new", "new")]]
            ++ [MatchRel "us" "old" "r" d]
            ++ [MergeRel "us" "new" "r2" d]
            ++ sets ++ [With "r"; Delete "r"]).
    rewrite !states_app. cbn [states run_from fold_left].
    rewrite merged_state. fold st3. fold (run_from P sets st3). fold st4.
    rewrite matched_state.
    repeat (apply Forall_app; split).
    + constructor; [|constructor]. apply at_source_start.
    + constructor; [|constructor]. apply at_source_start.
    + constructor; [|constructor]. apply at_source_kept, kept_merged.
    + eapply Forall_impl; [exact Hs4|]. intros st. apply at_source_kept.
    + constructor; [by apply at_source_kept|].
      constructor; [|constructor].
      destruct Hnew as (k & e & Hk & Hc). by exists n, k, e.
Qed.

End Move.

End CypherFacts.

(** ** Reconnect on the graph *)

Section Reconnect.

Context `{Collaborators}.

Import Cypher.

Lemma render_cons (c c' : clause) (query : list clause) :
  query_text (c :: c' :: query)
  = render_clause _rel_helper _rel_merge_helper c
    +:+ " " +:+ query_text (c' :: query).
Proof. reflexivity. Qed.

Lemma read_text (d : definition) :
  query_text (read_clauses d)
  = reconnect_read_query (_rel_helper "us" "old" "r" d).
Proof. reflexivity. Qed.

Lemma sets_text (keys : list string) :
  " " +:+ query_text (map (fun p => SetProperty "r2" p "r") keys
                      ++ [With "r"; Delete "r"])
  = set_clauses keys +:+ " WITH r DELETE r".
Proof.
  induction keys as [|p keys IH]; [reflexivity|].
  assert (Hshape : exists c' rest,
            map (fun p => SetProperty "r2" p "r") keys
            ++ [With "r"; Delete "r"] = c' :: rest)
    by (destruct keys; simpl; eauto).
  destruct Hshape as (c' & rest & Heq).
  cbn [map app]. rewrite Heq in IH |- *. rewrite render_cons.
  cbn [set_clauses foldr]. fold (set_clauses keys).
  rewrite app_assoc_string, <- IH.
  unfold set_clause, render_clause. rewrite !app_assoc_string. reflexivity.
Qed.

Lemma move_text (d : definition) (keys : list string) :
  query_text (move_clauses d keys)
  = ("MATCH (us), (old), (new) "
     +:+ "WHERE id(us)=$self and id(old)=$old and id(new)=$new "
     +:+ "MATCH " +:+ _rel_helper "us" "old" "r" d)
    +:+ " MERGE" +:+ _rel_merge_helper "us" "new" "r2" None d
    +:+ set_clauses keys
    +:+ " WITH r DELETE r".
Proof.
  unfold move_clauses. cbn [app].
  assert (Hshape : exists c' rest,
            map (fun p => SetProperty "r2" p "r") keys
            ++ [With "r"; Delete "r"] = c' :: rest)
    by (destruct keys; simpl; eauto).
  destruct Hshape as (c' & rest & Heq).
  pose proof (sets_text keys) as Hsets. rewrite Heq in Hsets |- *.
  rewrite !render_cons. rewrite Hsets.
  unfold render_clause. rewrite !app_assoc_string. reflexivity.
Qed.


(** C5, as amended: the source and both nodes pass their checks, the two
    nodes have distinct identities, and no edge of the relation joins the
    source and [old_node]; the session runs the read query as the query
    language defines it.  Then [reconnect] fails with [NotConnected] naming
    the source and [old_node]; the only query it has sent is the read, and
    the graph, its edges among it, is unchanged. *)
Theorem reconnect_not_connected (view : graph -> pgraph)
    (old_node new_node : StructuredNode) (self : RelationshipManager)
    (w : world_of graph) (self_id old_id new_id : Z) :
  persisted (source self) = true ->
  valid_node self old_node = true ->
  valid_node self new_node = true ->
  node_id (source self) = Some self_id ->
  node_id old_node = Some old_id ->
  node_id new_node = Some new_id ->
  old_id <> new_id ->
  let d := definition_of self in
  let read_params := [("old", VInt old_id)] in
  (forall i e, pedges (view (db w)) !! i = Some e ->
     connects d self_id old_id e = false) ->
  executes view (source self) (read_clauses d) read_params (db w) ->
  exists w',
    reconnect old_node new_node self w
    = (inl (NotConnected "reconnect" (source self) old_node), w')
    /\ issued w'
       = issued w
         ++ [("MATCH (us), (old) WHERE id(us)=$self and id(old)=$old "
              +:+ "MATCH " +:+ _rel_helper "us" "old" "r" d +:+ " RETURN r",
              Some read_params)]
    /\ raised w'
       = raised w ++ [NotConnected "reconnect" (source self) old_node]
    /\ view (db w') = view (db w).
Proof.
  intros Hp Hold Hnew Hsid Hoid Hnid Hne d read_params Hnone Hread.
  unfold executes in Hread. rewrite Hsid in Hread.
  destruct Hread as (rows & g1 & Hr1 & Hv1 & Hrows).
  change (Dict.set read_params "self" (VInt self_id))
    with [("old", VInt old_id); ("self", VInt self_id)] in Hv1, Hrows.
  rewrite read_keeps_graph in Hv1.
  rewrite read_output_none in Hrows by by apply matches_none.
  destruct rows as [|row rows]; [|discriminate].
  rewrite read_text in Hr1.
  rewrite (reconnect_read_finds_nothing old_node new_node self w old_id new_id
             g1 Hp Hold Hnew Hoid Hnid Hne Hr1).
  eexists. split; [reflexivity|]. cbn [db issued raised].
  split; [reflexivity|]. split; [reflexivity|exact Hv1].
Qed.

End Reconnect.

(** ** The edge-class registry *)

Lemma pyclass_eqb_refl : forall c, pyclass_eqb c c = true.
Proof.
  fix IH 1. intros [n bs]. simpl. rewrite String.eqb_refl. simpl.
  induction bs as [|b bs IHbs]; [reflexivity|].
  rewrite (IH b). exact IHbs.
Qed.

(** A class is a subclass of itself, so binding the bound class again is a
    rebinding and not a conflict. *)
Lemma issubclass_refl (c : pyclass) : issubclass c c = true.
Proof.
  destruct c as [n bs].
  change (issubclass (PyClass n bs) (PyClass n bs))
    with (pyclass_eqb (PyClass n bs) (PyClass n bs)
          || existsb (fun b => issubclass b (PyClass n bs)) bs).
  by rewrite pyclass_eqb_refl.
Qed.

(** C2, as amended: with the label already bound to [bound], constructing a
    definition whose model is unrelated to [bound] and is a direct subclass
    of [StructuredRel] fails with [RelationshipClassRedefined] and leaves the
    registry as it was; constructing one whose model is a subclass of
    [bound] succeeds and rebinds the label to the model. *)
Theorem redefinition_checked {manager_t : Type} (StructuredRel : pyclass)
    (found_name : string) (found_file : option string)
    (relation_type : string) (cls_name : raw_class) (dir : direction_t)
    (mgr : manager_t) (model bound : pyclass)
    (registry : gmap (gset string) pyclass) :
  registry !! ({[ relation_type ]} : gset string) = Some bound ->
  (issubclass model bound = false ->
   issubclass bound model = false ->
   is_direct_subclass model StructuredRel = true ->
   RelationshipDefinition_init StructuredRel found_name found_file
     relation_type cls_name dir mgr (Some model) registry
   = (inl (RelationshipClassRedefined relation_type registry model), registry))
  /\ (issubclass model bound = true ->
      exists self,
        RelationshipDefinition_init StructuredRel found_name found_file
          relation_type cls_name dir mgr (Some model) registry
        = (inr self, <[ ({[ relation_type ]} : gset string) := model ]> registry)
        /\ def_model manager_t self = Some model
        /\ (<[ ({[ relation_type ]} : gset string) := model ]> registry)
             !! ({[ relation_type ]} : gset string) = Some model).
Proof.
  intros Hbound. unfold RelationshipDefinition_init. rewrite Hbound. split.
  - intros -> -> ->. reflexivity.
  - intros ->. simpl. eexists. split; [reflexivity|].
    split; [reflexivity|]. apply lookup_insert_eq.
Qed.

(** C2, the statement as written fails: two classes that are unrelated, both
    edge-property classes through the same intermediate base; the second is
    accepted for the label the first is bound to, and the binding stays. *)
Lemma redefinition_unrelated_accepted :
  issubclass Toy.LivesAt Toy.WorksAt = false
  /\ issubclass Toy.WorksAt Toy.LivesAt = false
  /\ issubclass Toy.LivesAt Toy.Rel = true
  /\ exists self,
      RelationshipTo Toy.Rel "app.models" None (ClassName "Place") "WORKS" tt
        (Some Toy.LivesAt) Toy.works_registry
      = (inr self, Toy.works_registry).
Proof.
  repeat split.
  unfold RelationshipTo, _relate, RelationshipDefinition_init.
  change (issubclass Toy.LivesAt Toy.Rel) with true. cbn [negb].
  unfold Toy.works_registry. rewrite lookup_singleton_eq.
  change (issubclass Toy.LivesAt Toy.WorksAt) with false. cbn [negb].
  change (is_direct_subclass Toy.LivesAt Toy.Rel) with false. cbn [andb].
  eexists. reflexivity.
Qed.

(** ** The statements on the small instance *)

#[local] Existing Instance Toy.toy.

(** [bulk_disconnect] on a source that is flagged as deleted and has an
    identity, with a session that binds [$self] from that identity: the
    delete query is sent and the call returns normally, where [bulk_connect]
    with the same key stops at the source check.  On a source that was never
    saved the same session fails on the missing [id], after the query was
    handed to it, and not with the [ValueError] of the check. *)
Example bulk_disconnect_on_deleted_source :
  persisted Toy.erased = false
  /\ bulk_disconnect (H := Toy.strict) ["u-1"] Toy.friends_of_erased
       (Toy.fresh [])
     = (inr tt,
        {| db := [];
           issued :=
             [("MATCH (a), (b) WHERE id(a)=$self and b.uuid in $them MATCH (a)-[r:`FRIEND`]->(b) DELETE r",
               Some [("them", VList [VStr "u-1"])])];
           raised := [] |})
  /\ bulk_connect (H := Toy.strict) ["u-1"] "Person" None Toy.friends_of_erased
       (Toy.fresh [])
     = (inl (ValueError "Person.friends.bulk_connect() attempted on deleted node"),
        {| db := [];
           issued := [];
           raised :=
             [ValueError "Person.friends.bulk_connect() attempted on deleted node"] |})
  /\ bulk_disconnect (H := Toy.strict) ["u-1"] Toy.friends_of_unsaved
       (Toy.fresh [])
     = (inl (AttributeError "id"),
        {| db := [];
           issued :=
             [("MATCH (a), (b) WHERE id(a)=$self and b.uuid in $them MATCH (a)-[r:`FRIEND`]->(b) DELETE r",
               Some [("them", VList [VStr "u-1"])])];
           raised := [AttributeError "id"] |}).
Proof. repeat split. Qed.

(** C5, the statement as written fails: no edge joins alice and bob, bob is
    given as both old and new, and [reconnect] returns normally, with
    nothing sent, instead of failing with [NotConnected]. *)
Lemma reconnect_to_itself_without_edge :
  (forall i e, Cypher.pedges Engine.strangers !! i = Some e ->
     Cypher.connects Toy.friend 1 2 e = false)
  /\ reconnect (H := Engine.engine) Toy.bob Toy.bob Toy.friends_of_alice
       (Engine.fresh Engine.strangers)
     = (inr tt, Engine.fresh Engine.strangers)
  /\ ~ (exists w',
         reconnect (H := Engine.engine) Toy.bob Toy.bob Toy.friends_of_alice
           (Engine.fresh Engine.strangers)
         = (inl (NotConnected "reconnect" Toy.alice Toy.bob), w')).
Proof.
  split.
  { intros i e Hi. unfold Engine.strangers in Hi. cbn [Cypher.pedges] in Hi.
    by rewrite lookup_empty in Hi. }
  split; [reflexivity|].
  intros [w' Hrun]. discriminate Hrun.
Qed.

(** C3, the statement as written fails: no edge-property class is bound,
    properties are supplied, and [bulk_connect] with an empty key list
    returns [None] without an error. *)
Lemma bulk_connect_empty_with_properties :
  model (definition_of Toy.known_by_alice) = None
  /\ Dict.truthy [("since", VInt 1)] = true
  /\ bulk_connect [] "Person" (Some [("since", VInt 1)]) Toy.known_by_alice
       (Toy.fresh [])
     = (inr None, Toy.fresh []).
Proof. repeat split. Qed.

(** On the small database the session runs the two queries of
    [reconnect]. *)
Lemma engine_executes (node : StructuredNode) (self_id : Z)
    (query : list Cypher.clause) (params : Dict.t value) (g : Cypher.pgraph) :
  node_id node = Some self_id ->
  Dict.get Engine.prepared (query_text (H := Engine.engine) query) = Some query ->
  executes (H := Engine.engine) (fun g => g) node query params g.
Proof.
  intros Hid Hknown. unfold executes. rewrite Hid.
  eexists _, _. split; [|split; reflexivity].
  cbn [node_cypher Engine.engine]. unfold Engine.cypher.
  rewrite Hid, Hknown. reflexivity.
Qed.


(** Alice has no edge to bob: the move to carol is refused, and the graph
    is as it was. *)
Lemma reconnect_not_connected_witness :
  persisted (source Toy.friends_of_alice) = true
  /\ valid_node Toy.friends_of_alice Toy.bob = true
  /\ valid_node Toy.friends_of_alice Toy.carol = true
  /\ 2 <> 3
  /\ (forall i e, Cypher.pedges Engine.strangers !! i = Some e ->
        Cypher.connects Toy.friend 1 2 e = false)
  /\ reconnect (H := Engine.engine) Toy.bob Toy.carol Toy.friends_of_alice
       (Engine.fresh Engine.strangers)
     = (inl (NotConnected "reconnect" Toy.alice Toy.bob),
        {| db := Engine.strangers;
           issued :=
             [("MATCH (us), (old) WHERE id(us)=$self and id(old)=$old MATCH (us)-[r:`FRIEND`]->(old) RETURN r",
               Some [("old", VInt 2)])];
           raised := [NotConnected "reconnect" Toy.alice Toy.bob] |})
  /\ exists w',
      reconnect (H := Engine.engine) Toy.bob Toy.carol Toy.friends_of_alice
        (Engine.fresh Engine.strangers)
      = (inl (NotConnected "reconnect" Toy.alice Toy.bob), w')
      /\ issued w'
         = [] ++ [("MATCH (us), (old) WHERE id(us)=$self and id(old)=$old "
                   +:+ "MATCH " +:+ Toy.rel_helper "us" "old" "r" Toy.friend
                   +:+ " RETURN r",
                   Some [("old", VInt 2)])]
      /\ raised w' = [] ++ [NotConnected "reconnect" Toy.alice Toy.bob]
      /\ db w' = Engine.strangers.
Proof.
  assert (Hnone : forall i e,
            Cypher.pedges Engine.strangers !! i = Some e ->
            Cypher.connects Toy.friend 1 2 e = false)
    by (intros i e Hi; unfold Engine.strangers in Hi;
        cbn [Cypher.pedges] in Hi; by rewrite lookup_empty in Hi).
  split; [reflexivity|]. split; [reflexivity|]. split; [reflexivity|].
  split; [lia|]. split; [exact Hnone|].
  split; [vm_compute; reflexivity|].
  refine (reconnect_not_connected (H := Engine.engine) (fun g => g)
            Toy.bob Toy.carol Toy.friends_of_alice
            (Engine.fresh Engine.strangers) 1 2 3
            eq_refl eq_refl eq_refl eq_refl eq_refl eq_refl ltac:(lia)
            Hnone _).
  apply (engine_executes _ 1); [reflexivity|vm_compute; reflexivity].
Defined.

(** Bob is reconnected to himself: nothing is sent. *)
Lemma reconnect_same_identity_witness :
  node_id Toy.bob = node_id Toy.bob
  /\ issued (reconnect Toy.bob Toy.bob Toy.friends_of_alice
               (Toy.fresh [inr [[Toy.old_edge]]])).2 = []
  /\ db (reconnect Toy.bob Toy.bob Toy.friends_of_alice
           (Toy.fresh [inr [[Toy.old_edge]]])).2 = [inr [[Toy.old_edge]]]
  /\ reconnect Toy.bob Toy.bob Toy.friends_of_alice
       (Toy.fresh [inr [[Toy.old_edge]]])
     = (inr tt, Toy.fresh [inr [[Toy.old_edge]]]).
Proof.
  split; [reflexivity|].
  exact (reconnect_same_identity Toy.bob Toy.bob Toy.friends_of_alice
           (Toy.fresh [inr [[Toy.old_edge]]]) eq_refl).
Defined.

(** Properties for a relationship that has no edge-property class. *)
Lemma properties_without_model_fail_witness :
  model (definition_of Toy.known_by_alice) = None
  /\ Dict.truthy [("since", VInt 1)] = true
  /\ (exists e,
        connect Toy.bob (Some [("since", VInt 1)]) Toy.known_by_alice
          (Toy.fresh [])
        = (inl e, failed (Toy.fresh []) e)
        /\ validation_error e = true
        /\ exists msg, e = NotImplementedError msg)
  /\ (exists e,
        bulk_connect ["u-1"] "Person" (Some [("since", VInt 1)])
          Toy.known_by_alice (Toy.fresh [])
        = (inl e, failed (Toy.fresh []) e)
        /\ validation_error e = true
        /\ exists msg, e = NotImplementedError msg).
Proof.
  split; [reflexivity|]. split; [reflexivity|].
  pose proof (properties_without_model_fail (H := Toy.toy) Toy.known_by_alice
                [("since", VInt 1)] eq_refl eq_refl) as [Hc Hb].
  split.
  - exact (Hc Toy.bob (Toy.fresh [])).
  - exact (Hb "u-1" [] "Person" (Toy.fresh [])).
Defined.

(** [BaseRel] is refused for the label bound to [FriendRel], and
    [CloseFriendRel] is accepted and bound. *)
Lemma redefinition_checked_witness :
  Toy.friend_registry !! ({[ "FRIEND" ]} : gset string) = Some Toy.FriendRel
  /\ RelationshipDefinition_init Toy.Rel "app.models" None "FRIEND"
       (ClassName "Person") OUTGOING tt (Some Toy.BaseRel) Toy.friend_registry
     = (inl (RelationshipClassRedefined "FRIEND" Toy.friend_registry Toy.BaseRel),
        Toy.friend_registry)
  /\ exists self,
      RelationshipDefinition_init Toy.Rel "app.models" None "FRIEND"
        (ClassName "Person") OUTGOING tt (Some Toy.CloseFriendRel)
        Toy.friend_registry
      = (inr self,
         <[ ({[ "FRIEND" ]} : gset string) := Toy.CloseFriendRel ]>
           Toy.friend_registry)
      /\ def_model unit self = Some Toy.CloseFriendRel
      /\ (<[ ({[ "FRIEND" ]} : gset string) := Toy.CloseFriendRel ]>
            Toy.friend_registry)
           !! ({[ "FRIEND" ]} : gset string) = Some Toy.CloseFriendRel.
Proof.
  assert (Hbound : Toy.friend_registry !! ({[ "FRIEND" ]} : gset string)
                   = Some Toy.FriendRel)
    by apply lookup_singleton_eq.
  split; [exact Hbound|]. split.
  - exact (proj1 (redefinition_checked Toy.Rel "app.models" None "FRIEND"
                    (ClassName "Person") OUTGOING tt Toy.BaseRel Toy.FriendRel
                    Toy.friend_registry Hbound)
             eq_refl eq_refl eq_refl).
  - exact (proj2 (redefinition_checked Toy.Rel "app.models" None "FRIEND"
                    (ClassName "Person") OUTGOING tt Toy.CloseFriendRel
                    Toy.FriendRel Toy.friend_registry Hbound)
             eq_refl).
Defined.

(** No properties are supplied, so
    [since] takes its declared default and [note] is null; the first is bound
    through a placeholder and the second is passed as an explicit null. *)
Lemma connect_binds_every_property_witness :
  persisted (source Toy.friends_of_alice) = true
  /\ valid_node Toy.friends_of_alice Toy.bob = true
  /\ rel_deflate Toy.FriendRel
       (__properties__ (rel_new Toy.FriendRel Dict.empty))
     = inr [("since", VInt 2020); ("note", VNone)]
  /\ In ("since", VInt 2020) (__properties__ (rel_new Toy.FriendRel Dict.empty))
  /\ exists rp params,
      issued (connect Toy.bob None Toy.friends_of_alice
                (Toy.fresh [inr [[Toy.old_edge]]])).2
      = [((("MATCH (them:" +:+ "Person" +:+ "), (us:" +:+ "Person"
             +:+ ") WHERE id(them)=$them and id(us)=$self " +:+ "MERGE")
            +:+ Toy.rel_merge_helper "us" "them" "r" (Some rp) Toy.friend)
           +:+ " RETURN r",
           Some params)]
      /\ Dict.get params "them" = Some (VInt 2)
      /\ Dict.get rp "since" = Some (Some "$since")
      /\ Dict.get params "since" = Some (VInt 2020)
      /\ Dict.get rp "note" = Some None
      /\ Dict.get params "note" = Some VNone.
Proof.
  split; [reflexivity|]. split; [reflexivity|]. split; [reflexivity|].
  assert (Hnd : NoDup (Dict.keys [("since", VInt 2020); ("note", VNone)])).
  { apply NoDup_cons_2; [|apply NoDup_singleton].
    intros Hin%list_elem_of_In. destruct Hin as [Heq|[]]. discriminate Heq. }
  destruct (connect_binds_every_property (H := Toy.toy) Toy.bob None Toy.friends_of_alice
              (Toy.fresh [inr [[Toy.old_edge]]]) Toy.FriendRel
              [("since", VInt 2020); ("note", VNone)] 2
              eq_refl eq_refl eq_refl eq_refl eq_refl Hnd
              ltac:(intros hook Hh; discriminate Hh))
    as (Hdefaults & rp & params & Hissued & Hthem & Hall).
  split; [exact (Hdefaults "since" (Some (VInt 2020)) (or_introl eq_refl))|].
  exists rp, params.
  split; [exact Hissued|]. split; [exact Hthem|].
  destruct (Hall "since" (VInt 2020) (or_introl eq_refl))
    as (Hrp1 & v1 & Hp1 & Hv1).
  destruct (Hall "note" VNone (or_intror (or_introl eq_refl)))
    as (Hrp2 & v2 & Hp2 & Hv2).
  rewrite (Hv1 ltac:(discriminate)) in Hp1.
  rewrite (Hv2 ltac:(discriminate)) in Hp2.
  repeat split; assumption.
Defined.

(** A robot known by a
    person, so the edge comes in; the instance starts at the person's class
    and ends at the robot's. *)
Lemma start_end_classes_follow_direction_witness :
  relationship Toy.bob Toy.known_by_robbie (Toy.fresh [inr [[Toy.old_edge]]])
  = (inr (Some {| rel_class := Toy.Rel;
                  __properties__ := Toy.old_edge;
                  _start_node_class := Some Toy.Person;
                  _end_node_class := Some Toy.Robot |}),
     {| db := [];
        issued :=
          [("MATCH (us)<-[r:`KNOWS`]-(them) WHERE id(them)=$them and id(us)=$self RETURN r LIMIT 1",
            Some [("them", VInt 2)])];
        raised := [] |})
  /\ oriented INCOMING Toy.Robot Toy.Person
       {| rel_class := Toy.Rel;
          __properties__ := Toy.old_edge;
          _start_node_class := Some Toy.Person;
          _end_node_class := Some Toy.Robot |}.
Proof.
  split; [reflexivity|].
  exact (proj1 (proj2 (proj2
           (start_end_classes_follow_direction Toy.robbie Toy.bob
              "known_by" Toy.knows)))
           (Toy.fresh [inr [[Toy.old_edge]]]) _ _ eq_refl).
Defined.

(** The engine has nothing at index 0 and
    [single] answers [None]; the session finds no edge and [relationship]
    answers [None]. *)
Lemma no_failure_swallowed_witness :
  __getitem__ 0 Toy.friends_of_alice (Toy.fresh [])
  = (inl IndexError, failed (Toy.fresh []) IndexError)
  /\ single Toy.friends_of_alice (Toy.fresh [])
     = (inr None, failed (Toy.fresh []) IndexError)
  /\ (relationship Toy.bob Toy.friends_of_alice (Toy.fresh [])).1 = inr None
  /\ (all_relationships Toy.bob Toy.friends_of_alice (Toy.fresh [])).1 = inr [].
Proof.
  pose proof (no_failure_swallowed (H := Toy.toy) Toy.friends_of_alice)
    as (_ & _ & _ & _ & _ & _ & _ & _ & _ & _ & _ & _ & Hsingle & Hrel & Hall).
  split; [reflexivity|]. split; [|split].
  - exact (Hsingle (Toy.fresh []) _ eq_refl).
  - exact (Hrel Toy.bob 2 (Toy.fresh []) [] eq_refl eq_refl eq_refl eq_refl).
  - exact (Hall Toy.bob 2 (Toy.fresh []) [] eq_refl eq_refl eq_refl eq_refl).
Defined.


(** ** Further properties of the registry *)

(** X1: constructing a definition for one relation type leaves the binding
    of every other label set as it was, whatever the model and whether or
    not the construction succeeds. *)
Theorem init_keeps_other_labels {manager_t : Type} (StructuredRel : pyclass)
    (found_name : string) (found_file : option string)
    (relation_type : string) (cls_name : raw_class) (dir : direction_t)
    (mgr : manager_t) (model : option pyclass)
    (registry : gmap (gset string) pyclass) (k : gset string) :
  k <> {[ relation_type ]} ->
  (RelationshipDefinition_init StructuredRel found_name found_file
     relation_type cls_name dir mgr model registry).2 !! k
  = registry !! k.
Proof.
  intros Hk. unfold RelationshipDefinition_init.
  destruct model as [m|]; [|reflexivity].
  destruct (registry !! ({[ relation_type ]} : gset string)) as [bound|];
    simpl.
  - destruct (issubclass m bound); simpl.
    + by rewrite lookup_insert_ne.
    + by destruct (is_direct_subclass m StructuredRel && _).
  - by rewrite lookup_insert_ne.
Qed.

(** X2: a label that is bound stays bound, and the class it is bound to
    afterwards is a subclass of the one it was bound to before: a binding
    only ever becomes more specific. *)
Theorem init_binding_only_narrows {manager_t : Type} (StructuredRel : pyclass)
    (found_name : string) (found_file : option string)
    (relation_type : string) (cls_name : raw_class) (dir : direction_t)
    (mgr : manager_t) (model : option pyclass) (bound : pyclass)
    (registry : gmap (gset string) pyclass) :
  registry !! ({[ relation_type ]} : gset string) = Some bound ->
  exists c,
    (RelationshipDefinition_init StructuredRel found_name found_file
       relation_type cls_name dir mgr model registry).2
      !! ({[ relation_type ]} : gset string) = Some c
    /\ issubclass c bound = true.
Proof.
  intros Hbound. unfold RelationshipDefinition_init.
  destruct model as [m|].
  2:{ exists bound. split; [exact Hbound|apply issubclass_refl]. }
  rewrite Hbound. destruct (issubclass m bound) eqn:Hsub; simpl.
  - exists m. split; [apply lookup_insert_eq|exact Hsub].
  - exists bound. split; [|apply issubclass_refl].
    by destruct (is_direct_subclass m StructuredRel && _).
Qed.

(** X3: a model that is a strict ancestor of the class bound to the label
    is accepted, and the more specific binding is kept. *)
Theorem init_ancestor_keeps_binding {manager_t : Type} (StructuredRel : pyclass)
    (found_name : string) (found_file : option string)
    (relation_type : string) (cls_name : raw_class) (dir : direction_t)
    (mgr : manager_t) (model bound : pyclass)
    (registry : gmap (gset string) pyclass) :
  registry !! ({[ relation_type ]} : gset string) = Some bound ->
  issubclass model bound = false ->
  issubclass bound model = true ->
  exists self,
    RelationshipDefinition_init StructuredRel found_name found_file
      relation_type cls_name dir mgr (Some model) registry
    = (inr self, registry)
    /\ def_model manager_t self = Some model.
Proof.
  intros Hbound Hsub Hparent. unfold RelationshipDefinition_init.
  rewrite Hbound, Hsub, Hparent. simpl. rewrite andb_false_r.
  eexists. split; reflexivity.
Qed.

(** X4: constructing the same definition a second time gives the same
    outcome and changes nothing more: the registry after two constructions
    is the registry after one. *)
Theorem init_twice_is_init_once {manager_t : Type} (StructuredRel : pyclass)
    (found_name : string) (found_file : option string)
    (relation_type : string) (cls_name : raw_class) (dir : direction_t)
    (mgr : manager_t) (model : option pyclass)
    (registry : gmap (gset string) pyclass) :
  let once :=
    RelationshipDefinition_init StructuredRel found_name found_file
      relation_type cls_name dir mgr model registry in
  RelationshipDefinition_init StructuredRel found_name found_file
    relation_type cls_name dir mgr model once.2
  = once.
Proof.
  unfold RelationshipDefinition_init.
  destruct model as [m|]; [|reflexivity].
  destruct (registry !! ({[ relation_type ]} : gset string)) as [bound|] eqn:Hb;
    simpl.
  - destruct (issubclass m bound) eqn:Hsub; simpl.
    + rewrite lookup_insert_eq, issubclass_refl. simpl.
      by rewrite insert_insert_eq.
    + destruct (is_direct_subclass m StructuredRel && _) eqn:Hc; simpl;
        by rewrite Hb, Hsub, Hc.
  - rewrite lookup_insert_eq, issubclass_refl. simpl.
    by rewrite insert_insert_eq.
Qed.

(** Once the module of the declaration is known, the registry update fails
    only in the conflict: the label is bound, the model and the bound class
    are subclasses neither way, and the model is a direct subclass of
    [StructuredRel]. *)
Lemma registry_update_fails_on_conflict {manager_t : Type} (StructuredRel : pyclass)
    (found_name : string) (found_file : option string)
    (relation_type : string) (cls_name : raw_class) (dir : direction_t)
    (mgr : manager_t) (model : option pyclass)
    (registry registry' : gmap (gset string) pyclass) (e : exn) :
  RelationshipDefinition_init StructuredRel found_name found_file
    relation_type cls_name dir mgr model registry
  = (inl e, registry') ->
  exists m bound,
    model = Some m
    /\ registry !! ({[ relation_type ]} : gset string) = Some bound
    /\ issubclass m bound = false
    /\ issubclass bound m = false
    /\ is_direct_subclass m StructuredRel = true
    /\ e = RelationshipClassRedefined relation_type registry m
    /\ registry' = registry.
Proof.
  unfold RelationshipDefinition_init.
  destruct model as [m|]; [|discriminate].
  destruct (registry !! ({[ relation_type ]} : gset string)) as [bound|];
    [|discriminate].
  destruct (issubclass m bound) eqn:Hsub; simpl; [discriminate|].
  destruct (is_direct_subclass m StructuredRel) eqn:Hd; simpl; [|discriminate].
  destruct (issubclass bound m) eqn:Hp; simpl; [discriminate|].
  intros [= <- <-]. exists m, bound. done.
Qed.

(** X6: the three constructors check the model before they touch the
    registry: a model that is not a subclass of [StructuredRel] is refused
    with [ValueError] and nothing is registered, bound label or not. *)
Theorem constructors_refuse_foreign_model {manager_t : Type}
    (StructuredRel : pyclass) (found_name : string)
    (found_file : option string) (cls_name : raw_class) (rel_type : string)
    (cardinality : manager_t) (model : pyclass)
    (registry : gmap (gset string) pyclass) :
  issubclass model StructuredRel = false ->
  RelationshipTo StructuredRel found_name found_file cls_name rel_type
    cardinality (Some model) registry
  = (inl (ValueError "model must be a StructuredRel"), registry)
  /\ RelationshipFrom StructuredRel found_name found_file cls_name rel_type
       cardinality (Some model) registry
     = (inl (ValueError "model must be a StructuredRel"), registry)
  /\ Relationship StructuredRel found_name found_file cls_name rel_type
       cardinality (Some model) registry
     = (inl (ValueError "model must be a StructuredRel"), registry).
Proof.
  intros Hsub. unfold RelationshipTo, RelationshipFrom, Relationship, _relate.
  by rewrite Hsub.
Qed.

Lemma issubclass_of_equal (b d : pyclass) :
  pyclass_eqb b d = true -> issubclass b d = true.
Proof.
  intros Heq. destruct b as [n bs].
  change (issubclass (PyClass n bs) d)
    with (pyclass_eqb (PyClass n bs) d
          || existsb (fun b => issubclass b d) bs).
  by rewrite Heq.
Qed.

(** X7: what [is_direct_subclass] accepts [issubclass] accepts too, so a
    model directly under [StructuredRel] always passes the model check of
    the constructors. *)
Theorem direct_subclass_is_subclass (obj classinfo : pyclass) :
  is_direct_subclass obj classinfo = true -> issubclass obj classinfo = true.
Proof.
  unfold is_direct_subclass. destruct obj as [n bs]. simpl __bases__.
  intros Hdirect.
  change (issubclass (PyClass n bs) classinfo)
    with (pyclass_eqb (PyClass n bs) classinfo
          || existsb (fun b => issubclass b classinfo) bs).
  apply orb_true_iff. right.
  apply existsb_exists in Hdirect as (b & Hin & Heq).
  apply existsb_exists. exists b. split; [exact Hin|].
  by apply issubclass_of_equal.
Qed.

(** ** Frames and the lookup of the endpoint class *)

Lemma find_bounds (s : string) (c : ascii) : find s c = -1 \/ 0 <= find s c.
Proof.
  induction s as [|a s IH]; [by left|]. simpl.
  destruct (Ascii.eqb a c); [right; lia|].
  destruct (Z.eqb_spec (find s c) (-1)); [by left|right; lia].
Qed.

Lemma find_cons_none (a c : ascii) (s : string) :
  find (String a s) c = -1 -> Ascii.eqb a c = false /\ find s c = -1.
Proof.
  simpl. destruct (Ascii.eqb a c); [discriminate|].
  destruct (Z.eqb_spec (find s c) (-1)) as [Heq|Hne]; [done|].
  destruct (find_bounds s c); lia.
Qed.

Lemma rsplit_none (s : string) (c : ascii) :
  find s c = -1 -> rsplit s c = None.
Proof.
  induction s as [|a s IH]; [done|].
  intros [Ha Hs]%find_cons_none. simpl. by rewrite (IH Hs), Ha.
Qed.

Lemma rsplit_app (m n : string) (c : ascii) :
  find n c = -1 -> rsplit (m +:+ String c n) c = Some (m, n).
Proof.
  intros Hn. induction m as [|a m IH].
  - change ("" +:+ String c n) with (String c n). simpl.
    by rewrite (rsplit_none n c Hn), Ascii.eqb_refl.
  - change (String a m +:+ String c n) with (String a (m +:+ String c n)).
    simpl. by rewrite IH.
Qed.

Lemma find_app (m n : string) (c : ascii) :
  Z.eqb (find (m +:+ String c n) c) (-1) = false.
Proof.
  apply Z.eqb_neq. induction m as [|a m IH].
  - change ("" +:+ String c n) with (String c n). simpl.
    by rewrite Ascii.eqb_refl.
  - change (String a m +:+ String c n) with (String a (m +:+ String c n)).
    simpl. destruct (Ascii.eqb a c); [done|].
    rewrite (proj2 (Z.eqb_neq _ _) IH).
    destruct (find_bounds (m +:+ String c n) c); lia.
Qed.

(** What [rpartition] takes apart goes back together. *)
Lemma rpartition_join (s : string) (c : ascii) :
  (rpartition s c).1.1 +:+ (rpartition s c).1.2 +:+ (rpartition s c).2 = s.
Proof.
  unfold rpartition.
  assert (Hsplit : forall head tail,
             rsplit s c = Some (head, tail) -> head +:+ String c tail = s).
  { induction s as [|a s IH]; intros head tail; [discriminate|]. simpl.
    destruct (rsplit s c) as [[h t]|].
    - intros [= <- <-].
      change (String a h +:+ String c t) with (String a (h +:+ String c t)).
      by rewrite (IH h t eq_refl).
    - destruct (Ascii.eqb_spec a c) as [->|]; [|discriminate].
      by intros [= <- <-]. }
  destruct (rsplit s c) as [[head tail]|]; [|reflexivity].
  simpl. exact (Hsplit head tail eq_refl).
Qed.

Lemma list_find_none_all {A} (P : A -> bool) (l : list A) :
  Forall (fun x => P x = false) l -> list_find P l = None.
Proof.
  intros Hall. apply list_find_None.
  eapply Forall_impl; [exact Hall|]. simpl.
  intros x Hx HP. rewrite Hx in HP. exact HP.
Qed.

(** X20: an endpoint given as a class object, or under a name that no frame
    of the stack defines, takes its module from the frame four levels above
    [__init__]; on a stack with fewer than five frames the construction fails
    with [ValueError] and registers nothing. *)
Theorem module_of_default_frame {manager_t : Type} (StructuredRel : pyclass)
    (stack : list frame) (relation_type : string) (cls_name : raw_class)
    (dir : direction_t) (mgr : manager_t) (model : option pyclass)
    (registry : gmap (gset string) pyclass) :
  Forall (fun f => raw_in_globals cls_name f = false) stack ->
  RelationshipDefinition_call StructuredRel stack relation_type cls_name dir
    mgr model registry
  = match stack !! 4%nat with
    | Some f =>
        RelationshipDefinition_init StructuredRel (f_name f) (f_file f)
          relation_type cls_name dir mgr model registry
    | None => (inl (ValueError "call stack is not deep enough"), registry)
    end.
Proof.
  intros Hnone. unfold RelationshipDefinition_call, frame_number.
  by rewrite (list_find_none_all _ _ Hnone).
Qed.

(** X21: an endpoint given by a name takes its module from the innermost
    frame whose globals define that name, whatever the frames further out
    define. *)
Theorem module_of_innermost_frame {manager_t : Type} (StructuredRel : pyclass)
    (inner outer : list frame) (f : frame) (relation_type name : string)
    (dir : direction_t) (mgr : manager_t) (model : option pyclass)
    (registry : gmap (gset string) pyclass) :
  Forall (fun g => in_globals name g = false) inner ->
  in_globals name f = true ->
  RelationshipDefinition_call StructuredRel (inner ++ f :: outer)
    relation_type (ClassName name) dir mgr model registry
  = RelationshipDefinition_init StructuredRel (f_name f) (f_file f)
      relation_type (ClassName name) dir mgr model registry.
Proof.
  intros Hinner Hf. unfold RelationshipDefinition_call, frame_number.
  assert (Hfind : list_find (raw_in_globals (ClassName name))
                    (inner ++ f :: outer) = Some (length inner, f)).
  { apply list_find_Some. split; [|split].
    - by rewrite lookup_app_r, Nat.sub_diag.
    - simpl. by rewrite Hf.
    - intros j g Hj Hlt.
      rewrite lookup_app_l in Hj by exact Hlt.
      rewrite Forall_forall in Hinner.
      apply list_elem_of_lookup_2 in Hj.
      simpl. rewrite (Hinner g Hj). by intros []. }
  rewrite Hfind. by rewrite lookup_app_r, Nat.sub_diag.
Qed.


Section LookupFacts.

Variable import_module :
  string -> option string -> gmap string pymodule ->
  result string * gmap string pymodule.

(** X22: for a definition declared with a class object, [build_manager]
    never fails and never imports; the manager is built by the manager class
    from the source, the name, and a definition that carries that class as
    endpoint next to the relation type, direction and model that were
    declared. *)
Theorem build_manager_by_reference {Mgr : Type}
    (self : RelationshipDefinition (StructuredNode -> string -> definition -> Mgr))
    (c : pyclass) (source : StructuredNode) (name : string)
    (sys_modules : gmap string pymodule) :
  _raw_class _ self = ClassRef c ->
  build_manager import_module self source name sys_modules
  = (inr (manager _ self source name
            {| relation_type := def_relation_type _ self;
               direction := def_direction _ self;
               model := def_model _ self;
               node_class := c |}),
     sys_modules).
Proof.
  intros Hraw. unfold build_manager, _lookup_node_class. by rewrite Hraw.
Qed.

(** X23: a dotted name is split at its last dot.  When the module named
    before that dot is loaded, the class is the attribute of that module
    named after the dot; nothing is imported, and the module and file the
    definition was declared in play no part. *)
Theorem lookup_dotted_name {manager_t : Type}
    (self : RelationshipDefinition manager_t) (module name : string)
    (m : pymodule) (sys_modules : gmap string pymodule) :
  find name "."%char = -1 ->
  _raw_class _ self = ClassName (module +:+ "." +:+ name) ->
  sys_modules !! module = Some m ->
  _lookup_node_class import_module self sys_modules
  = (match m_classes m !! name with
     | Some c => inr c
     | None => inl (AttributeError name)
     end,
     sys_modules).
Proof.
  intros Hname Hraw Hloaded. unfold _lookup_node_class. rewrite Hraw.
  change (module +:+ "." +:+ name) with (module +:+ String "."%char name).
  rewrite find_app. unfold rpartition. rewrite (rsplit_app _ _ _ Hname).
  rewrite Hloaded. unfold getattr_module. by rewrite Hloaded.
Qed.

(** X24: a name without a dot is looked up in the module the definition was
    declared in.  When that module is loaded, the class is its attribute of
    that name, and a missing attribute is an [AttributeError]; nothing is
    imported. *)
Theorem lookup_plain_name {manager_t : Type}
    (self : RelationshipDefinition manager_t) (name : string)
    (m : pymodule) (sys_modules : gmap string pymodule) :
  find name "."%char = -1 ->
  _raw_class _ self = ClassName name ->
  sys_modules !! module_name _ self = Some m ->
  _lookup_node_class import_module self sys_modules
  = (match m_classes m !! name with
     | Some c => inr c
     | None => inl (AttributeError name)
     end,
     sys_modules).
Proof.
  intros Hname Hraw Hloaded. unfold _lookup_node_class.
  rewrite Hraw, Hname. simpl. rewrite Hloaded.
  unfold getattr_module. by rewrite Hloaded.
Qed.

(** X25: when the module to look in is not loaded and the definition was
    declared in a namespace without [__file__], the lookup fails with
    [ImportError] naming the class, and no import is attempted. *)
Theorem lookup_without_file {manager_t : Type}
    (self : RelationshipDefinition manager_t) (module name : string)
    (sys_modules : gmap string pymodule) :
  find name "."%char = -1 ->
  module_file _ self = None ->
  (_raw_class _ self = ClassName name ->
   sys_modules !! module_name _ self = None ->
   _lookup_node_class import_module self sys_modules
   = (inl (ImportError ("Couldn't lookup '" +:+ name +:+ "'")), sys_modules))
  /\ (_raw_class _ self = ClassName (module +:+ "." +:+ name) ->
      sys_modules !! module = None ->
      _lookup_node_class import_module self sys_modules
      = (inl (ImportError ("Couldn't lookup '" +:+ name +:+ "'")), sys_modules)).
Proof.
  intros Hname Hfile. split; intros Hraw Hmissing; unfold _lookup_node_class;
    rewrite Hraw.
  - rewrite Hname. simpl. by rewrite Hmissing, Hfile.
  - change (module +:+ "." +:+ name) with (module +:+ String "."%char name).
    rewrite find_app. unfold rpartition. rewrite (rsplit_app _ _ _ Hname).
    by rewrite Hmissing, Hfile.
Qed.

(** X26: a dotted name whose module is not loaded is imported relative to
    the package of the declaring module: for a definition declared in the
    module [package.leaf], in a file that is not an [__init__.py], the import
    is made with [package] as its anchor.  An error of the import is the
    outcome; otherwise the class is looked up in the module the import
    returned. *)
Theorem lookup_imports_from_package {manager_t : Type}
    (self : RelationshipDefinition manager_t)
    (package leaf file module name : string) (a : ascii)
    (sys_modules : gmap string pymodule) :
  find name "."%char = -1 ->
  find leaf "."%char = -1 ->
  _raw_class _ self = ClassName (String a module +:+ "." +:+ name) ->
  module_name _ self = package +:+ "." +:+ leaf ->
  module_file _ self = Some file ->
  contains "__init__.py" file = false ->
  sys_modules !! String a module = None ->
  _lookup_node_class import_module self sys_modules
  = (match (import_module (String a module) (Some package) sys_modules).1 with
     | inl e => inl e
     | inr imported =>
         getattr_module
           (import_module (String a module) (Some package) sys_modules).2
           imported name
     end,
     (import_module (String a module) (Some package) sys_modules).2).
Proof.
  intros Hname Hleaf Hraw Hmod Hfile Hinit Hmissing.
  unfold _lookup_node_class. rewrite Hraw.
  change (String a module +:+ "." +:+ name)
    with (String a module +:+ String "."%char name).
  rewrite find_app. unfold rpartition at 1. rewrite (rsplit_app _ _ _ Hname).
  rewrite Hmissing, Hfile, Hinit, Hmod.
  change (package +:+ "." +:+ leaf) with (package +:+ String "."%char leaf).
  unfold rpartition. rewrite (rsplit_app _ _ _ Hleaf). cbn [fst].
  by destruct (import_module _ _ _) as [[e|imported] mods].
Qed.

End LookupFacts.

(** ** The further properties on the small instances *)

(** A definition for [WORKS] leaves the binding of [FRIEND] alone. *)
Lemma init_keeps_other_labels_witness :
  ({[ "FRIEND" ]} : gset string) <> {[ "WORKS" ]}
  /\ (RelationshipDefinition_init Toy.Rel "myapp.models" None "WORKS"
        (ClassName "Place") OUTGOING tt (Some Toy.WorksAt) Toy.friend_registry).2
       !! ({[ "FRIEND" ]} : gset string)
     = Toy.friend_registry !! ({[ "FRIEND" ]} : gset string).
Proof.
  assert (Hne : ({[ "FRIEND" ]} : gset string) <> {[ "WORKS" ]}).
  { intros Heq. assert (Hin : "FRIEND" ∈ ({[ "WORKS" ]} : gset string))
      by (rewrite <- Heq; apply elem_of_singleton; reflexivity).
    apply elem_of_singleton in Hin. discriminate Hin. }
  split; [exact Hne|].
  exact (init_keeps_other_labels Toy.Rel "myapp.models" None "WORKS"
           (ClassName "Place") OUTGOING tt (Some Toy.WorksAt)
           Toy.friend_registry {[ "FRIEND" ]} Hne).
Defined.

(** [FRIEND] is bound to [FriendRel]; after [CloseFriendRel] is declared
    for it, it is bound to a subclass of [FriendRel]. *)
Lemma init_binding_only_narrows_witness :
  Toy.friend_registry !! ({[ "FRIEND" ]} : gset string) = Some Toy.FriendRel
  /\ exists c,
      (RelationshipDefinition_init Toy.Rel "myapp.models" None "FRIEND"
         (ClassName "Person") OUTGOING tt (Some Toy.CloseFriendRel)
         Toy.friend_registry).2 !! ({[ "FRIEND" ]} : gset string) = Some c
      /\ issubclass c Toy.FriendRel = true.
Proof.
  assert (Hbound : Toy.friend_registry !! ({[ "FRIEND" ]} : gset string)
                   = Some Toy.FriendRel)
    by apply lookup_singleton_eq.
  split; [exact Hbound|].
  exact (init_binding_only_narrows Toy.Rel "myapp.models" None "FRIEND"
           (ClassName "Person") OUTGOING tt (Some Toy.CloseFriendRel)
           Toy.FriendRel Toy.friend_registry Hbound).
Defined.

(** [BaseRel] is declared for the label bound to its subclass [WorksAt]. *)
Lemma init_ancestor_keeps_binding_witness :
  Toy.works_registry !! ({[ "WORKS" ]} : gset string) = Some Toy.WorksAt
  /\ issubclass Toy.BaseRel Toy.WorksAt = false
  /\ issubclass Toy.WorksAt Toy.BaseRel = true
  /\ exists self,
      RelationshipDefinition_init Toy.Rel "myapp.models" None "WORKS"
        (ClassName "Place") OUTGOING tt (Some Toy.BaseRel) Toy.works_registry
      = (inr self, Toy.works_registry)
      /\ def_model unit self = Some Toy.BaseRel.
Proof.
  assert (Hbound : Toy.works_registry !! ({[ "WORKS" ]} : gset string)
                   = Some Toy.WorksAt)
    by apply lookup_singleton_eq.
  split; [exact Hbound|]. split; [reflexivity|]. split; [reflexivity|].
  exact (init_ancestor_keeps_binding Toy.Rel "myapp.models" None "WORKS"
           (ClassName "Place") OUTGOING tt Toy.BaseRel Toy.WorksAt
           Toy.works_registry Hbound eq_refl eq_refl).
Defined.

(** A node class is not an edge-property class. *)
Lemma constructors_refuse_foreign_model_witness :
  issubclass Toy.Person Toy.Rel = false
  /\ RelationshipTo Toy.Rel "myapp.models" None (ClassName "Person") "FRIEND"
       tt (Some Toy.Person) Toy.friend_registry
     = (inl (ValueError "model must be a StructuredRel"), Toy.friend_registry).
Proof.
  split; [reflexivity|].
  exact (proj1 (constructors_refuse_foreign_model Toy.Rel "myapp.models" None
                  (ClassName "Person") "FRIEND" tt Toy.Person
                  Toy.friend_registry eq_refl)).
Defined.

(** [FriendRel] is declared directly under [StructuredRel]. *)
Lemma direct_subclass_is_subclass_witness :
  is_direct_subclass Toy.FriendRel Toy.Rel = true
  /\ issubclass Toy.FriendRel Toy.Rel = true.
Proof.
  split; [reflexivity|].
  exact (direct_subclass_is_subclass Toy.FriendRel Toy.Rel eq_refl).
Defined.

(** A robot is not a person, and [disconnect] sends its query for it all the
    same. *)
Lemma disconnect_skips_node_check_witness :
  persisted (source Toy.friends_of_alice) = true
  /\ valid_node Toy.friends_of_alice Toy.robbie = false
  /\ disconnect Toy.robbie Toy.friends_of_alice (Toy.fresh [])
     = (inr tt,
        {| db := [];
           issued :=
             [("MATCH (a), (b) WHERE id(a)=$self and id(b)=$them MATCH (a)-[r:`FRIEND`]->(b) DELETE r",
               Some [("them", VInt 7)])];
           raised := [] |}).
Proof.
  split; [reflexivity|]. split; [reflexivity|].
  exact (disconnect_skips_node_check (H := Toy.toy) Toy.robbie
           Toy.friends_of_alice (Toy.fresh []) eq_refl).
Defined.

(** The session is down when [replace] sends its delete. *)
Lemma replace_stops_when_delete_fails_witness :
  persisted (source Toy.friends_of_alice) = true
  /\ replace Toy.bob None Toy.friends_of_alice
       (Toy.fresh [inl (OtherError "ServiceUnavailable")])
     = (inl (OtherError "ServiceUnavailable"),
        {| db := [];
           issued :=
             [("MATCH (a) WHERE id(a)=$self MATCH (a)-[r:`FRIEND`]->(b:Person) DELETE r",
               None)];
           raised := [OtherError "ServiceUnavailable"] |}).
Proof.
  split; [reflexivity|].
  exact (replace_stops_when_delete_fails (H := Toy.toy) Toy.bob None
           Toy.friends_of_alice
           (Toy.fresh [inl (OtherError "ServiceUnavailable")])
           (OtherError "ServiceUnavailable") [] eq_refl eq_refl).
Defined.

(** Alice's friends are replaced by a robot: the friends are gone and the
    robot is refused. *)
Lemma replace_deletes_before_validating_witness :
  persisted (source Toy.friends_of_alice) = true
  /\ valid_node Toy.friends_of_alice Toy.robbie = false
  /\ exists e,
      replace Toy.robbie None Toy.friends_of_alice (Toy.fresh [inr []])
      = (inl e,
         {| db := [];
            issued :=
              [("MATCH (a) WHERE id(a)=$self MATCH (a)-[r:`FRIEND`]->(b:Person) DELETE r",
                None)];
            raised := [e] |})
      /\ validation_error e = true.
Proof.
  split; [reflexivity|]. split; [reflexivity|].
  exact (replace_deletes_before_validating (H := Toy.toy) Toy.robbie None
           Toy.friends_of_alice (Toy.fresh [inr []]) [] []
           eq_refl eq_refl (or_introl eq_refl)).
Defined.

(** The friends of a node that was never saved. *)
Lemma proxies_check_the_source_witness :
  persisted (source Toy.friends_of_unsaved) = false
  /\ (exists msg,
        proxy (Traversal_len (pyargs := unit)) Toy.friends_of_unsaved
          (Toy.fresh [])
        = (inl (ValueError msg), failed (Toy.fresh []) (ValueError msg)))
  /\ (exists msg,
        single Toy.friends_of_unsaved (Toy.fresh [])
        = (inl (ValueError msg), failed (Toy.fresh []) (ValueError msg))).
Proof.
  split; [reflexivity|].
  pose proof (proxies_check_the_source (H := Toy.toy) Toy.friends_of_unsaved
                (Toy.fresh []) eq_refl) as (Hproxy & _ & Hsingle).
  split; [exact (Hproxy Traversal_len)|exact Hsingle].
Defined.

(** A robot offered as a friend of alice. *)
Lemma node_check_comes_first_witness :
  persisted (source Toy.friends_of_alice) = true
  /\ valid_node Toy.friends_of_alice Toy.robbie = false
  /\ exists msg,
      connect Toy.robbie None Toy.friends_of_alice
        (Toy.fresh [inr [[Toy.old_edge]]])
      = (inl (ValueError msg),
         failed (Toy.fresh [inr [[Toy.old_edge]]]) (ValueError msg))
      /\ reconnect Toy.bob Toy.robbie Toy.friends_of_alice
           (Toy.fresh [inr [[Toy.old_edge]]])
         = (inl (ValueError msg),
            failed (Toy.fresh [inr [[Toy.old_edge]]]) (ValueError msg)).
Proof.
  split; [reflexivity|]. split; [reflexivity|].
  destruct (node_check_comes_first (H := Toy.toy) Toy.robbie
              Toy.friends_of_alice (Toy.fresh [inr [[Toy.old_edge]]])
              eq_refl eq_refl)
    as (msg & Hconnect & _ & _ & _ & Hnew).
  exists msg. split; [exact (Hconnect None)|exact (Hnew Toy.bob eq_refl)].
Defined.

(** Alice is connected to a node by its key: the instance that comes back
    ends at [NoneType]. *)
Lemma bulk_connect_has_no_target_class_witness :
  (bulk_connect ["u-1"] "Person" None Toy.friends_of_alice
     (Toy.fresh [inr [[Toy.old_edge]]])).1
  = inr (Some (ConnectedRel
                 {| rel_class := Toy.FriendRel;
                    __properties__ := Toy.old_edge;
                    _start_node_class := Some Toy.Person;
                    _end_node_class := Some NoneType |}))
  /\ oriented OUTGOING Toy.Person NoneType
       {| rel_class := Toy.FriendRel;
          __properties__ := Toy.old_edge;
          _start_node_class := Some Toy.Person;
          _end_node_class := Some NoneType |}.
Proof.
  split; [reflexivity|].
  exact (bulk_connect_has_no_target_class (H := Toy.toy) ["u-1"] "Person" None
           Toy.friends_of_alice (Toy.fresh [inr [[Toy.old_edge]]]) _ _ eq_refl).
Defined.

(** Two edges join alice and bob; [relationship] gives the first. *)
Lemma relationship_takes_first_row_witness :
  persisted (source Toy.friends_of_alice) = true
  /\ valid_node Toy.friends_of_alice Toy.bob = true
  /\ relationship Toy.bob Toy.friends_of_alice
       (Toy.fresh [inr [[Toy.old_edge]; [[("since", VInt 2021)]]]])
     = (inr (Some {| rel_class := Toy.FriendRel;
                     __properties__ := Toy.old_edge;
                     _start_node_class := Some Toy.Person;
                     _end_node_class := Some Toy.Person |}),
        {| db := [];
           issued :=
             [("MATCH (us)-[r:`FRIEND`]->(them) WHERE id(them)=$them and id(us)=$self RETURN r LIMIT 1",
               Some [("them", VInt 2)])];
           raised := [] |}).
Proof.
  split; [reflexivity|]. split; [reflexivity|].
  exact (relationship_takes_first_row (H := Toy.toy) Toy.bob
           Toy.friends_of_alice
           (Toy.fresh [inr [[Toy.old_edge]; [[("since", VInt 2021)]]]])
           2 Toy.old_edge [] [[[("since", VInt 2021)]]] []
           {| rel_class := Toy.FriendRel;
              __properties__ := Toy.old_edge;
              _start_node_class := None;
              _end_node_class := None |}
           eq_refl eq_refl eq_refl eq_refl eq_refl).
Defined.

(** Two edges join alice and bob; [all_relationships] gives both, in the
    order of the answer. *)
Lemma all_relationships_maps_rows_witness :
  persisted (source Toy.friends_of_alice) = true
  /\ valid_node Toy.friends_of_alice Toy.bob = true
  /\ all_relationships Toy.bob Toy.friends_of_alice
       (Toy.fresh [inr [[Toy.old_edge]; [[("since", VInt 2021)]]]])
     = (inr [{| rel_class := Toy.FriendRel;
                __properties__ := Toy.old_edge;
                _start_node_class := Some Toy.Person;
                _end_node_class := Some Toy.Person |};
             {| rel_class := Toy.FriendRel;
                __properties__ := [("since", VInt 2021)];
                _start_node_class := Some Toy.Person;
                _end_node_class := Some Toy.Person |}],
        {| db := [];
           issued :=
             [("MATCH (us)-[r:`FRIEND`]->(them) WHERE id(them)=$them and id(us)=$self RETURN r ",
               Some [("them", VInt 2)])];
           raised := [] |}).
Proof.
  split; [reflexivity|]. split; [reflexivity|].
  refine (all_relationships_maps_rows (H := Toy.toy) Toy.bob
            Toy.friends_of_alice
            (Toy.fresh [inr [[Toy.old_edge]; [[("since", VInt 2021)]]]])
            2 [[Toy.old_edge]; [[("since", VInt 2021)]]]
            [{| rel_class := Toy.FriendRel;
                __properties__ := Toy.old_edge;
                _start_node_class := None;
                _end_node_class := None |};
             {| rel_class := Toy.FriendRel;
                __properties__ := [("since", VInt 2021)];
                _start_node_class := None;
                _end_node_class := None |}]
            [] eq_refl eq_refl eq_refl eq_refl _).
  repeat constructor; eexists; split; reflexivity.
Defined.

(** Alice is known by bob: a relationship without an edge-property class. *)
Lemma connect_without_model_witness :
  persisted (source Toy.known_by_alice) = true
  /\ valid_node Toy.known_by_alice Toy.bob = true
  /\ connect Toy.bob None Toy.known_by_alice (Toy.fresh [])
     = (inr ConnectedTrue,
        {| db := [];
           issued :=
             [("MATCH (them:Person), (us:Person) WHERE id(them)=$them and id(us)=$self MERGE(us)<-[r:`KNOWS`]-(them)",
               Some [("them", VInt 2)])];
           raised := [] |}).
Proof.
  split; [reflexivity|]. split; [reflexivity|].
  exact (connect_without_model (H := Toy.toy) Toy.bob None Toy.known_by_alice
           (Toy.fresh []) 2 eq_refl eq_refl eq_refl eq_refl eq_refl).
Defined.

(** Alice is known by two nodes given by their keys. *)
Lemma bulk_connect_without_model_witness :
  persisted (source Toy.known_by_alice) = true
  /\ bulk_connect ["u-1"; "u-2"] "Person" None Toy.known_by_alice (Toy.fresh [])
     = (inr (Some ConnectedTrue),
        {| db := [];
           issued :=
             [("UNWIND $uuids as uuid MATCH (them:Person), (us:Person) WHERE them.uuid=uuid and id(us)=$self MERGE(us)<-[r:`KNOWS`]-(them)",
               Some [("them", VStr "uuid");
                     ("uuids", VList [VStr "u-1"; VStr "u-2"])])];
           raised := [] |}).
Proof.
  split; [reflexivity|].
  exact (bulk_connect_without_model (H := Toy.toy) "u-1" ["u-2"] "Person" None
           Toy.known_by_alice (Toy.fresh []) eq_refl eq_refl eq_refl).
Defined.

(** Bob has vanished from the graph when alice connects to him. *)
Lemma connect_needs_a_row_witness :
  persisted (source Toy.friends_of_alice) = true
  /\ valid_node Toy.friends_of_alice Toy.bob = true
  /\ connect Toy.bob None Toy.friends_of_alice (Toy.fresh [])
     = (inl IndexError,
        {| db := [];
           issued :=
             [("MATCH (them:Person), (us:Person) WHERE id(them)=$them and id(us)=$self MERGE(us)-[r:`FRIEND` {since: $since, note: None}]->(them) RETURN r",
               Some [("since", VInt 2020); ("note", VNone); ("them", VInt 2)])];
           raised := [IndexError] |}).
Proof.
  split; [reflexivity|]. split; [reflexivity|].
  exact (connect_needs_a_row (H := Toy.toy) Toy.bob None Toy.friends_of_alice
           (Toy.fresh []) (Toy.fresh []) Toy.FriendRel
           [("since", VInt 2020); ("note", VNone)] 2 []
           eq_refl eq_refl eq_refl eq_refl eq_refl eq_refl eq_refl).
Defined.

(** A relationship to a class object, declared in a class body of
    [myapp.models]: the fifth frame is the module. *)
Lemma module_of_default_frame_witness :
  Forall (fun f => raw_in_globals (ClassRef Toy.Person) f = false) ToyApp.stack
  /\ RelationshipDefinition_call Toy.Rel ToyApp.stack "FRIEND"
       (ClassRef Toy.Person) OUTGOING tt None Toy.friend_registry
     = RelationshipDefinition_init Toy.Rel "myapp.models"
         (Some "myapp/models.py") "FRIEND" (ClassRef Toy.Person) OUTGOING tt
         None Toy.friend_registry.
Proof.
  assert (Hnone : Forall (fun f => raw_in_globals (ClassRef Toy.Person) f = false)
                    ToyApp.stack)
    by (repeat constructor).
  split; [exact Hnone|].
  exact (module_of_default_frame Toy.Rel ToyApp.stack "FRIEND"
           (ClassRef Toy.Person) OUTGOING tt None Toy.friend_registry Hnone).
Defined.

Lemma not_defined_in_manager_frame :
  in_globals "Person" ToyApp.manager_frame = false.
Proof. vm_compute. reflexivity. Qed.

Lemma defined_in_models_frame :
  in_globals "Person" ToyApp.models_frame = true.
Proof. vm_compute. reflexivity. Qed.

(** A relationship to ["Person"], declared where [Person] is defined. *)
Lemma module_of_innermost_frame_witness :
  Forall (fun g => in_globals "Person" g = false)
    [ToyApp.manager_frame; ToyApp.manager_frame; ToyApp.manager_frame]
  /\ in_globals "Person" ToyApp.models_frame = true
  /\ RelationshipDefinition_call Toy.Rel ToyApp.stack "FRIEND"
       (ClassName "Person") OUTGOING tt None Toy.friend_registry
     = RelationshipDefinition_init Toy.Rel "myapp.models"
         (Some "myapp/models.py") "FRIEND" (ClassName "Person") OUTGOING tt
         None Toy.friend_registry.
Proof.
  assert (Hinner : Forall (fun g => in_globals "Person" g = false)
                     [ToyApp.manager_frame; ToyApp.manager_frame;
                      ToyApp.manager_frame])
    by (repeat constructor; apply not_defined_in_manager_frame).
  split; [exact Hinner|]. split; [exact defined_in_models_frame|].
  exact (module_of_innermost_frame Toy.Rel
           [ToyApp.manager_frame; ToyApp.manager_frame; ToyApp.manager_frame]
           [ToyApp.models_frame; ToyApp.main_frame] ToyApp.models_frame
           "FRIEND" "Person" OUTGOING tt None Toy.friend_registry
           Hinner defined_in_models_frame).
Defined.

(** The manager of alice's friends, for a definition declared with the
    class [Person]. *)
Lemma build_manager_by_reference_witness :
  _raw_class _ (ToyApp.declared (ClassRef Toy.Person)) = ClassRef Toy.Person
  /\ build_manager ToyApp.importer (ToyApp.declared (ClassRef Toy.Person))
       Toy.alice "friends" ∅
     = (inr {| source := Toy.alice;
               source_class := Toy.Person;
               name := "friends";
               definition_of :=
                 {| relation_type := "FRIEND"; direction := OUTGOING;
                    model := None; node_class := Toy.Person |} |},
        ∅).
Proof.
  split; [reflexivity|].
  exact (build_manager_by_reference ToyApp.importer
           (ToyApp.declared (ClassRef Toy.Person)) Toy.Person Toy.alice
           "friends" ∅ eq_refl).
Defined.

Lemma models_loaded : ToyApp.loaded !! "myapp.models" = Some ToyApp.models.
Proof. apply lookup_singleton_eq. Qed.

Lemma person_in_models :
  m_classes ToyApp.models !! "Person" = Some Toy.Person.
Proof. apply lookup_singleton_eq. Qed.

(** ["myapp.models.Person"], with [myapp.models] loaded. *)
Lemma lookup_dotted_name_witness :
  find "Person" "."%char = -1
  /\ ToyApp.loaded !! "myapp.models" = Some ToyApp.models
  /\ _lookup_node_class ToyApp.importer
       (ToyApp.declared_without_file (ClassName "myapp.models.Person"))
       ToyApp.loaded
     = (inr Toy.Person, ToyApp.loaded).
Proof.
  split; [reflexivity|]. split; [exact models_loaded|].
  pose proof (lookup_dotted_name ToyApp.importer
                (ToyApp.declared_without_file (ClassName "myapp.models.Person"))
                "myapp.models" "Person" ToyApp.models ToyApp.loaded
                eq_refl eq_refl models_loaded) as Hrun.
  rewrite person_in_models in Hrun. exact Hrun.
Defined.

(** ["Person"], declared in [myapp.models]. *)
Lemma lookup_plain_name_witness :
  find "Person" "."%char = -1
  /\ ToyApp.loaded !! "myapp.models" = Some ToyApp.models
  /\ _lookup_node_class ToyApp.importer
       (ToyApp.declared (ClassName "Person")) ToyApp.loaded
     = (inr Toy.Person, ToyApp.loaded).
Proof.
  split; [reflexivity|]. split; [exact models_loaded|].
  pose proof (lookup_plain_name ToyApp.importer
                (ToyApp.declared (ClassName "Person"))
                "Person" ToyApp.models ToyApp.loaded
                eq_refl eq_refl models_loaded) as Hrun.
  rewrite person_in_models in Hrun. exact Hrun.
Defined.

(** Nothing is loaded and the declaring namespace has no file. *)
Lemma lookup_without_file_witness :
  find "Person" "."%char = -1
  /\ (∅ : gmap string pymodule) !! "myapp.models" = None
  /\ _lookup_node_class ToyApp.importer
       (ToyApp.declared_without_file (ClassName "Person")) ∅
     = (inl (ImportError "Couldn't lookup 'Person'"), ∅)
  /\ _lookup_node_class ToyApp.importer
       (ToyApp.declared_without_file (ClassName "myapp.models.Person")) ∅
     = (inl (ImportError "Couldn't lookup 'Person'"), ∅).
Proof.
  split; [reflexivity|]. split; [apply lookup_empty|]. split.
  - exact (proj1 (lookup_without_file ToyApp.importer
                    (ToyApp.declared_without_file (ClassName "Person"))
                    "myapp.models" "Person" ∅ eq_refl eq_refl)
             eq_refl (lookup_empty _)).
  - exact (proj2 (lookup_without_file ToyApp.importer
                    (ToyApp.declared_without_file
                       (ClassName "myapp.models.Person"))
                    "myapp.models" "Person" ∅ eq_refl eq_refl)
             eq_refl (lookup_empty _)).
Defined.

Lemma robots_not_loaded : ToyApp.loaded !! ".robots" = None.
Proof. apply lookup_singleton_ne. discriminate. Qed.

(** [".robots.Robot"], declared in [myapp/models.py]: the import is made
    from [myapp]. *)
Lemma lookup_imports_from_package_witness :
  contains "__init__.py" "myapp/models.py" = false
  /\ ToyApp.loaded !! ".robots" = None
  /\ _lookup_node_class ToyApp.importer
       (ToyApp.declared (ClassName ".robots.Robot")) ToyApp.loaded
     = (inr Toy.Robot, <[ "myapp.robots" := ToyApp.robots ]> ToyApp.loaded).
Proof.
  split; [reflexivity|]. split; [exact robots_not_loaded|].
  pose proof (lookup_imports_from_package ToyApp.importer
                (ToyApp.declared (ClassName ".robots.Robot"))
                "myapp" "models" "myapp/models.py" "robots" "Robot" "."%char
                ToyApp.loaded eq_refl eq_refl eq_refl eq_refl eq_refl eq_refl
                robots_not_loaded) as Hrun.
  cbn [ToyApp.importer String.eqb Ascii.eqb Bool.eqb fst snd] in Hrun.
  unfold getattr_module in Hrun.
  rewrite lookup_insert_eq in Hrun.
  change (m_classes ToyApp.robots) with ({[ "Robot" := Toy.Robot ]} : gmap string pyclass) in Hrun.
  rewrite lookup_singleton_eq in Hrun. exact Hrun.
Defined.

